(** * toke-api: a shallow embedding of the reference-data and billing backend

    The development follows the layering of the repository:
    - [Js]: the JavaScript values and built-ins the code relies on
      (truthiness, [parseInt], [String.prototype.trim], [padStart], ...);
    - [W], [HttpStatus], [R]: the small tools of [src/tools];
    - [ExtractQueryParams]: pagination extraction from the request query;
    - [TableInitializer], [BaseModel]: the registry of tables and the generic
      persistence primitives (find / insert / update / delete / max / GUID);
    - [CountryDbStructure], [CountryModel], [Country], [CountryRoute]: one
      entity from schema to HTTP handlers;
    - [Revision]: the revision stamp of a table;
    - [BillingCycleDbStructure], [LicenseAdjustmentDbStructure]: the row-level
      validators of the billing schema, over IEEE-754 doubles.
    - [CountryTimezoneRoute], [CountryExportRoute], [CountryDisplay],
      [CountryRevision], [TokenGenerator], [BillingCycleOptions],
      [BillingCycleValidation], [LicenseAdjustmentDates], [Ensure]: the
      functions around those, with the invariants ([Invariant], [Stored],
      [Schema]) the persistence layer keeps;
    - [App]: what the application answers itself, around the routers;
    - [Timestamps], [StampedCountryModel], [SubscriptionModel]: the update
      path with the modification stamp of the ORM, on two models;
    - [Text]: the ASCII texts, on which strings of bytes are the strings of
      JavaScript.

    Definitions come first, the theorems about them follow. *)

From Stdlib Require Import ZArith Lia Bool List String Ascii Floats DecimalString.
From Stdlib Require Import DecimalPos DecimalFacts.
From stdpp Require Import gmap strings.

Local Open Scope string_scope.
Local Open Scope Z_scope.
Set Warnings "-register-all".

(* ===================================================================== *)
(** * Part I: the program                                                 *)
(* ===================================================================== *)

(** ** Errors: what [throw] raises and [catch] receives *)

Record error : Type := Error_ { error_name : string; error_message : string }.

(** [new Error(message)] and the [TypeError] the runtime raises. *)
Definition Error (m : string) : error := Error_ "Error" m.
Definition TypeError (m : string) : error := Error_ "TypeError" m.

(** [String(e)], that is [Error.prototype.toString]. *)
Definition toString (e : error) : string :=
  match error_name e, error_message e with
  | EmptyString, m => m
  | n, EmptyString => n
  | n, m => n +:+ ": " +:+ m
  end.

Inductive result (A : Type) : Type :=
| Ok (a : A)
| Throw (e : error).
Arguments Ok {A} a.
Arguments Throw {A} e.

(** Sequencing of calls that may throw: [let* x := r in k] is [k x] when
    [r] returns [x], and rethrows what [r] throws. *)
Definition bind {A B : Type} (r : result A) (k : A -> result B) : result B :=
  match r with
  | Ok a => k a
  | Throw e => Throw e
  end.

Notation "'let*' x ':=' r 'in' k" := (bind r (fun x => k))
  (at level 10, x pattern, r at level 100, k at level 200).

(** ** JavaScript values and built-ins *)

Module Js.

(** A property of a JS object whose declared type is [A]: it can be
    [undefined] (never assigned), [null] (as a NULL column comes back from
    the database) or hold a value. *)
Inductive opt (A : Type) : Type :=
| undefined
| null
| val (a : A).
Arguments undefined {A}.
Arguments null {A}.
Arguments val {A} a.

Definition is_undefined {A} (x : opt A) : bool :=
  match x with undefined => true | _ => false end.

(** [x == null] in JS: true of [null] and [undefined]. *)
Definition is_nullish {A} (x : opt A) : bool :=
  match x with val _ => false | _ => true end.

(** Truthiness of the primitive types that occur in the code. *)
Definition truthy_Z (n : Z) : bool := negb (n =? 0).
Definition truthy_string (s : string) : bool :=
  match s with EmptyString => false | String _ _ => true end.
(** A double is falsy when it is [0], [-0] or [NaN]. *)
Definition is_nan (x : float) : bool := negb (PrimFloat.eqb x x).
Definition truthy_float (x : float) : bool :=
  negb (PrimFloat.eqb x 0%float) && negb (is_nan x).

Definition truthy {A} (t : A -> bool) (x : opt A) : bool :=
  match x with val a => t a | _ => false end.

(** *** Characters *)

Definition is_digit (c : ascii) : bool :=
  let n := nat_of_ascii c in (48 <=? n)%nat && (n <=? 57)%nat.
Definition is_upper (c : ascii) : bool :=
  let n := nat_of_ascii c in (65 <=? n)%nat && (n <=? 90)%nat.
Definition is_lower (c : ascii) : bool :=
  let n := nat_of_ascii c in (97 <=? n)%nat && (n <=? 122)%nat.
Definition is_alpha (c : ascii) : bool := is_upper c || is_lower c.

(** The ASCII members of the ECMAScript WhiteSpace and LineTerminator
    classes: TAB, LF, VT, FF, CR and SPACE. The Unicode spaces beyond ASCII
    are not recognised. *)
Definition is_white (c : ascii) : bool :=
  let n := nat_of_ascii c in
  ((9 <=? n)%nat && (n <=? 13)%nat) || (n =? 32)%nat.

Definition upper_char (c : ascii) : ascii :=
  if is_lower c then ascii_of_nat (nat_of_ascii c - 32) else c.

Definition digit_value (c : ascii) : Z := Z.of_nat (nat_of_ascii c) - 48.

(** *** Strings

    A string is a string of bytes. On ASCII text ([Text.plain], further
    down) the functions of this section are those of JavaScript:
    [String.length] is [.length], which counts UTF-16 code units, [trim]
    strips the white space of ECMAScript and [toUpperCase] maps the letters
    a to z. On other text JavaScript also strips the Unicode spaces and
    maps the cased letters beyond ASCII, and a character beyond ASCII takes
    several bytes. *)

Fixpoint toUpperCase (s : string) : string :=
  match s with
  | EmptyString => EmptyString
  | String c r => String (upper_char c) (toUpperCase r)
  end.

Fixpoint trimStart (s : string) : string :=
  match s with
  | String c r => if is_white c then trimStart r else s
  | EmptyString => EmptyString
  end.

(** [trimEnd] drops the trailing run of white space: a character is kept
    when it is not white or when something is kept after it. *)
Fixpoint trimEnd (s : string) : string :=
  match s with
  | EmptyString => EmptyString
  | String c r =>
      match trimEnd r with
      | EmptyString => if is_white c then EmptyString else String c EmptyString
      | r' => String c r'
      end
  end.

Definition trim (s : string) : string := trimEnd (trimStart s).

(** [s.includes(sub)]. *)
Fixpoint includes (s sub : string) : bool :=
  String.prefix sub s ||
  match s with
  | EmptyString => false
  | String _ r => includes r sub
  end.

(** [String(n)] for an integer [n]: its decimal notation. It is what
    JavaScript prints for a number it holds exactly, below 2^53 in absolute
    value; from 10^21 on JavaScript prints an exponent. *)
Definition String_of_Z (n : Z) : string := NilZero.string_of_int (Z.to_int n).

Fixpoint repeat_char (c : ascii) (n : nat) : string :=
  match n with
  | O => EmptyString
  | S k => String c (repeat_char c k)
  end.

(** [s.padStart(n, c)] with a one-character filler. *)
Definition padStart (n : nat) (c : ascii) (s : string) : string :=
  repeat_char c (n - String.length s) +:+ s.

(** *** [parseInt(s, 10)]

    Leading white space is skipped, one sign is read, then the longest run
    of decimal digits; [None] stands for [NaN] (no digit). The value is kept
    as an exact integer: it is the number JavaScript computes as long as it
    is below 2^53 in absolute value, as for every numeral of at most 15
    digits; beyond, JavaScript rounds it to a double. *)
Fixpoint digits_value (acc : Z) (s : string) : Z :=
  match s with
  | String c r => if is_digit c then digits_value (10 * acc + digit_value c) r else acc
  | EmptyString => acc
  end.

Definition starts_with_digit (s : string) : bool :=
  match s with
  | String c _ => is_digit c
  | EmptyString => false
  end.

Definition parseInt (s : string) : option Z :=
  let s1 := trimStart s in
  let '(neg, s2) :=
    match s1 with
    | String "-" r => (true, r)
    | String "+" r => (false, r)
    | _ => (false, s1)
    end in
  if starts_with_digit s2
  then Some (if neg then - digits_value 0 s2 else digits_value 0 s2)
  else None.

(** *** The anchored regular expressions of the code, as matchers *)

Fixpoint all_chars (p : ascii -> bool) (s : string) : bool :=
  match s with
  | EmptyString => true
  | String c r => p c && all_chars p r
  end.

(** [/^\d+$/] *)
Definition re_digits (s : string) : bool :=
  truthy_string s && all_chars is_digit s.

(** [/^\d{6}$/] *)
Definition re_six_digits (s : string) : bool :=
  (String.length s =? 6)%nat && all_chars is_digit s.

(** [/^[A-Z]{2}$/] *)
Definition re_two_upper (s : string) : bool :=
  (String.length s =? 2)%nat && all_chars is_upper s.

(** [/^[A-Z]{2}$/i] *)
Definition re_two_alpha (s : string) : bool :=
  (String.length s =? 2)%nat && all_chars is_alpha s.

(** [/^[a-zA-Z][a-zA-Z0-9_]*$/] *)
Definition is_ident_char (c : ascii) : bool :=
  is_alpha c || is_digit c || (nat_of_ascii c =? 95)%nat.
Definition re_identifier (s : string) : bool :=
  match s with
  | String c r => is_alpha c && all_chars is_ident_char r
  | EmptyString => false
  end.

End Js.


(** ** The tools of [src/tools] *)

(** [HttpStatus]: the codes the handlers use. *)
Module HttpStatus.
Definition SUCCESS : Z := 200.
Definition CREATED : Z := 201.
Definition NO_CONTENT : Z := 204.
Definition BAD_REQUEST : Z := 400.
Definition NOT_FOUND : Z := 404.
Definition METHOD_NOT_ALLOWED : Z := 405.
Definition CONFLICT : Z := 409.
Definition INTERNAL_ERROR : Z := 500.
End HttpStatus.

(** What [res.json] serialises. An object is the list of its own
    enumerable properties in insertion order. *)
Inductive json : Type :=
| JNull
| JBool (b : bool)
| JNum (n : Z)
| JStr (s : string)
| JArr (items : list json)
| JObj (fields : list (string * json)).

Definition json_get (k : string) (j : json) : option json :=
  match j with
  | JObj fields => snd <$> List.find (fun kv => String.eqb (fst kv) k) fields
  | _ => None
  end.

(** [j.k1.k2...] *)
Definition json_path (ks : list string) (j : json) : option json :=
  foldl (fun o k => match o with Some x => json_get k x | None => None end) (Some j) ks.

Definition has_key (k : string) (j : json) : bool :=
  match json_get k j with Some _ => true | None => false end.

(** [{ code, message }], the error objects of the glossary and of the
    handlers. *)
Definition code_message (code msg : string) : json :=
  JObj [("code", JStr code); ("message", JStr msg)].

(** [G], the glossary entries used below. *)
Module G.
Definition identifierMissing_code : string := "identifier_missing".
Definition savedError : json := code_message "data_saved_error" "items not saved".
Definition tableConf : string := "xf".
Definition tableAp : string := "xa".
End G.

(** [W.isOccur(occurred, message)]. *)
Module W.
Definition isOccur (occurred : bool) (message : string) : result unit :=
  if occurred then Throw (Error message) else Ok tt.
End W.

(** The response a handler sends: [res.status(code).json(body)], or
    [res.status(code).end()] when there is no body. *)
Record response : Type := Response { status : Z; body : option json }.

(** [R]: the response helpers. [now] is [new Date().toISOString()] at the
    time of the call. *)
Module R.

Definition handleSuccess (structure : json) (httpCode : Z) : response :=
  Response httpCode (Some (JObj [("success", JBool true); ("data", structure)])).

Definition handleCreated (structure : json) : response :=
  handleSuccess structure HttpStatus.CREATED.

Definition handleError (now : string) (httpCode : Z) (error : json) : response :=
  Response httpCode
    (Some (JObj [("success", JBool false); ("error", error); ("timestamp", JStr now)])).

Definition handleNoContent : response := Response HttpStatus.NO_CONTENT None.

End R.

(** ** [ExtractQueryParams] *)

Module ExtractQueryParams.

(** [{ offset?: number; limit?: number }] *)
Record pagination : Type := Pagination { offset : option Z; limit : option Z }.

Definition no_pagination : pagination := Pagination None None.

(** [req.query] is an object from parameter names to strings (repeated and
    bracketed parameters, which Express parses to arrays and objects, are
    not modelled). *)
Definition extractPaginationFromQuery (query : gmap string string) : pagination :=
  let pagination_offset :=
    match query !! "offset" with
    | Some s =>
        match Js.parseInt s with
        | Some offset => if 0 <=? offset then Some offset else None
        | None => None
        end
    | None => None
    end in
  let pagination_limit :=
    match query !! "limit" with
    | Some s =>
        match Js.parseInt s with
        | Some limit => if (0 <? limit) && (limit <=? 1000) then Some limit else None
        | None => None
        end
    | None => None
    end in
  Pagination pagination_offset pagination_limit.

End ExtractQueryParams.

(** ** The database: [TableInitializer] and [BaseModel] *)

(** A column value as the ORM hands it over: [null], a number, a string, or
    an object (only its being an object is recorded). Integer columns hold
    exact integers, [VNaN] is the number [NaN]; a DATE column holds the time
    value of its [Date], the milliseconds since the epoch. *)
Inductive value : Type :=
| VNull
| VNum (n : Z)
| VNaN
| VStr (s : string)
| VObject.

#[global] Instance value_eq_dec : EqDecision value.
Proof. solve_decision. Defined.

(** A row, a [where] clause and the data of an insert or update are plain
    objects from column names to values; an absent key is [undefined]. *)
Abbreviation row := (gmap string value).

(** [!v] on a property read [o.k]. *)
Definition truthy_value (v : option value) : bool :=
  match v with
  | Some (VNum n) => Js.truthy_Z n
  | Some (VStr s) => Js.truthy_string s
  | Some VObject => true
  | Some VNull | Some VNaN | None => false
  end.

(** [Number(v)]. A string is read as an optionally signed decimal integer
    after trimming, the empty string as [0]; any other string is [NaN]
    (fractions, exponents and radix prefixes are not modelled, and the
    integer read is exact, as a double is below 2^53). *)
Definition Number_ (v : option value) : value :=
  match v with
  | Some (VNum n) => VNum n
  | Some VNull => VNum 0
  | Some (VStr s) =>
      let t := Js.trim s in
      let digits :=
        match t with
        | String "-" r => r
        | String "+" r => r
        | _ => t
        end in
      match t with
      | EmptyString => VNum 0
      | _ => if Js.re_digits digits
             then match Js.parseInt t with Some n => VNum n | None => VNaN end
             else VNaN
      end
  | _ => VNaN
  end.

(** [JSON.stringify] of a property: an [undefined] one is left out. *)
Definition json_of_value (v : value) : json :=
  match v with
  | VNull | VNaN => JNull
  | VNum n => JNum n
  | VStr s => JStr s
  | VObject => JObj []
  end.

Definition json_fields (fields : list (string * option value)) : list (string * json) :=
  omap (fun kv => match snd kv with
                  | Some v => Some (fst kv, json_of_value v)
                  | None => None
                  end) fields.

(** A table: its rows in storage order, the last value its id sequence
    handed out, and its columns. Unique indexes are not enforced. A row
    carries the stamps it was given: the creation stamp of the ORM is not
    modelled, and the modification stamp it writes on every update is added
    by [Timestamps.updateOne], further down, not by [Model.update]. *)
Record table : Type := Table {
  columns : list string;
  rows : list row;
  sequence : Z
}.

Module TableInitializer.

(** The static registry: [initialized] and [models], a map from table name
    to the model of that table. *)
Record registry : Type := Registry {
  initialized : bool;
  models : gmap string table
}.

(** The names listed by the error message follow the enumeration order of
    the map. *)
Definition available (r : registry) : string :=
  String.concat ", " (fst <$> map_to_list (models r)).

Definition getModel (r : registry) (tableName : string) : result table :=
  if negb (initialized r)
  then Throw (Error "TableInitializer non initialisé. Appelez initialize() d'abord.")
  else
    match models r !! tableName with
    | Some model => Ok model
    | None =>
        Throw (Error ("Modèle '" +:+ tableName +:+ "' non trouvé. Disponibles: "
                      +:+ available r))
    end.

Definition setModel (r : registry) (tableName : string) (t : table) : registry :=
  Registry (initialized r) (<[tableName := t]> (models r)).

End TableInitializer.

(** The ORM calls the base model makes, on one table. *)
Module Model.

(** A row satisfies [where] when it carries each of its bindings. *)
Definition satisfies (where_ : row) (r : row) : bool :=
  bool_decide (map_Forall (fun k v => r !! k = Some v) where_).

(** [model.findOne({ where })]: the first row in storage order. *)
Definition findOne (t : table) (where_ : row) : option row :=
  List.find (satisfies where_) (rows t).

(** [model.findAll({ where, offset, limit })]: the matching rows, after
    skipping [offset] of them, at most [limit] of them. *)
Definition findAll (t : table) (where_ : row) (offset limit : option Z) : list row :=
  let matching := List.filter (satisfies where_) (rows t) in
  let skipped :=
    match offset with
    | Some o => drop (Z.to_nat o) matching
    | None => matching
    end in
  match limit with
  | Some l => take (Z.to_nat l) skipped
  | None => skipped
  end.

(** [model.count({ where })] *)
Definition count (t : table) (where_ : row) : Z :=
  Z.of_nat (length (List.filter (satisfies where_) (rows t))).

(** [model.max(column)] on a numeric or date column: [None] is the [null]
    of a table with no value in that column. *)
Definition max (t : table) (column : string) : option Z :=
  foldr (fun r acc =>
           match r !! column, acc with
           | Some (VNum n), Some m => Some (Z.max n m)
           | Some (VNum n), None => Some n
           | _, _ => acc
           end) None (rows t).

(** [model.create(data)]: the next id of the sequence is given to the row,
    the columns [data] leaves out are NULL, and the stored row is returned. *)
Definition blank (cols : list string) : row :=
  list_to_map ((fun c => (c, VNull)) <$> cols).

Definition create (t : table) (data : row) : row * table :=
  let id := sequence t + 1 in
  let stored := <["id" := VNum id]> (data ∪ blank (columns t)) in
  (stored, Table (columns t) (rows t ++ [stored]) id).

(** [model.update(data, { where })]: every matching row takes the bindings
    of [data] and keeps its other columns; the number of matching rows is
    returned. This is the update of the values as they are given; on a
    schema with [timestamps: true] the ORM adds the modification stamp to
    them first, which is [Timestamps.updateOne]. *)
Definition update (t : table) (data where_ : row) : Z * table :=
  (count t where_,
   Table (columns t)
         ((fun r => if satisfies where_ r then data ∪ r else r) <$> rows t)
         (sequence t)).

(** [model.destroy({ where })] *)
Definition destroy (t : table) (where_ : row) : Z * table :=
  (count t where_,
   Table (columns t)
         (List.filter (fun r => negb (satisfies where_ r)) (rows t))
         (sequence t)).

End Model.

(** [BaseModel]: the CRUD primitives, parameterised by the table name. A
    read takes the registry; a write returns the new registry with its
    result. A call that throws leaves the database as it was. *)
Module BaseModel.
Import TableInitializer.

Definition insertOne (db : registry) (tableName : string) (data : row)
  : result (row * registry) :=
  let* model := getModel db tableName in
  let '(stored, model') := Model.create model data in
  Ok (stored, setModel db tableName model').

Definition findOne (db : registry) (tableName : string) (where_ : row)
  : result (option row) :=
  let* model := getModel db tableName in
  Ok (Model.findOne model where_).

Definition findAll (db : registry) (tableName : string) (where_ : row)
    (paginationOptions : ExtractQueryParams.pagination) : result (list row) :=
  let* model := getModel db tableName in
  let queryOptions_offset :=
    match ExtractQueryParams.offset paginationOptions with
    | Some o => if 0 <=? o then Some o else None
    | None => None
    end in
  let queryOptions_limit :=
    match ExtractQueryParams.limit paginationOptions with
    | Some l => if 0 <? l then Some l else None
    | None => None
    end in
  Ok (Model.findAll model where_ queryOptions_offset queryOptions_limit).

Definition updateOne (db : registry) (tableName : string) (data where_ : row)
  : result (Z * registry) :=
  let* model := getModel db tableName in
  let '(affectedCount, model') := Model.update model data where_ in
  Ok (affectedCount, setModel db tableName model').

Definition deleteOne (db : registry) (tableName : string) (where_ : row)
  : result (bool * registry) :=
  let* model := getModel db tableName in
  let '(deletedCount, model') := Model.destroy model where_ in
  Ok (0 <? deletedCount, setModel db tableName model').

Definition count (db : registry) (tableName : string) (where_ : row) : result Z :=
  let* model := getModel db tableName in
  Ok (Model.count model where_).

Definition exists_ (db : registry) (tableName : string) (where_ : row) : result bool :=
  let* n := count db tableName where_ in
  Ok (0 <? n).

(** [findLastModification(tableName)]: [maxUpdatedAt || null], and [null]
    from the [catch]. *)
Definition findLastModification (db : registry) (tableName : string) : option Z :=
  match getModel db tableName with
  | Throw _ => None
  | Ok model => Model.max model "updated_at"
  end.

(** [guidGenerator(tableName, length = 6)]: [None] is the [null] the method
    returns when the table is unknown (the [catch]) or [length < 3]. The
    sum is computed on integers; JavaScript computes it on doubles, with
    the same result as long as it stays below 2^53. *)
Definition guidGenerator (db : registry) (tableName : string) (length : Z)
  : option Z :=
  match getModel db tableName with
  | Throw _ => None
  | Ok model =>
      if length <? 3 then None
      else
        let offset := 10 ^ (length - 1) in
        let maxId :=
          match Model.max model "id" with
          | Some m => if Js.truthy_Z m then m else 0
          | None => 0
          end in
        let nextId := maxId + 1 in
        let guid := offset + nextId in
        Some guid
  end.

Definition default_length : Z := 6.

End BaseModel.

(** ** The country entity *)

(** [CountryDbStructure.validation] (src/database/data/country.db). The
    validators are typed on [number] and [string]; what they do on another
    runtime type is what the called method does there. The lengths they
    compare are counted in bytes, which are the UTF-16 code units of
    [.length] on ASCII text ([Text.plain], further down). *)
Module CountryDbStructure.

Definition tableName : string := G.tableConf +:+ "_country".

Definition columns : list string :=
  ["id"; "guid"; "code"; "iso"; "name"; "timezone"; "mobileRegex"; "flag"].

(** [x.trim()] on a value: a [TypeError] unless [x] is a string. *)
Definition trim_of (what : string) (v : value) : result string :=
  match v with
  | VStr s => Ok (Js.trim s)
  | VNull => Throw (TypeError "Cannot read properties of null (reading 'trim')")
  | _ => Throw (TypeError (what +:+ ".trim is not a function"))
  end.

(** [Number.isInteger(code) && code > 0 && code <= 999] *)
Definition validateCode (code : value) : bool :=
  match code with
  | VNum n => (0 <? n) && (n <=? 999)
  | _ => false
  end.

Definition validateIso (iso : value) : result bool :=
  let* trimmed := trim_of "iso" iso in
  Ok (Js.re_two_upper (Js.toUpperCase trimmed)).

Definition validateName (name : value) : result bool :=
  let* trimmed := trim_of "name" name in
  Ok ((2 <=? String.length trimmed)%nat && (String.length trimmed <=? 128)%nat).

(** [/^([A-Z][a-z]+\/[A-Za-z_]+|UTC[+-]\d{1,2}(:\d{2})?|UTC)$/] *)
Fixpoint after_lowers (s : string) : string :=
  match s with
  | String c r => if Js.is_lower c then after_lowers r else s
  | EmptyString => EmptyString
  end.

Definition is_city_char (c : ascii) : bool :=
  Js.is_alpha c || (nat_of_ascii c =? 95)%nat.

Definition re_continent_city (s : string) : bool :=
  match s with
  | String c (String l r) =>
      Js.is_upper c && Js.is_lower l &&
      match after_lowers r with
      | String "/" city => Js.truthy_string city && Js.all_chars is_city_char city
      | _ => false
      end
  | _ => false
  end.

Definition is_sign (c : ascii) : bool :=
  (nat_of_ascii c =? 43)%nat || (nat_of_ascii c =? 45)%nat.

Definition re_minutes (s : string) : bool :=
  match s with
  | EmptyString => true
  | String ":" (String a (String b EmptyString)) => Js.is_digit a && Js.is_digit b
  | _ => false
  end.

Definition re_utc_offset (s : string) : bool :=
  match s with
  | String "U" (String "T" (String "C" (String sg (String d r)))) =>
      is_sign sg && Js.is_digit d &&
      (re_minutes r ||
       match r with
       | String d' r' => Js.is_digit d' && re_minutes r'
       | EmptyString => false
       end)
  | _ => false
  end.

Definition re_timezone (s : string) : bool :=
  re_continent_city s || re_utc_offset s || String.eqb s "UTC".

Definition validateTimezone (timezone : value) : result bool :=
  let* trimmed := trim_of "timezone" timezone in
  Ok (re_timezone trimmed).

Definition validateMobileRegex (mobileRegex : value) : result bool :=
  let* trimmed := trim_of "mobileRegex" mobileRegex in
  Ok (Js.re_identifier trimmed).

Definition validateFlag (flag : value) : result bool :=
  let* trimmed := trim_of "flag" flag in
  Ok ((1 <=? String.length trimmed)%nat && (String.length trimmed <=? 10)%nat).

(** One step of [cleanData]: [if (data.k) data.k = f(data.k)]. *)
Definition clean_field (what : string) (f : string -> string) (v : option value)
  : result (option value) :=
  if truthy_value v then
    match v with
    | Some x => let* s := trim_of what x in Ok (Some (VStr (f s)))
    | None => Ok v
    end
  else Ok v.

End CountryDbStructure.

(** [CountryModel] (src/model/CountryModel.ts): the persistence of one
    country. The instance fields are optional and hold whatever was
    assigned: [None] is [undefined]. *)
Module CountryModel.
Import TableInitializer.

Record t : Type := Country_ {
  id : option value;
  guid : option value;
  code : option value;
  iso : option value;
  name : option value;
  timezone : option value;
  mobileRegex : option value;
  flag : option value
}.

Definition new : t := Country_ None None None None None None None None.

Definition tableName : string := CountryDbStructure.tableName.

Definition find (db : registry) (id : value) : result (option row) :=
  BaseModel.findOne db tableName {["id" := id]}.

Definition findByCode (db : registry) (code : value) : result (option row) :=
  BaseModel.findOne db tableName {["code" := code]}.

(** [{ iso: iso.toUpperCase() }] *)
Definition findByIso (db : registry) (iso : value) : result (option row) :=
  match iso with
  | VStr s => BaseModel.findOne db tableName {["iso" := VStr (Js.toUpperCase s)]}
  | VNull => Throw (TypeError "Cannot read properties of null (reading 'toUpperCase')")
  | _ => Throw (TypeError "iso.toUpperCase is not a function")
  end.

Definition findByGuid (db : registry) (guid : value) : result (option row) :=
  BaseModel.findOne db tableName {["guid" := guid]}.

Definition listAll (db : registry) (conditions : row)
    (paginationOptions : ExtractQueryParams.pagination) : result (list row) :=
  BaseModel.findAll db tableName conditions paginationOptions.

Definition listAllByTimezone (db : registry) (timezone : value)
    (paginationOptions : ExtractQueryParams.pagination) : result (list row) :=
  BaseModel.findAll db tableName {["timezone" := timezone]} paginationOptions.

(** A template literal [`${x}`] on a field. *)
Definition template (v : option value) : string :=
  match v with
  | None => "undefined"
  | Some VNull => "null"
  | Some (VNum n) => Js.String_of_Z n
  | Some VNaN => "NaN"
  | Some (VStr s) => s
  | Some VObject => "[object Object]"
  end.

(** [if (!validator(x)) throw new Error(msg)] *)
Definition holds (r : result bool) (msg : string) : result unit :=
  match r with
  | Ok true => Ok tt
  | Ok false => Throw (Error msg)
  | Throw e => Throw e
  end.

Definition required (v : option value) (validator : value -> result bool)
    (msg : string) : result unit :=
  match v with
  | Some x =>
      if truthy_value v
      then holds (validator x) msg
      else Throw (Error msg)
  | None => Throw (Error msg)
  end.

Definition optional (v : option value) (validator : value -> result bool)
    (msg : string) : result unit :=
  match v with
  | Some x =>
      if truthy_value v
      then holds (validator x) msg
      else Ok tt
  | None => Ok tt
  end.

(** [cleanData(this)] *)
Definition cleanData (this : t) : result t :=
  let* iso' := CountryDbStructure.clean_field "data.iso" Js.toUpperCase (iso this) in
  let* name' := CountryDbStructure.clean_field "data.name" (fun s => s) (name this) in
  let* timezone' := CountryDbStructure.clean_field "data.timezone" (fun s => s) (timezone this) in
  let* mobileRegex' := CountryDbStructure.clean_field "data.mobileRegex" (fun s => s) (mobileRegex this) in
  let* flag' := CountryDbStructure.clean_field "data.flag" (fun s => s) (flag this) in
  Ok (Country_ (id this) (guid this) (code this) iso' name' timezone' mobileRegex' flag').

(** [validate()]: throws on the first invalid field, then cleans the
    instance. *)
Definition validate (this : t) : result t :=
  let* _ :=
    match code this with
    | Some c =>
        if CountryDbStructure.validateCode c then Ok tt
        else Throw (Error "Country code must be a positive integer between 1 and 999")
    | None => Throw (Error "Country code must be a positive integer between 1 and 999")
    end in
  let* _ := required (iso this) CountryDbStructure.validateIso
    "Country ISO must be exactly 2 uppercase letters (ISO 3166-1 alpha-2)" in
  let* _ := required (name this) CountryDbStructure.validateName
    "Country name must be between 2 and 128 characters" in
  let* _ := optional (timezone this) CountryDbStructure.validateTimezone
    "Invalid timezone format. Use Continent/City or UTC±offset format" in
  let* _ := optional (mobileRegex this) CountryDbStructure.validateMobileRegex
    "Mobile regex reference must be a valid identifier (camelCase or UPPER_CASE)" in
  let* _ := optional (flag this) CountryDbStructure.validateFlag
    "Flag must be a valid emoji (1-10 characters)" in
  cleanData this.

(** An object literal [{ k1: v1, ... }] as a row: a property whose value is
    [undefined] is left out, as the ORM ignores it. *)
Definition set_if_defined (k : string) (v : option value) (o : row) : row :=
  match v with
  | Some x => <[k := x]> o
  | None => o
  end.

(** [create()] *)
Definition create (this : t) (db : registry) : result (t * registry) :=
  let* this := validate this in
  match BaseModel.guidGenerator db tableName 6 with
  | None => Throw (Error "Failed to generate GUID for country entry")
  | Some guid =>
      if negb (Js.truthy_Z guid)
      then Throw (Error "Failed to generate GUID for country entry")
      else
        let* existingCode := findByCode db (default VNull (code this)) in
        match existingCode with
        | Some _ =>
            Throw (Error ("Country code '" +:+ template (code this) +:+ "' already exists"))
        | None =>
            let* existingIso := findByIso db (default VNull (iso this)) in
            match existingIso with
            | Some _ =>
                Throw (Error ("Country ISO '" +:+ template (iso this) +:+ "' already exists"))
            | None =>
                let data :=
                  set_if_defined "code" (code this)
                    (set_if_defined "iso" (iso this)
                      (set_if_defined "name" (name this)
                        (set_if_defined "timezone" (timezone this)
                          (set_if_defined "mobileRegex" (mobileRegex this)
                            (set_if_defined "flag" (flag this)
                              {["guid" := VNum guid]}))))) in
                let* (lastID, db') := BaseModel.insertOne db tableName data in
                (* [lastID] is the stored row, an object: never falsy *)
                Ok (Country_ (Some VObject) (Some (VNum guid)) (code this) (iso this)
                      (name this) (timezone this) (mobileRegex this) (flag this),
                    db')
            end
        end
  end.

(** The payload of [update()]: one binding per defined field among the six
    business columns. *)
Definition updateData (this : t) : row :=
  set_if_defined "flag" (flag this)
    (set_if_defined "mobileRegex" (mobileRegex this)
      (set_if_defined "timezone" (timezone this)
        (set_if_defined "name" (name this)
          (set_if_defined "iso" (iso this)
            (set_if_defined "code" (code this) ∅))))).

(** [update()] *)
Definition update (this : t) (db : registry) : result (t * registry) :=
  let* this := validate this in
  match id this with
  | Some i =>
      if negb (truthy_value (id this))
      then Throw (Error "Country ID is required for update")
      else
        let* (affected, db') := BaseModel.updateOne db tableName (updateData this) {["id" := i]} in
        if negb (Js.truthy_Z affected)
        then Throw (Error "Failed to update country entry")
        else Ok (this, db')
  | None => Throw (Error "Country ID is required for update")
  end.

(** [trash(id)] *)
Definition trash (db : registry) (id : value) : result (bool * registry) :=
  BaseModel.deleteOne db tableName {["id" := id]}.

(** [getLastModification()] *)
Definition getLastModification (db : registry) : option Z :=
  BaseModel.findLastModification db tableName.

End CountryModel.

(** [Country] (src/class/Country.ts): the domain object. *)
Module Country.
Import TableInitializer.
Import CountryModel.

Definition setCode (code : value) (this : t) : t :=
  Country_ (id this) (guid this) (Some code) (iso this) (name this)
           (timezone this) (mobileRegex this) (flag this).
Definition setIso (iso : value) (this : t) : t :=
  Country_ (id this) (guid this) (code this) (Some iso) (name this)
           (timezone this) (mobileRegex this) (flag this).
Definition setName (name : value) (this : t) : t :=
  Country_ (id this) (guid this) (code this) (iso this) (Some name)
           (timezone this) (mobileRegex this) (flag this).
Definition setTimezone (timezone : value) (this : t) : t :=
  Country_ (id this) (guid this) (code this) (iso this) (name this)
           (Some timezone) (mobileRegex this) (flag this).
Definition setMobileRegex (mobileRegex : value) (this : t) : t :=
  Country_ (id this) (guid this) (code this) (iso this) (name this)
           (timezone this) (Some mobileRegex) (flag this).
Definition setFlag (flag : value) (this : t) : t :=
  Country_ (id this) (guid this) (code this) (iso this) (name this)
           (timezone this) (mobileRegex this) (Some flag).

(** [hydrate(data)]: every field is read from the row. *)
Definition hydrate (data : row) : t :=
  Country_ (data !! "id") (data !! "guid") (data !! "code") (data !! "iso")
           (data !! "name") (data !! "timezone") (data !! "mobileRegex")
           (data !! "flag").

Definition isNew (this : t) : bool :=
  match id this with None => true | Some _ => false end.

(** [save()]: [create] when the instance is new, [update] otherwise; what
    either throws is rethrown as [new Error(error)]. *)
Definition save (this : t) (db : registry) : result (t * registry) :=
  match (if isNew this then create this db else update this db) with
  | Ok r => Ok r
  | Throw error => Throw (Error (toString error))
  end.

(** [delete()] *)
Definition delete (this : t) (db : registry) : result (bool * registry) :=
  match id this with
  | Some i =>
      let* _ := W.isOccur (negb (truthy_value (id this)))
                  (G.identifierMissing_code +:+ ": Country Delete") in
      trash db i
  | None => Ok (false, db)
  end.

(** [load(identifier, byGuid, byCode, byIso)]; [None] is [null]. *)
Definition load (db : registry) (identifier : value) (byGuid byCode byIso : bool)
  : result (option t) :=
  let found : result (option row) :=
    if byGuid then findByGuid db identifier
    else if byCode then findByCode db identifier
    else if byIso then findByIso db identifier
    else find db (Number_ (Some identifier)) in
  let* data := found in
  Ok (hydrate <$> data).

Definition list_ (db : registry) (conditions : row)
    (paginationOptions : ExtractQueryParams.pagination) : result (list t) :=
  let* dataset := listAll db conditions paginationOptions in
  Ok (hydrate <$> dataset).

Definition listByTimezone (db : registry) (timezone : value)
    (paginationOptions : ExtractQueryParams.pagination) : result (list t) :=
  let* dataset := listAllByTimezone db timezone paginationOptions in
  Ok (hydrate <$> dataset).

(** [toJSON()] as [res.json] serialises it. *)
Definition toJSON (this : t) : json :=
  JObj (json_fields
          [("guid", guid this); ("code", code this); ("iso", iso this);
           ("name", name this); ("timezone", timezone this);
           ("mobileRegex", mobileRegex this); ("flag", flag this)]).

End Country.

(** The country router (src/routes/country.route.ts). A handler takes what
    it reads of the request ([req.params], [req.query], [req.body]) and the
    database, and returns the response it sends with the database it
    leaves. [now] is the clock reading used for the error timestamp. The
    body is an object whose fields are [null], numbers or strings. The
    by-timezone handler is [CountryTimezoneRoute] and the export and
    revision handlers are [CountryExportRoute], further down. *)
Module CountryRoute.
Import TableInitializer.

Definition fail (now : string) (httpCode : Z) (code msg : string) : response :=
  R.handleError now httpCode (code_message code msg).

(** [if (v) country.setX(v)] and [if (v !== undefined) country.setX(v)] *)
Definition set_if_truthy (setter : value -> CountryModel.t -> CountryModel.t)
    (v : option value) (c : CountryModel.t) : CountryModel.t :=
  match v with
  | Some x => if truthy_value v then setter x c else c
  | None => c
  end.

Definition set_if_given (setter : value -> CountryModel.t -> CountryModel.t)
    (v : option value) (c : CountryModel.t) : CountryModel.t :=
  match v with
  | Some x => setter x c
  | None => c
  end.

(** The [catch] of POST and PUT: the status and code chosen from
    [error.message]. *)
Definition save_failure (now : string) (fallback : string) (e : error) : response :=
  let m := error_message e in
  if Js.includes m "already exists" then
    fail now HttpStatus.CONFLICT "country_already_exists" m
  else if Js.includes m "ISO" then
    fail now HttpStatus.BAD_REQUEST "invalid_iso" m
  else if Js.includes m "code" then
    fail now HttpStatus.BAD_REQUEST "invalid_code" m
  else
    fail now HttpStatus.BAD_REQUEST fallback m.

(** The country [POST /] builds from the body:
    [new Country().setCode(Number(code)).setIso(iso).setName(name)], then
    the optional fields that are truthy. *)
Definition from_body (body : row) : CountryModel.t :=
  let country :=
    set_if_given Country.setName (body !! "name")
      (set_if_given Country.setIso (body !! "iso")
        (Country.setCode (Number_ (body !! "code")) CountryModel.new)) in
  let country := set_if_truthy Country.setTimezone (body !! "timezone") country in
  let country := set_if_truthy Country.setMobileRegex (body !! "mobileRegex") country in
  set_if_truthy Country.setFlag (body !! "flag") country.

(** [POST /] *)
Definition post (now : string) (body : row) (db : registry) : response * registry :=
  let code := body !! "code" in
  let iso := body !! "iso" in
  let name := body !! "name" in
  if negb (truthy_value code) then
    (fail now HttpStatus.BAD_REQUEST "code_required" "Country code is required", db)
  else if negb (truthy_value iso) then
    (fail now HttpStatus.BAD_REQUEST "iso_required" "Country ISO code is required", db)
  else if negb (truthy_value name) then
    (fail now HttpStatus.BAD_REQUEST "name_required" "Country name is required", db)
  else
    match Country.save (from_body body) db with
    | Ok (country, db') => (R.handleCreated (Country.toJSON country), db')
    | Throw e => (save_failure now "creation_failed" e, db)
    end.

(** [PUT /:guid] *)
Definition put (now : string) (guid_param : string) (body : row) (db : registry)
  : response * registry :=
  if negb (Js.re_six_digits guid_param) then
    (fail now HttpStatus.BAD_REQUEST "invalid_guid" "GUID must be a positive integer", db)
  else
    let guid := match Js.parseInt guid_param with Some n => VNum n | None => VNaN end in
    match Country.load db guid true false false with
    | Throw e => (save_failure now "update_failed" e, db)
    | Ok None => (fail now HttpStatus.NOT_FOUND "country_not_found" "Country not found", db)
    | Ok (Some country) =>
        let country :=
          match body !! "code" with
          | Some _ => Country.setCode (Number_ (body !! "code")) country
          | None => country
          end in
        let country := set_if_given Country.setIso (body !! "iso") country in
        let country := set_if_given Country.setName (body !! "name") country in
        let country := set_if_given Country.setTimezone (body !! "timezone") country in
        let country := set_if_given Country.setMobileRegex (body !! "mobileRegex") country in
        let country := set_if_given Country.setFlag (body !! "flag") country in
        match Country.save country db with
        | Ok (country, db') => (R.handleSuccess (Country.toJSON country) HttpStatus.SUCCESS, db')
        | Throw e => (save_failure now "update_failed" e, db)
        end
    end.

(** [DELETE /:guid] *)
Definition delete (now : string) (guid_param : string) (db : registry)
  : response * registry :=
  if negb (Js.re_digits guid_param) then
    (fail now HttpStatus.BAD_REQUEST "invalid_guid" "GUID must be a positive integer", db)
  else
    let guid := match Js.parseInt guid_param with Some n => VNum n | None => VNaN end in
    match Country.load db guid true false false with
    | Throw e => (fail now HttpStatus.INTERNAL_ERROR "deletion_failed" (error_message e), db)
    | Ok None => (fail now HttpStatus.NOT_FOUND "country_not_found" "Country not found", db)
    | Ok (Some country) =>
        match Country.delete country db with
        | Throw e => (fail now HttpStatus.INTERNAL_ERROR "deletion_failed" (error_message e), db)
        | Ok (true, db') =>
            (R.handleSuccess
               (JObj (("message", JStr "Country deleted successfully")
                      :: json_fields [("guid", Some guid); ("iso", CountryModel.iso country);
                                      ("name", CountryModel.name country)]))
               HttpStatus.SUCCESS, db')
        | Ok (false, db') => (R.handleError now HttpStatus.INTERNAL_ERROR G.savedError, db')
        end
    end.

(** [a || b] on numbers. *)
Definition or_else (a : option Z) (b : Z) : Z :=
  match a with
  | Some n => if Js.truthy_Z n then n else b
  | None => b
  end.

(** [GET /list] *)
Definition list_ (now : string) (query : gmap string string) (db : registry) : response :=
  let conditions : row :=
    match query !! "timezone" with
    | Some timezone =>
        if Js.truthy_string timezone then {["timezone" := VStr timezone]} else ∅
    | None => ∅
    end in
  let paginationOptions := ExtractQueryParams.extractPaginationFromQuery query in
  match Country.list_ db conditions paginationOptions with
  | Ok countryEntries =>
      let n := Z.of_nat (length countryEntries) in
      R.handleSuccess
        (JObj [("countries",
                JObj [("pagination",
                       JObj [("offset", JNum (or_else (ExtractQueryParams.offset paginationOptions) 0));
                             ("limit", JNum (or_else (ExtractQueryParams.limit paginationOptions) n));
                             ("count", JNum n)]);
                      ("items", JArr (Country.toJSON <$> countryEntries))])])
        HttpStatus.SUCCESS
  | Throw _ => fail now HttpStatus.INTERNAL_ERROR "listing_failed" "Failed to list countries"
  end.

Definition found_or_404 (now : string) (not_found_msg : string) (failure_msg : string)
    (r : result (option CountryModel.t)) : response :=
  match r with
  | Ok (Some country) => R.handleSuccess (Country.toJSON country) HttpStatus.SUCCESS
  | Ok None => fail now HttpStatus.NOT_FOUND "country_not_found" not_found_msg
  | Throw _ => fail now HttpStatus.INTERNAL_ERROR "search_failed" failure_msg
  end.

(** [GET /search/iso/:iso] *)
Definition search_iso (now : string) (iso : string) (db : registry) : response :=
  if negb (Js.re_two_alpha iso) then
    fail now HttpStatus.BAD_REQUEST "invalid_iso_format" "ISO code must be exactly 2 letters"
  else
    found_or_404 now
      ("Country with ISO '" +:+ Js.toUpperCase iso +:+ "' not found")
      "Failed to search country by ISO"
      (Country.load db (VStr (Js.toUpperCase iso)) false false true).

(** [GET /search/code/:code] *)
Definition search_code (now : string) (code : string) (db : registry) : response :=
  if negb (Js.re_digits code) then
    fail now HttpStatus.BAD_REQUEST "invalid_code_format" "Code must be a positive integer"
  else
    let numericCode := match Js.parseInt code with Some n => VNum n | None => VNaN end in
    found_or_404 now
      ("Country with code '" +:+ CountryModel.template (Some numericCode) +:+ "' not found")
      "Failed to search country by code"
      (Country.load db numericCode false true false).

(** [GET /:identifier]: by id, then by GUID, then by code for digits; by ISO
    for two letters. *)
Definition get (now : string) (identifier : string) (db : registry) : response :=
  let country : result (option CountryModel.t) :=
    if Js.re_digits identifier then
      let numericId := match Js.parseInt identifier with Some n => VNum n | None => VNaN end in
      let* byId := Country.load db numericId false false false in
      match byId with
      | Some c => Ok (Some c)
      | None =>
          let* byGuid := Country.load db numericId true false false in
          match byGuid with
          | Some c => Ok (Some c)
          | None => Country.load db numericId false true false
          end
      end
    else if Js.re_two_alpha identifier then
      Country.load db (VStr (Js.toUpperCase identifier)) false false true
    else Ok None in
  found_or_404 now
    ("Country with identifier '" +:+ identifier +:+ "' not found")
    "Failed to search country" country.

End CountryRoute.

(** ** Dates and the revision stamp *)

(** A [Date] is its time value [t], the milliseconds since 1970-01-01T00:00Z.
    The UTC getters follow ECMAScript's [Day], [HourFromTime] and
    [MinFromTime]; year, month and day of the month are computed from the
    day number by the closed form of the proleptic Gregorian calendar (the
    calendar is cut into 400-year eras starting on a 1st of March). *)
Module Date.

Definition msPerMinute : Z := 60000.
Definition msPerHour : Z := 3600000.
Definition msPerDay : Z := 86400000.

Definition Day (t : Z) : Z := t / msPerDay.

Definition getUTCHours (t : Z) : Z := (t / msPerHour) mod 24.
Definition getUTCMinutes (t : Z) : Z := (t / msPerMinute) mod 60.

(** Day of the 400-year era (0 .. 146096) and the era itself. *)
Definition era (day : Z) : Z := (day + 719468) / 146097.
Definition dayOfEra (day : Z) : Z := (day + 719468) mod 146097.
(** Year of the era (0 .. 399), the years starting in March. *)
Definition yearOfEra (doe : Z) : Z :=
  (doe - doe / 1460 + doe / 36524 - doe / 146096) / 365.
(** Day of that year (0 = 1st of March). *)
Definition dayOfYear (doe : Z) : Z :=
  let yoe := yearOfEra doe in
  doe - (365 * yoe + yoe / 4 - yoe / 100).
(** Month counted from March (0 .. 11). *)
Definition monthFromMarch (doy : Z) : Z := (5 * doy + 2) / 153.

(** [getUTCMonth()]: 0 is January. *)
Definition getUTCMonth (t : Z) : Z :=
  let mp := monthFromMarch (dayOfYear (dayOfEra (Day t))) in
  if mp <? 10 then mp + 2 else mp - 10.

(** [getUTCDate()]: the day of the month, from 1. *)
Definition getUTCDate (t : Z) : Z :=
  let doy := dayOfYear (dayOfEra (Day t)) in
  doy - (153 * monthFromMarch doy + 2) / 5 + 1.

(** [getUTCFullYear()] *)
Definition getUTCFullYear (t : Z) : Z :=
  let day := Day t in
  let y := yearOfEra (dayOfEra day) + 400 * era day in
  if getUTCMonth t <? 2 then y + 1 else y.

End Date.

(** [Revision] (src/tools/revision.ts) *)
Module Revision.
Import TableInitializer.

Definition default_revision : string := "202501010000".

Definition pad2 (n : Z) : string := Js.padStart 2 "0" (Js.String_of_Z n).

Definition getRevision (db : registry) (tableName : string) : string :=
  match BaseModel.findLastModification db tableName with
  | None => default_revision
  | Some lastModified =>
      let year := Date.getUTCFullYear lastModified in
      let month := pad2 (Date.getUTCMonth lastModified + 1) in
      let day := pad2 (Date.getUTCDate lastModified) in
      let hours := pad2 (Date.getUTCHours lastModified) in
      let minutes := pad2 (Date.getUTCMinutes lastModified) in
      Js.String_of_Z year +:+ month +:+ day +:+ hours +:+ minutes
  end.

End Revision.

(** ** The billing schema: row-level validators over doubles *)

(** A JS [number] holding an amount is an IEEE-754 binary64, which is what
    Rocq's primitive [float] is; [+], [-], [*], [Math.abs] and the
    comparisons are the primitive operations. *)
Module Amount.

(** The double the code writes [0.01]. *)
Definition tolerance : float := 0x1.47ae147ae147bp-7%float.

(** The double denoted by a decimal with two fraction digits, given in
    hundredths: what a numeric literal, [JSON.parse] or [parseFloat] yield
    for it (the correctly rounded quotient; [cents] is below 2^53 in
    magnitude). *)
Definition of_nat_float (n : Z) : float :=
  if n <? 0 then PrimFloat.opp (PrimFloat.of_uint63 (Uint63.of_Z (- n)))
  else PrimFloat.of_uint63 (Uint63.of_Z n).
Definition decimal (cents : Z) : float :=
  PrimFloat.div (of_nat_float cents) (of_nat_float 100).

(** [parseFloat(x?.toString() || '0')] on a field holding a number: the
    number itself, [-0] printing as ["0"]; [0] when the field is [null] or
    [undefined]. *)
Definition parseFloat_or_zero (x : Js.opt float) : float :=
  match x with
  | Js.val v => if PrimFloat.eqb v 0%float then 0%float else v
  | _ => 0%float
  end.

(** [Math.abs(a - b) <= tolerance] and [Math.abs(a - b) > tolerance] *)
Definition within (a b : float) : bool :=
  PrimFloat.leb (PrimFloat.abs (PrimFloat.sub a b)) tolerance.
Definition beyond (a b : float) : bool :=
  PrimFloat.ltb tolerance (PrimFloat.abs (PrimFloat.sub a b)).

End Amount.

(** [BillingCycleDbStructure]: the custom validators of the attributes. A
    date field holds the time value of its [Date]. *)
Module BillingCycleDbStructure.

Definition COMPLETED : string := "COMPLETED".
Definition PENDING : string := "PENDING".

Record t : Type := BillingCycle {
  period_start : Js.opt Z;
  period_end : Js.opt Z;
  subtotal_usd : Js.opt float;
  tax_amount_usd : Js.opt float;
  total_amount_usd : Js.opt float;
  base_amount_local : Js.opt float;
  adjustments_amount_local : Js.opt float;
  subtotal_local : Js.opt float;
  tax_amount_local : Js.opt float;
  total_amount_local : Js.opt float;
  billing_status : Js.opt string;
  invoice_generated_at : Js.opt Z;
  payment_due_date : Js.opt Z;
  payment_completed_at : Js.opt Z
}.

(** [period_end.isAfterPeriodStart(value)] *)
Definition isAfterPeriodStart (this : t) : result unit :=
  match period_start this, period_end this with
  | Js.val start, Js.val value =>
      if value <=? start then Throw (Error "Period end must be after period start")
      else Ok tt
  | _, _ => Ok tt
  end.

(** [total_amount_usd.isCorrectTotal()] *)
Definition isCorrectTotal (this : t) : result unit :=
  let subtotal := Amount.parseFloat_or_zero (subtotal_usd this) in
  let tax := Amount.parseFloat_or_zero (tax_amount_usd this) in
  let total := Amount.parseFloat_or_zero (total_amount_usd this) in
  if Amount.beyond total (subtotal + tax)%float
  then Throw (Error "Total amount must equal subtotal + tax amount")
  else Ok tt.

(** [subtotal_local.isCorrectSubtotal()] *)
Definition isCorrectSubtotal (this : t) : result unit :=
  let base := Amount.parseFloat_or_zero (base_amount_local this) in
  let adjustments := Amount.parseFloat_or_zero (adjustments_amount_local this) in
  let subtotal := Amount.parseFloat_or_zero (subtotal_local this) in
  if Amount.beyond subtotal (base + adjustments)%float
  then Throw (Error "Local subtotal must equal base amount + adjustments")
  else Ok tt.

(** [total_amount_local.isCorrectTotalLocal()] *)
Definition isCorrectTotalLocal (this : t) : result unit :=
  let subtotal := Amount.parseFloat_or_zero (subtotal_local this) in
  let tax := Amount.parseFloat_or_zero (tax_amount_local this) in
  let total := Amount.parseFloat_or_zero (total_amount_local this) in
  if Amount.beyond total (subtotal + tax)%float
  then Throw (Error "Local total amount must equal subtotal + tax amount")
  else Ok tt.

(** [this.billing_status === BillingStatus.COMPLETED] *)
Definition is_completed (this : t) : bool :=
  match billing_status this with
  | Js.val s => String.eqb s COMPLETED
  | _ => false
  end.

(** [invoice_generated_at.isRequiredForCompleted()]; a [Date] is truthy. *)
Definition isRequiredForCompleted (this : t) : result unit :=
  if is_completed this && Js.is_nullish (invoice_generated_at this)
  then Throw (Error "Invoice generated date is required when billing status is COMPLETED")
  else Ok tt.

(** [payment_due_date.isAfterPeriodEnd(value)] *)
Definition isAfterPeriodEnd (this : t) : result unit :=
  match period_end this, payment_due_date this with
  | Js.val end_, Js.val value =>
      if value <=? end_ then Throw (Error "Payment due date must be after period end")
      else Ok tt
  | _, _ => Ok tt
  end.

(** [payment_completed_at.isRequiredForCompleted()] *)
Definition isRequiredForCompleted_payment (this : t) : result unit :=
  if is_completed this && Js.is_nullish (payment_completed_at this)
  then Throw (Error "Payment completed date is required when billing status is COMPLETED")
  else Ok tt.

(** The validation the ORM runs before it writes a row: each custom
    validator, in attribute order; the row is refused when one throws. The
    built-in checks of the attributes ([allowNull], [isInt], [min], [max],
    [isDecimal], [isDate], [isIn], [is], [len]), the array check on
    [tax_rules_applied] and [isBeforeDueDate], which only warns, are left
    out: they accept no row that these refuse. *)
Definition validate (this : t) : result unit :=
  let* _ := isAfterPeriodStart this in
  let* _ := isCorrectTotal this in
  let* _ := isCorrectSubtotal this in
  let* _ := isCorrectTotalLocal this in
  let* _ := isRequiredForCompleted this in
  let* _ := isAfterPeriodEnd this in
  isRequiredForCompleted_payment this.

(** [model.create(data)] on the billing-cycle table. *)
Definition create (stored : list t) (this : t) : result (list t) :=
  let* _ := validate this in
  Ok (stored ++ [this])%list.

End BillingCycleDbStructure.

(** [LicenseAdjustmentDbStructure.validation]: the business checks. *)
Module LicenseAdjustmentDbStructure.

(** [validateAmountCalculation(data)] *)
Definition validateAmountCalculation
    (employees_added_count months_remaining price_per_employee_usd subtotal_usd : float)
  : bool :=
  let calculatedSubtotal :=
    (employees_added_count * months_remaining * price_per_employee_usd)%float in
  Amount.within calculatedSubtotal subtotal_usd.

(** [validateTotalCalculation(data)] *)
Definition validateTotalCalculation (subtotal_usd tax_amount_usd total_amount_usd : float)
  : bool :=
  let calculatedTotal := (subtotal_usd + tax_amount_usd)%float in
  Amount.within calculatedTotal total_amount_usd.

(** [validateLocalAmountsConsistency(data)] *)
Definition validateLocalAmountsConsistency
    (subtotal_usd tax_amount_usd total_amount_usd exchange_rate_used
     subtotal_local tax_amount_local total_amount_local : float) : bool :=
  let calculatedSubtotalLocal := (subtotal_usd * exchange_rate_used)%float in
  let calculatedTaxLocal := (tax_amount_usd * exchange_rate_used)%float in
  let calculatedTotalLocal := (total_amount_usd * exchange_rate_used)%float in
  Amount.within calculatedSubtotalLocal subtotal_local &&
  Amount.within calculatedTaxLocal tax_amount_local &&
  Amount.within calculatedTotalLocal total_amount_local.

(** The [data: any] of [validateAdjustmentModel]: numbers and dates, each
    possibly missing. *)
Record data : Type := Data {
  employees_added_count : Js.opt float;
  months_remaining : Js.opt float;
  price_per_employee_usd : Js.opt float;
  subtotal_usd : Js.opt float;
  tax_amount_usd : Js.opt float;
  total_amount_usd : Js.opt float;
  exchange_rate_used : Js.opt float;
  subtotal_local : Js.opt float;
  tax_amount_local : Js.opt float;
  total_amount_local : Js.opt float;
  adjustment_date : Js.opt Z;
  invoice_sent_at : Js.opt Z;
  payment_completed_at : Js.opt Z
}.

Definition truthy (x : Js.opt float) : bool := Js.truthy Js.truthy_float x.
Definition num (x : Js.opt float) : float :=
  match x with Js.val v => v | _ => 0%float end.

Definition msg_subtotal : string :=
  "Subtotal calculation error: employees_added_count * months_remaining * price_per_employee_usd must equal subtotal_usd (±0.01)".
Definition msg_total : string :=
  "Total calculation error: subtotal_usd + tax_amount_usd must equal total_amount_usd (±0.01)".
Definition msg_local_subtotal : string :=
  "Local subtotal inconsistency: subtotal_usd * exchange_rate_used must equal subtotal_local (±0.01)".
Definition msg_local_tax : string :=
  "Local tax inconsistency: tax_amount_usd * exchange_rate_used must equal tax_amount_local (±0.01)".
Definition msg_local_total : string :=
  "Local total inconsistency: total_amount_usd * exchange_rate_used must equal total_amount_local (±0.01)".
Definition msg_after_adjustment : string :=
  "payment_completed_at must be after adjustment_date".
Definition msg_after_invoice : string :=
  "payment_completed_at must be after invoice_sent_at".

(** [if (c) errors.push(m)] *)
Definition push_if (c : bool) (m : string) (errors : list string) : list string :=
  if c then (errors ++ [m])%list else errors.

(** [date1 && date2 && new Date(date2).getTime() < new Date(date1).getTime()] *)
Definition earlier (later_ first : Js.opt Z) : bool :=
  match first, later_ with
  | Js.val a, Js.val b => b <? a
  | _, _ => false
  end.

Record verdict : Type := Verdict { isValid : bool; errors : list string }.

(** [validateAdjustmentModel(data)] *)
Definition validateAdjustmentModel (d : data) : verdict :=
  let errors : list string := [] in
  let errors :=
    if truthy (employees_added_count d) && truthy (months_remaining d) &&
       truthy (price_per_employee_usd d) && truthy (subtotal_usd d)
    then
      let calculatedSubtotal :=
        (num (employees_added_count d) * num (months_remaining d)
         * num (price_per_employee_usd d))%float in
      push_if (Amount.beyond calculatedSubtotal (num (subtotal_usd d))) msg_subtotal errors
    else errors in
  let errors :=
    if truthy (subtotal_usd d) && truthy (tax_amount_usd d) && truthy (total_amount_usd d)
    then
      let calculatedTotal := (num (subtotal_usd d) + num (tax_amount_usd d))%float in
      push_if (Amount.beyond calculatedTotal (num (total_amount_usd d))) msg_total errors
    else errors in
  let errors :=
    if truthy (exchange_rate_used d) && truthy (subtotal_usd d) &&
       truthy (tax_amount_usd d) && truthy (total_amount_usd d) &&
       truthy (subtotal_local d) && truthy (tax_amount_local d) &&
       truthy (total_amount_local d)
    then
      let calculatedSubtotalLocal := (num (subtotal_usd d) * num (exchange_rate_used d))%float in
      let calculatedTaxLocal := (num (tax_amount_usd d) * num (exchange_rate_used d))%float in
      let calculatedTotalLocal := (num (total_amount_usd d) * num (exchange_rate_used d))%float in
      push_if (Amount.beyond calculatedTotalLocal (num (total_amount_local d))) msg_local_total
        (push_if (Amount.beyond calculatedTaxLocal (num (tax_amount_local d))) msg_local_tax
          (push_if (Amount.beyond calculatedSubtotalLocal (num (subtotal_local d)))
             msg_local_subtotal errors))
    else errors in
  let errors :=
    push_if (earlier (payment_completed_at d) (adjustment_date d)) msg_after_adjustment errors in
  let errors :=
    push_if (earlier (payment_completed_at d) (invoice_sent_at d)) msg_after_invoice errors in
  Verdict (length errors =? 0)%nat errors.

End LicenseAdjustmentDbStructure.

(** ** Vocabulary of the specification

    These definitions do not come from the code: they state, in the words
    of the specification, what the theorems compare the code with. *)
Module Spec.

(** "The current maximum primary-key id (0 when the table is empty)". *)
Definition max_id (t : table) : Z :=
  match Model.max t "id" with
  | Some m => m
  | None => 0
  end.



(** The in-memory field an update supplies for a column: one of the six
    business fields, and nothing for any other column ([id] and [guid]
    among them). [None] is "not supplied". *)
Definition supplied (c : CountryModel.t) (col : string) : option value :=
  if decide (col = "code") then CountryModel.code c
  else if decide (col = "iso") then CountryModel.iso c
  else if decide (col = "name") then CountryModel.name c
  else if decide (col = "timezone") then CountryModel.timezone c
  else if decide (col = "mobileRegex") then CountryModel.mobileRegex c
  else if decide (col = "flag") then CountryModel.flag c
  else None.

(** "Every persisted COMPLETED billing cycle has a non-null
    [invoice_generated_at]". *)
Definition completed_has_invoice (b : BillingCycleDbStructure.t) : Prop :=
  BillingCycleDbStructure.billing_status b = Js.val BillingCycleDbStructure.COMPLETED ->
  exists d, BillingCycleDbStructure.invoice_generated_at b = Js.val d.

(** Two amounts given in hundredths "differ by at most 0.01". *)
Definition within_one_cent (a b : Z) : Prop := Z.abs (a - b) <= 1.

(** A double that is a finite number: neither [NaN] nor an infinity. *)
Definition finite (x : float) : bool :=
  match Prim2SF x with
  | S754_zero _ | S754_finite _ _ _ => true
  | _ => false
  end.

(** The reconciliation predicate read in IEEE-754 binary64 arithmetic: the
    sum, the difference and the absolute value are those of the standard,
    each rounded to the nearest double, and the bound is the double nearest
    to 0.01, which is 5764607523034235 * 2^-59. *)
Definition tolerance_ieee : spec_float := S754_finite false 5764607523034235 (-59).

Definition reconciles_ieee (subtotal tax total : spec_float) : bool :=
  SFleb (SFabs (SF64sub (SF64add subtotal tax) total)) tolerance_ieee.

(** "Formatted in UTC as YYYYMMDDHHMM": four digits of the year, then two
    digits each for month (from 1), day, hours and minutes. *)
Definition decimal_digit (d : Z) : ascii := ascii_of_nat (Z.to_nat (48 + d)).

Definition two_digits (n : Z) : string :=
  String (decimal_digit (n / 10)) (String (decimal_digit (n mod 10)) EmptyString).

Definition four_digits (n : Z) : string :=
  String (decimal_digit (n / 1000))
    (String (decimal_digit (n / 100 mod 10)) (two_digits (n mod 100))).

Definition YYYYMMDDHHMM (t : Z) : string :=
  four_digits (Date.getUTCFullYear t) +:+ two_digits (Date.getUTCMonth t + 1)
  +:+ two_digits (Date.getUTCDate t) +:+ two_digits (Date.getUTCHours t)
  +:+ two_digits (Date.getUTCMinutes t).

(** "A string of exactly 12 decimal digits". *)
Definition twelve_digits (s : string) : Prop :=
  String.length s = 12%nat /\ Js.all_chars Js.is_digit s = true.

(** No stored row has value [v] in column [k]. *)
Definition no_row_with (t : table) (k : string) (v : value) : Prop :=
  forall r : row, In r (rows t) -> r !! k <> Some v.

(** The number of rows a list response says it returns:
    [data.countries.pagination.count]. *)
Definition reported_count (r : response) : option json :=
  match body r with
  | Some j => json_path ["data"; "countries"; "pagination"; "count"] j
  | None => None
  end.

(** "The effective number of rows returned" by a query. *)
Definition rows_returned (r : result (list row)) : option nat :=
  match r with
  | Ok rs => Some (length rs)
  | Throw _ => None
  end.

(** The response envelope. [claimed_envelope] is the shape the
    specification gives every JSON response: a boolean [success], [data] on
    success or [error] with [code] and [message] on failure, and a
    [timestamp]. *)
Definition is_string (j : option json) : bool :=
  match j with Some (JStr _) => true | _ => false end.

Definition code_and_message (j : option json) : bool :=
  match j with
  | Some e => is_string (json_get "code" e) && is_string (json_get "message" e)
  | None => false
  end.

Definition claimed_envelope (r : response) : bool :=
  match body r with
  | Some j =>
      match json_get "success" j with
      | Some (JBool true) => has_key "data" j && has_key "timestamp" j
      | Some (JBool false) =>
          code_and_message (json_get "error" j) && has_key "timestamp" j
      | _ => false
      end
  | None => false
  end.

(** The two shapes the response helpers build: [{ success: true, data }]
    and [{ success: false, error: { code, message }, timestamp }]. *)
Definition success_envelope (j : json) : bool :=
  has_key "data" j && negb (has_key "error" j) && negb (has_key "timestamp" j).

Definition failure_envelope (j : json) : bool :=
  code_and_message (json_get "error" j) && is_string (json_get "timestamp" j)
  && negb (has_key "data" j).

Definition envelope (r : response) : bool :=
  match body r with
  | Some j =>
      match json_get "success" j with
      | Some (JBool true) => success_envelope j
      | Some (JBool false) => failure_envelope j
      | _ => false
      end
  | None => false
  end.


End Spec.

(** ** Sample data *)
Module Fixtures.
Import TableInitializer.

Definition country (id code : Z) (iso name : string) : row :=
  <["id" := VNum id]>
    (<["guid" := VNum (100000 + id)]>
      (<["code" := VNum code]>
        (<["iso" := VStr iso]>
          (<["name" := VStr name]> (Model.blank CountryDbStructure.columns))))).

Definition cameroon : row := country 1 237 "CM" "Cameroon".

Definition countries (rs : list row) (seq : Z) : registry :=
  Registry true {[ CountryDbStructure.tableName := Table CountryDbStructure.columns rs seq ]}.

(** No country yet. *)
Definition empty_db : registry := countries [] 0.

(** One country. *)
Definition one_country : registry := countries [cameroon] 1.

(** 1001 rows, ids 1 to 1001. *)
Definition crowded_rows : list row :=
  (fun i => <["id" := VNum i]> (<["guid" := VNum (100000 + i)]>
              (Model.blank CountryDbStructure.columns))) <$> seqZ 1 1001.
Definition crowded : registry := countries crowded_rows 1001.


(** A table last modified at 10000-01-01T00:00Z. *)
Definition year_10000 : registry :=
  countries [<["updated_at" := VNum 253402300800000]> cameroon] 1.

(** A table last modified at 2024-02-29T23:59:59Z. *)
Definition leap_day : registry :=
  countries [<["updated_at" := VNum 1709251199000]> cameroon] 1.

(** Billing cycles: amounts 1.00 + 0.00 against a total of 1.00, status
    COMPLETED, without and with an invoice date. *)
Definition completed_without_invoice : BillingCycleDbStructure.t :=
  BillingCycleDbStructure.BillingCycle
    (Js.val 0) (Js.val 1000)
    (Js.val 1%float) (Js.val 0%float) (Js.val 1%float)
    (Js.val 1%float) (Js.val 0%float) (Js.val 1%float) (Js.val 0%float) (Js.val 1%float)
    (Js.val BillingCycleDbStructure.COMPLETED) Js.null (Js.val 2000) (Js.val 1500).

Definition completed_with_invoice : BillingCycleDbStructure.t :=
  BillingCycleDbStructure.BillingCycle
    (Js.val 0) (Js.val 1000)
    (Js.val 1%float) (Js.val 0%float) (Js.val 1%float)
    (Js.val 1%float) (Js.val 0%float) (Js.val 1%float) (Js.val 0%float) (Js.val 1%float)
    (Js.val BillingCycleDbStructure.COMPLETED) (Js.val 1200) (Js.val 2000) (Js.val 1500).

(** A pending billing cycle with the given USD amounts, in hundredths. *)
Definition billed (subtotal tax total : Z) : BillingCycleDbStructure.t :=
  BillingCycleDbStructure.BillingCycle
    (Js.val 0) (Js.val 1000)
    (Js.val (Amount.decimal subtotal)) (Js.val (Amount.decimal tax))
    (Js.val (Amount.decimal total))
    Js.undefined Js.undefined Js.undefined Js.undefined Js.undefined
    (Js.val BillingCycleDbStructure.PENDING) Js.null (Js.val 2000) Js.null.

(** A license adjustment of 100.00 with no tax and a total of 200.00. *)
Definition zero_tax : LicenseAdjustmentDbStructure.data :=
  LicenseAdjustmentDbStructure.Data
    Js.undefined Js.undefined Js.undefined
    (Js.val (Amount.decimal 10000)) (Js.val (Amount.decimal 0))
    (Js.val (Amount.decimal 20000))
    Js.undefined Js.undefined Js.undefined Js.undefined
    Js.undefined Js.undefined Js.undefined.

End Fixtures.

(** ** Further code of the same files

    The functions around the ones above: the invariants the persistence
    layer keeps, the remaining country handlers and the answers of the
    application itself, the model-level validators of the billing schema,
    the method guards, the display helpers, the local-time stamps, and the
    update path with the stamp of the ORM. *)

Module Invariant.
(** Every row carries a numeric id its table's sequence has handed out and
    a numeric GUID not above [id + 100000]. *)
Definition numbered (t : table) : Prop :=
  0 <= sequence t /\
  forall r : row, In r (rows t) ->
    exists i g, r !! "id" = Some (VNum i) /\ r !! "guid" = Some (VNum g)
                /\ 1 <= i <= sequence t /\ g <= i + 100000.

(** No two rows agree on column [k]. *)
Definition unique (k : string) (t : table) : Prop :=
  NoDup ((fun r : row => r !! k) <$> rows t).

(** The surrogate keys of a table are in order: ids and GUIDs are numbered
    as above, and identify their rows. *)
Definition keyed (t : table) : Prop :=
  numbered t /\ unique "id" t /\ unique "guid" t.
End Invariant.

(** The payload of [create()]. *)
Definition createData (guid : Z) (c : CountryModel.t) : row :=
  CountryModel.set_if_defined "code" (CountryModel.code c)
    (CountryModel.set_if_defined "iso" (CountryModel.iso c)
      (CountryModel.set_if_defined "name" (CountryModel.name c)
        (CountryModel.set_if_defined "timezone" (CountryModel.timezone c)
          (CountryModel.set_if_defined "mobileRegex" (CountryModel.mobileRegex c)
            (CountryModel.set_if_defined "flag" (CountryModel.flag c)
              {["guid" := VNum guid]}))))).

Module Normal.
(** An optional text field after validation: left as it was when it was
    falsy, or a string that was trimmed and passes its check. *)
Definition optional_text (ok : string -> bool) (before after : option value) : Prop :=
  (truthy_value before = false /\ after = before) \/
  (exists s, before = Some (VStr s) /\ after = Some (VStr (Js.trim s))
             /\ ok (Js.trim s) = true).

Definition flag_length (s : string) : bool :=
  (1 <=? String.length s)%nat && (String.length s <=? 10)%nat.
End Normal.

Module Stored.
(** What validation guarantees of a stored country. An optional column is
    falsy (NULL when it was never given) or a text that passes its check. *)
Definition optional_column (ok : string -> bool) (v : option value) : Prop :=
  truthy_value v = false \/ exists s, v = Some (VStr s) /\ Js.trim s = s /\ ok s = true.

Definition valid_row (r : row) : Prop :=
  (exists n, r !! "code" = Some (VNum n) /\ 1 <= n <= 999) /\
  (exists s, r !! "iso" = Some (VStr s) /\ Js.re_two_upper s = true) /\
  (exists s, r !! "name" = Some (VStr s) /\ Js.trim s = s
             /\ (2 <= String.length s <= 128)%nat) /\
  optional_column CountryDbStructure.re_timezone (r !! "timezone") /\
  optional_column Js.re_identifier (r !! "mobileRegex") /\
  optional_column Normal.flag_length (r !! "flag").

Definition valid (t : table) : Prop := forall r : row, In r (rows t) -> valid_row r.
End Stored.

Module Failure.
End Failure.

(** [GET /timezone/:timezone], the listing [CountryRoute] leaves out. URI
    decoding is not modelled: the handler is given [decodedTimezone], what
    [decodeURIComponent(timezone)] returns or throws. *)
Module CountryTimezoneRoute.
Import TableInitializer.

Definition timezone (now : string) (timezone : string) (decodedTimezone : result string)
    (query : gmap string string) (db : registry) : response :=
  let failure :=
    CountryRoute.fail now HttpStatus.INTERNAL_ERROR "timezone_search_failed"
      ("Failed to search countries by timezone: " +:+ timezone) in
  match decodedTimezone with
  | Throw _ => failure
  | Ok decoded =>
      let paginationOptions := ExtractQueryParams.extractPaginationFromQuery query in
      match Country.listByTimezone db (VStr decoded) paginationOptions with
      | Ok countriesData =>
          let n := Z.of_nat (length countriesData) in
          R.handleSuccess
            (JObj [("countries",
                    JObj [("timezone", JStr decoded);
                          ("pagination",
                           JObj [("offset", JNum (CountryRoute.or_else
                                                    (ExtractQueryParams.offset paginationOptions) 0));
                                 ("limit", JNum (CountryRoute.or_else
                                                   (ExtractQueryParams.limit paginationOptions) n));
                                 ("count", JNum n)]);
                          ("items", JArr (Country.toJSON <$> countriesData))])])
            HttpStatus.SUCCESS
      | Throw _ => failure
      end
  end.

End CountryTimezoneRoute.

Module Listing.
(** What a list response reports: [data.countries.pagination] and
    [data.countries.items]. *)
Definition reports (r : response) (offset limit count : Z) (items : list json) : Prop :=
  exists j, body r = Some j /\
    json_path ["data"; "countries"; "pagination"; "offset"] j = Some (JNum offset) /\
    json_path ["data"; "countries"; "pagination"; "limit"] j = Some (JNum limit) /\
    json_path ["data"; "countries"; "pagination"; "count"] j = Some (JNum count) /\
    json_path ["data"; "countries"; "items"] j = Some (JArr items).
End Listing.

(** [BillingCycleDbStructure.options.validate]: the model-level validators,
    which the ORM runs after the attribute validators. [now] is the clock
    reading [new Date()] takes. *)
Module BillingCycleOptions.
Import BillingCycleDbStructure.

Definition OVERDUE : string := "OVERDUE".

(** [periodDatesLogical()] *)
Definition periodDatesLogical (this : t) : result unit :=
  match period_start this, period_end this with
  | Js.val start, Js.val end_ =>
      if end_ <=? start then Throw (Error "Period start must be before period end")
      else Ok tt
  | _, _ => Ok tt
  end.

(** [paymentDueDateLogical()] *)
Definition paymentDueDateLogical (this : t) : result unit :=
  match payment_due_date this, period_end this with
  | Js.val due, Js.val end_ =>
      if due <=? end_ then Throw (Error "Payment due date must be after period end")
      else Ok tt
  | _, _ => Ok tt
  end.

(** [this.billing_status === BillingStatus.OVERDUE] *)
Definition is_overdue (this : t) : bool :=
  match billing_status this with
  | Js.val s => String.eqb s OVERDUE
  | _ => false
  end.

(** [statusDependentFields()] *)
Definition statusDependentFields (now : Z) (this : t) : result unit :=
  let* _ :=
    if is_completed this then
      if Js.is_nullish (invoice_generated_at this)
      then Throw (Error "Invoice generated date is required for completed billing cycles")
      else if Js.is_nullish (payment_completed_at this)
      then Throw (Error "Payment completed date is required for completed billing cycles")
      else Ok tt
    else Ok tt in
  if is_overdue this then
    match payment_due_date this with
    | Js.val due =>
        if now <=? due
        then Throw (Error "Billing cycle can only be OVERDUE if payment due date has passed")
        else Ok tt
    | _ => Throw (Error "Billing cycle can only be OVERDUE if payment due date has passed")
    end
  else Ok tt.

End BillingCycleOptions.

(** [BillingCycleDbStructure.validation]: the format checks on the strings
    of a request. *)
Module BillingCycleValidation.

(** [/^\d+$/.test(trimmed) && parseInt(trimmed) >= 100000] *)
Definition validateGuid (guid : string) : bool :=
  let trimmed := Js.trim guid in
  let num := Js.parseInt trimmed in
  Js.re_digits trimmed && match num with Some n => 100000 <=? n | None => false end.

(** [/^\d+$/.test(trimmed) && parseInt(trimmed) > 0] *)
Definition validateGlobalLicense (globalLicense : string) : bool :=
  let trimmed := Js.trim globalLicense in
  Js.re_digits trimmed && match Js.parseInt trimmed with Some n => 0 <? n | None => false end.

(** [/^\d+$/.test(trimmed) && parseInt(trimmed) >= 0] *)
Definition validatePositiveInteger (value : string) : bool :=
  let trimmed := Js.trim value in
  Js.re_digits trimmed && match Js.parseInt trimmed with Some n => 0 <=? n | None => false end.

End BillingCycleValidation.

(** The date checks of [LicenseAdjustmentDbStructure.validation]. A date
    argument is a [Date], [null] or [undefined]; [new Date(null)] is the
    epoch and [new Date(undefined)] is an invalid date, whose time value
    [NaN] fails every comparison. *)
Module LicenseAdjustmentDates.

(** [new Date(x).getTime()]; [None] is [NaN]. *)
Definition getTime (x : Js.opt Z) : option Z :=
  match x with
  | Js.val t => Some t
  | Js.null => Some 0
  | Js.undefined => None
  end.

(** [a >= b] on time values. *)
Definition geq (a b : option Z) : bool :=
  match a, b with
  | Some x, Some y => y <=? x
  | _, _ => false
  end.

(** [validatePaymentCompletedAfterInvoice(invoice_sent_at, payment_completed_at)] *)
Definition validatePaymentCompletedAfterInvoice (invoice_sent_at payment_completed_at : Js.opt Z)
  : bool :=
  if Js.is_nullish invoice_sent_at || Js.is_nullish payment_completed_at then true
  else geq (getTime payment_completed_at) (getTime invoice_sent_at).

(** [validatePaymentCompletedAfterAdjustment(adjustment_date, payment_completed_at)] *)
Definition validatePaymentCompletedAfterAdjustment (adjustment_date payment_completed_at : Js.opt Z)
  : bool :=
  if Js.is_nullish payment_completed_at then true
  else geq (getTime payment_completed_at) (getTime adjustment_date).

End LicenseAdjustmentDates.

Module Complete.
(** A field that holds an amount: a number that is finite and not zero. *)
Definition amount (x : Js.opt float) (v : float) : Prop :=
  x = Js.val v /\ Js.truthy_float v = true /\ Spec.finite v = true.
End Complete.

(** [Ensure] (src/middle/ensured-routes.ts): the middlewares that check the
    HTTP method of a request. A middleware takes the method of the request
    and either answers it ([Some] response) or hands it on by calling
    [next()] ([None]). [node_env] is [process.env.NODE_ENV]. *)
Module Ensure.

Definition middleware : Type := string -> option response.

Definition refuse (now : string) (code msg : string) : option response :=
  Some (R.handleError now HttpStatus.METHOD_NOT_ALLOWED (code_message code msg)).

(** [allowedMethods.join(', ')] *)
Definition join (methods : list string) : string := String.concat ", " methods.

(** [methods.includes(req.method)] *)
Definition includes (methods : list string) (method : string) : bool :=
  existsb (String.eqb method) methods.

Definition validateMethod (now : string) (expectedMethod : string) : middleware :=
  fun method =>
    if negb (String.eqb method expectedMethod)
    then refuse now "method_not_allowed"
           ("This endpoint only accepts " +:+ expectedMethod +:+ " requests")
    else None.

Definition get (now : string) : middleware := validateMethod now "GET".
Definition post (now : string) : middleware := validateMethod now "POST".
Definition put (now : string) : middleware := validateMethod now "PUT".
Definition delete (now : string) : middleware := validateMethod now "DELETE".
Definition patch (now : string) : middleware := validateMethod now "PATCH".
Definition head (now : string) : middleware := validateMethod now "HEAD".
Definition options (now : string) : middleware := validateMethod now "OPTIONS".

Definition anyOf (now : string) (allowedMethods : list string) : middleware :=
  fun method =>
    if negb (includes allowedMethods method)
    then refuse now "method_not_allowed"
           ("This endpoint only accepts: " +:+ join allowedMethods)
    else None.

Definition reject (now : string) (rejectedMethods : list string) : middleware :=
  fun method =>
    if includes rejectedMethods method
    then refuse now "method_forbidden"
           ("Method " +:+ method +:+ " is not allowed on this endpoint")
    else None.

Definition custom (now : string) (expectedMethod customMessage : string) : middleware :=
  fun method =>
    if negb (String.eqb method expectedMethod)
    then refuse now "method_not_allowed" customMessage
    else None.

Definition standardMethods : list string :=
  ["GET"; "POST"; "PUT"; "DELETE"; "PATCH"; "HEAD"; "OPTIONS"].

Definition strict (now : string) : middleware :=
  fun method =>
    if negb (includes standardMethods method)
    then refuse now "non_standard_method" "Only standard HTTP methods are allowed"
    else None.

(** [dev(expectedMethod)] logs and never refuses. *)
Definition dev (expectedMethod : string) : middleware := fun _ => None.

Definition envBased (now : string) (node_env : option string) (expectedMethod : string)
  : middleware :=
  match node_env with
  | Some "production" => validateMethod now expectedMethod
  | _ => dev expectedMethod
  end.

End Ensure.

(** The display helpers of [Country]. *)
Module CountryDisplay.
Import CountryModel.

(** [getDisplayName()] *)
Definition getDisplayName (this : t) : string :=
  let name := if truthy_value (name this) then template (name this) else "Unknown Country" in
  let flag := if truthy_value (flag this) then " " +:+ template (flag this) else "" in
  name +:+ flag.

(** [this.code?.toString()]: [None] is [undefined]. *)
Definition code_toString (this : t) : option value :=
  match code this with
  | None | Some VNull => None
  | Some v => Some (VStr (template (Some v)))
  end.

(** [getIdentifier()]: [this.iso || this.code?.toString() || 'Unknown'] *)
Definition getIdentifier (this : t) : value :=
  match iso this with
  | Some i => if truthy_value (iso this) then i
              else match code_toString this with
                   | Some c => if truthy_value (code_toString this) then c else VStr "Unknown"
                   | None => VStr "Unknown"
                   end
  | None => match code_toString this with
            | Some c => if truthy_value (code_toString this) then c else VStr "Unknown"
            | None => VStr "Unknown"
            end
  end.

End CountryDisplay.

(** The local-time getters of [Date]. [LocalTZA t] is the offset of the
    server's time zone at [t], in milliseconds; the getters read the UTC
    fields of [LocalTime(t) = t + LocalTZA(t)]. *)
Module LocalDate.
Section Zone.
Variable LocalTZA : Z -> Z.

Definition LocalTime (t : Z) : Z := t + LocalTZA t.

Definition getFullYear (t : Z) : Z := Date.getUTCFullYear (LocalTime t).
Definition getMonth (t : Z) : Z := Date.getUTCMonth (LocalTime t).
Definition getDate (t : Z) : Z := Date.getUTCDate (LocalTime t).
Definition getHours (t : Z) : Z := Date.getUTCHours (LocalTime t).
Definition getMinutes (t : Z) : Z := Date.getUTCMinutes (LocalTime t).
Definition getSeconds (t : Z) : Z := (LocalTime t / 1000) mod 60.
End Zone.
End LocalDate.

(** [Country.getRevision()] (src/class/Country.ts), private: the revision
    of the country table in the server's local time. *)
Module CountryRevision.
Import TableInitializer.

Definition getRevision (LocalTZA : Z -> Z) (db : registry) : string :=
  match CountryModel.getLastModification db with
  | None => "202501010000"
  | Some lastModified =>
      let year := LocalDate.getFullYear LocalTZA lastModified in
      let month := Revision.pad2 (LocalDate.getMonth LocalTZA lastModified + 1) in
      let day := Revision.pad2 (LocalDate.getDate LocalTZA lastModified) in
      let hours := Revision.pad2 (LocalDate.getHours LocalTZA lastModified) in
      let minutes := Revision.pad2 (LocalDate.getMinutes LocalTZA lastModified) in
      Js.String_of_Z year +:+ month +:+ day +:+ hours +:+ minutes
  end.

End CountryRevision.

(** [BaseModel.timeBasedTokenGenerator(tableName, length = 3, divider = '-',
    prefix = 'A')]; [now] is the clock reading of [new Date()], [None] the
    [null] it returns. *)
Module TokenGenerator.
Import TableInitializer.

Definition timestamp (LocalTZA : Z -> Z) (now : Z) : string :=
  Js.String_of_Z (LocalDate.getFullYear LocalTZA now)
  +:+ Revision.pad2 (LocalDate.getMonth LocalTZA now + 1)
  +:+ Revision.pad2 (LocalDate.getDate LocalTZA now)
  +:+ Revision.pad2 (LocalDate.getHours LocalTZA now)
  +:+ Revision.pad2 (LocalDate.getMinutes LocalTZA now)
  +:+ Revision.pad2 (LocalDate.getSeconds LocalTZA now).

Definition timeBasedTokenGenerator (LocalTZA : Z -> Z) (now : Z) (db : registry)
    (tableName : string) (length : Z) (divider prefix : string) : option string :=
  match getModel db tableName with
  | Throw _ => None
  | Ok model =>
      if length <? 3 then None
      else
        match BaseModel.guidGenerator db tableName length with
        | None => None
        | Some guid =>
            if negb (Js.truthy_Z guid) then None
            else Some (prefix +:+ divider +:+ timestamp LocalTZA now +:+ divider
                       +:+ Js.String_of_Z guid)
        end
  end.

Definition default_length : Z := 3.
Definition default_divider : string := "-".
Definition default_prefix : string := "A".

End TokenGenerator.

Module Stamp.
(** The number a revision stamp denotes: its twelve digits read in base
    ten. *)
Definition number (t : Z) : Z :=
  Date.getUTCFullYear t * 100000000 + (Date.getUTCMonth t + 1) * 1000000
  + Date.getUTCDate t * 10000 + Date.getUTCHours t * 100 + Date.getUTCMinutes t.

(** Month and day of a day of the year that starts in March, as the number
    [MMDD], January and February counting for the year after. *)
Definition date_in_year (doy : Z) : Z :=
  let mp := Date.monthFromMarch doy in
  let m := if mp <? 10 then mp + 2 else mp - 10 in
  (if m <? 2 then 10000 else 0) + (m + 1) * 100 + (doy - (153 * mp + 2) / 5 + 1).

(** The date of a day, as the number [YYYYMMDD]. *)
Definition date (day : Z) : Z :=
  (Date.yearOfEra (Date.dayOfEra day) + 400 * Date.era day) * 10000
  + date_in_year (Date.dayOfYear (Date.dayOfEra day)).
End Stamp.

(** [GET /] and [GET /revision], the two handlers of the country router
    that only pass on what [Country] computes. The handler is given the
    outcome of that call: [exported] is what
    [Country.exportable(paginationOptions)] returns or throws, [revision]
    what the private [getRevision()] returns or throws, and [checked_at] is
    [new Date().toISOString()]. *)
Module CountryExportRoute.

Definition export_ (now : string) (exported : result json) : response :=
  match exported with
  | Ok countries => R.handleSuccess (JObj [("countries", countries)]) HttpStatus.SUCCESS
  | Throw _ =>
      CountryRoute.fail now HttpStatus.INTERNAL_ERROR "export_failed"
        "Failed to export countries"
  end.

Definition revision (now : string) (revision : result string) (checked_at : string)
  : response :=
  match revision with
  | Ok revision =>
      R.handleSuccess (JObj [("revision", JStr revision); ("checked_at", JStr checked_at)])
        HttpStatus.SUCCESS
  | Throw _ =>
      CountryRoute.fail now HttpStatus.INTERNAL_ERROR "revision_check_failed"
        "Failed to get current revision"
  end.

End CountryExportRoute.

(** [App.setupRoutes] (src/app.ts): what the application answers itself,
    around the routers, with [res.json] and not through [R]. [timestamp] is
    [new Date().toISOString()], [uptime] the JSON number of
    [process.uptime()], [node_env] is [process.env.NODE_ENV]. *)
Module App.
Import TableInitializer.

(** [process.env.NODE_ENV || 'development'] *)
Definition environment (node_env : option string) : string :=
  match node_env with
  | Some s => if Js.truthy_string s then s else "development"
  | None => "development"
  end.

(** [GET /health] *)
Definition health (timestamp : string) (uptime : json) (node_env : option string)
    (db : registry) : response :=
  Response HttpStatus.SUCCESS
    (Some (JObj [("status", JBool true);
                 ("timestamp", JStr timestamp);
                 ("uptime", uptime);
                 ("environment", JStr (environment node_env));
                 ("database", JStr (if initialized db then "connected" else "disconnected"));
                 ("tables", JNum (Z.of_nat (size (models db))));
                 ("revision", JObj [])])).

(** [GET /] *)
Definition root (timestamp : string) : response :=
  Response HttpStatus.SUCCESS
    (Some (JObj [("message", JStr "API Server is running");
                 ("timestamp", JStr timestamp);
                 ("endpoints", JArr [JStr "GET /health - Health check";
                                     JStr "GET / - Cette page"])])).

(** The 404 handler, for a request no route took. *)
Definition notFound (method originalUrl : string) : response :=
  Response HttpStatus.NOT_FOUND
    (Some (JObj [("success", JBool false);
                 ("error", code_message "route_not_found"
                             ("Route " +:+ method +:+ " " +:+ originalUrl +:+ " introuvable"))])).

(** The global error handler. [status], [code], [message] and [stack] are
    the properties of the error it is given, [None] when they are missing:
    a property that is [undefined] is left out of the JSON. *)
Definition errorHandler (node_env : option string) (status : option Z)
    (code message stack : option string) : response :=
  let isDev := negb (bool_decide (node_env = Some "production")) in
  let defined (key : string) (v : option string) : list (string * json) :=
    match v with
    | Some s => [(key, JStr s)]
    | None => []
    end in
  Response (match status with
            | Some s => if Js.truthy_Z s then s else HttpStatus.INTERNAL_ERROR
            | None => HttpStatus.INTERNAL_ERROR
            end)
    (Some (JObj [("success", JBool false);
                 ("error",
                  JObj ([("code", JStr (match code with
                                        | Some c => if Js.truthy_string c then c
                                                    else "internal_server_error"
                                        | None => "internal_server_error"
                                        end))]
                        ++ (if isDev then defined "message" message
                            else [("message", JStr "Erreur interne du serveur")])
                        ++ (if isDev then defined "stack" stack else [])))])).

End App.

(** The ORM's stamps. A schema declared with [timestamps: true] keeps a
    creation and a modification stamp, and the ORM adds the modification
    stamp, the time of the call, to the values of every [model.update]. The
    column is [updatedAt] unless the schema names another ([updatedAt:
    'updated_at']); the country and subscription schemas name none.
    [BaseModel.updateOne] above leaves the stamp out; this is the same call
    with it, [now] being the time of the call. *)
Module Timestamps.
Import TableInitializer.

Definition updatedAt : string := "updatedAt".

Definition updateOne (stamp : string) (now : Z) (db : registry) (tableName : string)
    (data where_ : row) : result (Z * registry) :=
  BaseModel.updateOne db tableName (<[stamp := VNum now]> data) where_.

End Timestamps.

(** [CountryModel.update()], the update path of [Country.save()], with the
    stamp of the ORM. *)
Module StampedCountryModel.
Import TableInitializer CountryModel.

Definition update (now : Z) (this : t) (db : registry) : result (t * registry) :=
  let* this := validate this in
  match id this with
  | Some i =>
      if negb (truthy_value (id this))
      then Throw (Error "Country ID is required for update")
      else
        let* (affected, db') :=
          Timestamps.updateOne Timestamps.updatedAt now db tableName (updateData this)
            {["id" := i]} in
        if negb (Js.truthy_Z affected)
        then Throw (Error "Failed to update country entry")
        else Ok (this, db')
  | None => Throw (Error "Country ID is required for update")
  end.

End StampedCountryModel.

(** The subscription model: the model class on the table
    [xa_subscription], whose schema [SubscriptionDbStructure] is declared
    with [timestamps: true]. The source names this class [CountryModel]
    too; it is named after its table here. Its [validate()] is empty. *)
Module SubscriptionModel.
Import TableInitializer.

Record t : Type := Subscription_ {
  id : option value;
  guid : option value;
  licence : option value;
  subscription_type : option value;
  start_date : option value;
  price : option value;
  end_date : option value;
  status : option value
}.

Definition tableName : string := G.tableAp +:+ "_subscription".

(** The payload of [update()]. The source binds the [start_date] column to
    [this.end_date]; no line writes [this.start_date] or the [end_date]
    column. *)
Definition updateData (this : t) : row :=
  CountryModel.set_if_defined "status" (status this)
    (CountryModel.set_if_defined "start_date" (end_date this)
      (CountryModel.set_if_defined "price" (price this)
        (CountryModel.set_if_defined "subscription_type" (subscription_type this)
          (CountryModel.set_if_defined "licence" (licence this) ∅)))).

(** [update()] *)
Definition update (now : Z) (this : t) (db : registry) : result registry :=
  match id this with
  | Some i =>
      if negb (truthy_value (id this))
      then Throw (Error "Subscription ID is required for update")
      else
        let* (affected, db') :=
          Timestamps.updateOne Timestamps.updatedAt now db tableName (updateData this)
            {["id" := i]} in
        if negb (Js.truthy_Z affected)
        then Throw (Error "Failed to update subscription entry")
        else Ok db'
  | None => Throw (Error "Subscription ID is required for update")
  end.

End SubscriptionModel.

(** The in-memory field of each column of a subscription, as
    [Spec.supplied] gives that of a country: what "the columns whose
    in-memory fields are defined" refers to. *)
Module Frame.

(** The values a table holds in one column, row by row. *)
Definition column (col : string) (db : TableInitializer.registry) (tableName : string)
  : result (list (option value)) :=
  let* t := TableInitializer.getModel db tableName in
  Ok ((fun r : row => r !! col) <$> rows t).
End Frame.

(** Strings are strings of bytes. A text is plain when every one of its
    characters is ASCII: its length in bytes is then its length in UTF-16
    code units, no Unicode white space or cased letter occurs in it, and
    [Js.trim], [Js.toUpperCase] and [String.length] are on it what
    [trim()], [toUpperCase()] and [.length] are in JavaScript. *)
Module Text.
Definition plain_char (c : ascii) : bool := (nat_of_ascii c <? 128)%nat.
Definition plain (s : string) : bool := Js.all_chars plain_char s.

Definition plain_value (v : option value) : bool :=
  match v with
  | Some (VStr s) => plain s
  | _ => true
  end.

(** The text fields of a country, and the text columns of a stored row. *)
Definition plain_country (c : CountryModel.t) : bool :=
  plain_value (CountryModel.iso c) && plain_value (CountryModel.name c)
  && plain_value (CountryModel.timezone c) && plain_value (CountryModel.mobileRegex c)
  && plain_value (CountryModel.flag c).

Definition plain_row (r : row) : bool :=
  plain_value (r !! "iso") && plain_value (r !! "name")
  && plain_value (r !! "timezone") && plain_value (r !! "mobileRegex")
  && plain_value (r !! "flag").

Definition plain_table (t : table) : Prop :=
  forall r : row, In r (rows t) -> plain_row r = true.
End Text.

(** The country model is defined with [timestamps: true] and no column
    names of its own, so the ORM adds the columns [createdAt] and
    [updatedAt]: the table has no column [updated_at]. A table lacks a
    column when its model declares none of that name and no row holds a
    value for it. On such a table the query [model.max('updated_at')]
    fails, [findLastModification] catches the error and returns [null];
    [Model.max] finds no value and [BaseModel.findLastModification]
    returns [None]: either way there is no last modification. *)
Module Schema.
Definition lacks (k : string) (t : table) : Prop :=
  ~ In k (columns t) /\ forall r : row, In r (rows t) -> r !! k = None.
End Schema.

Module Examples.
Import TableInitializer.


(** The table of [Fixtures.one_country]. *)
Definition one_row : table := Table CountryDbStructure.columns [Fixtures.cameroon] 1.

(** The body of a POST: Gabon, its ISO code in lower case and blanks around
    its name. *)
Definition gabon_body : row :=
  <["code" := VNum 241]> (<["iso" := VStr "ga"]> (<["name" := VStr " Gabon "]> ∅)).

Definition gabon : CountryModel.t := CountryRoute.from_body gabon_body.

Definition clock : string := "2025-01-01T00:00:00.000Z".


(** A license adjustment with every amount filled in: 2 employees for 3
    months at 5.00, 6.00 of tax, at an exchange rate of 600. *)
Definition full_adjustment : LicenseAdjustmentDbStructure.data :=
  LicenseAdjustmentDbStructure.Data
    (Js.val 2%float) (Js.val 3%float) (Js.val (Amount.decimal 500))
    (Js.val (Amount.decimal 3000)) (Js.val (Amount.decimal 600))
    (Js.val (Amount.decimal 3600))
    (Js.val 600%float) (Js.val 18000%float) (Js.val 3600%float) (Js.val 21600%float)
    (Js.val 1000) (Js.val 2000) (Js.val 3000).

(** The country table last modified at 2024-02-29T23:59:00Z. *)
Definition leap_minute : TableInitializer.registry :=
  Fixtures.countries [<["updated_at" := VNum 1709251140000]> Fixtures.cameroon] 1.




End Examples.

(* ===================================================================== *)
(** * Part II: the properties                                             *)
(* ===================================================================== *)

(** ** Pagination *)

Section Pagination.
Import ExtractQueryParams TableInitializer.

Lemma extract_limit_in_range (query : gmap string string) (l : Z) :
  limit (extractPaginationFromQuery query) = Some l -> 0 < l <= 1000.
Proof.
  unfold extractPaginationFromQuery. cbn [limit].
  destruct (query !! "limit") as [s|]; [|discriminate].
  destruct (Js.parseInt s) as [n|]; [|discriminate].
  destruct (0 <? n) eqn:Hpos; destruct (n <=? 1000) eqn:Hcap; cbn; try discriminate.
  intros [= <-]. apply Z.ltb_lt in Hpos. apply Z.leb_le in Hcap. lia.
Qed.

(** A limit above the cap is not clamped to 1000: it is dropped. *)
Lemma extract_limit_over_cap (query : gmap string string) (s : string) (n : Z) :
  query !! "limit" = Some s -> Js.parseInt s = Some n -> 1000 < n ->
  limit (extractPaginationFromQuery query) = None.
Proof.
  intros Hq Hs Hn. unfold extractPaginationFromQuery. cbn [limit].
  rewrite Hq, Hs.
  destruct (n <=? 1000) eqn:Hcap; [apply Z.leb_le in Hcap; lia|].
  now rewrite andb_false_r.
Qed.

(** With a limit in force, [findAll] returns at most that many rows. *)
Lemma findAll_at_most_limit db name where_ p rs l :
  BaseModel.findAll db name where_ p = Ok rs ->
  limit p = Some l -> 0 < l ->
  (Z.of_nat (length rs) <= l).
Proof.
  unfold BaseModel.findAll. intros H Hl Hpos.
  destruct (getModel db name) as [t|e]; cbn in H; [|discriminate].
  rewrite Hl in H.
  destruct (0 <? l) eqn:E; [|apply Z.ltb_ge in E; lia].
  injection H as <-. unfold Model.findAll.
  rewrite length_take. lia.
Qed.

(** Without offset and limit, [findAll] returns every matching row. *)
Lemma findAll_unbounded db name where_ t :
  getModel db name = Ok t ->
  BaseModel.findAll db name where_ no_pagination
  = Ok (List.filter (Model.satisfies where_) (rows t)).
Proof. intros H. unfold BaseModel.findAll. now rewrite H. Qed.

End Pagination.

Section PaginationOnTheRoute.
Import ExtractQueryParams.

(** C1 (the code departs from the claim). The claim: a [limit] that parses
    to an integer above 1000 is capped at 1000, so that at most 1000 rows are
    returned whenever a limit is supplied. The code: for [?limit=1001] the
    extracted pagination carries no limit at all, [findAll] then applies
    none, and [GET /list] on a table of 1001 countries returns all 1001. *)
Theorem C1_limit_above_cap_is_dropped :
  let query : gmap string string := {["limit" := "1001"]} in
  Js.parseInt "1001" = Some 1001 /\
  extractPaginationFromQuery query = no_pagination /\
  Spec.rows_returned
    (BaseModel.findAll Fixtures.crowded CountryDbStructure.tableName ∅
       (extractPaginationFromQuery query)) = Some 1001%nat /\
  Spec.reported_count
    (CountryRoute.list_ "2026-01-01T00:00:00.000Z" query Fixtures.crowded)
  = Some (JNum 1001).
Proof. cbv zeta. repeat split; vm_compute; reflexivity. Qed.

End PaginationOnTheRoute.

(** ** The GUID generator *)

Section Guid.
Import TableInitializer.

(** [x || 0] is [x] on numbers. *)
Lemma or_zero (m : Z) : (if Js.truthy_Z m then m else 0) = m.
Proof. unfold Js.truthy_Z. destruct (Z.eqb_spec m 0); cbn; congruence. Qed.

(** What the generator computes on a registered table: the offset, plus
    the next id. *)
Lemma guidGenerator_next_id db name t length :
  getModel db name = Ok t -> 3 <= length ->
  BaseModel.guidGenerator db name length
  = Some (10 ^ (length - 1) + (Spec.max_id t + 1)).
Proof.
  intros Hm Hlen. unfold BaseModel.guidGenerator, Spec.max_id. rewrite Hm.
  destruct (length <? 3) eqn:E; [apply Z.ltb_lt in E; lia|].
  destruct (Model.max t "id") as [m|]; [now rewrite or_zero|reflexivity].
Qed.

(** The generator returns [null] for an unknown table and for a length
    below 3. *)
Lemma guidGenerator_null db name length :
  (exists e, getModel db name = Throw e) \/ length < 3 ->
  BaseModel.guidGenerator db name length = None.
Proof.
  unfold BaseModel.guidGenerator. intros [[e ->]|H]; [reflexivity|].
  destruct (getModel db name); [|reflexivity].
  apply Z.ltb_lt in H. now rewrite H.
Qed.

(** With the default length 6 the offset is 10^5. *)
Lemma guidGenerator_default db name t :
  getModel db name = Ok t ->
  BaseModel.guidGenerator db name BaseModel.default_length
  = Some (Spec.max_id t + 100001).
Proof.
  intros Hm. rewrite (guidGenerator_next_id db name t).
  - f_equal. unfold BaseModel.default_length. change (10 ^ (6 - 1)) with 100000. lia.
  - assumption.
  - unfold BaseModel.default_length. lia.
Qed.

(** C2, as the claim states it, fails on the empty table: the maximum id
    counts as 0 and the generator answers 100001, not 100000. *)
Lemma C2_empty_table_gives_100001 :
  getModel Fixtures.empty_db CountryDbStructure.tableName
  = Ok (Table CountryDbStructure.columns [] 0) /\
  Spec.max_id (Table CountryDbStructure.columns [] 0) = 0 /\
  BaseModel.guidGenerator Fixtures.empty_db CountryDbStructure.tableName
    BaseModel.default_length = Some 100001 /\
  BaseModel.guidGenerator Fixtures.empty_db CountryDbStructure.tableName
    BaseModel.default_length <> Some (10 ^ 5 + 0).
Proof. repeat split; try (vm_compute; reflexivity). vm_compute. discriminate. Qed.

(** C2 (amended). For every registered table whose current maximum id is
    [m] (0 when the table is empty), the generator with the default length 6
    returns the offset 10^5 plus the next id [m + 1], that is [m + 100001]. *)
Theorem C2_guid_is_offset_plus_next_id db name t :
  getModel db name = Ok t ->
  BaseModel.guidGenerator db name BaseModel.default_length
  = Some (10 ^ 5 + (Spec.max_id t + 1)).
Proof.
  intros Hm. rewrite (guidGenerator_default db name t Hm).
  f_equal. change (10 ^ 5) with 100000. lia.
Qed.

Lemma C2_guid_is_offset_plus_next_id_witness :
  BaseModel.guidGenerator Fixtures.one_country CountryDbStructure.tableName
    BaseModel.default_length
  = Some (10 ^ 5 +
          (Spec.max_id (Table CountryDbStructure.columns [Fixtures.cameroon] 1) + 1)).
Proof.
  apply (C2_guid_is_offset_plus_next_id Fixtures.one_country CountryDbStructure.tableName).
  vm_compute. reflexivity.
Defined.




End Guid.

(** ** The response envelope *)

Section Envelope.
Import TableInitializer.

Lemma envelope_handleSuccess structure httpCode :
  Spec.envelope (R.handleSuccess structure httpCode) = true.
Proof. reflexivity. Qed.

Lemma envelope_handleCreated structure :
  Spec.envelope (R.handleCreated structure) = true.
Proof. reflexivity. Qed.

Lemma envelope_fail now httpCode code msg :
  Spec.envelope (CountryRoute.fail now httpCode code msg) = true.
Proof. reflexivity. Qed.

Lemma envelope_savedError now httpCode :
  Spec.envelope (R.handleError now httpCode G.savedError) = true.
Proof. reflexivity. Qed.

Lemma envelope_save_failure now fallback e :
  Spec.envelope (CountryRoute.save_failure now fallback e) = true.
Proof.
  unfold CountryRoute.save_failure.
  repeat case_match; apply envelope_fail.
Qed.

Lemma envelope_found_or_404 now m1 m2 r :
  Spec.envelope (CountryRoute.found_or_404 now m1 m2 r) = true.
Proof. unfold CountryRoute.found_or_404. repeat case_match; reflexivity. Qed.

Create HintDb envelope.
#[local] Hint Resolve envelope_handleSuccess envelope_handleCreated envelope_fail
  envelope_savedError envelope_save_failure envelope_found_or_404 : envelope.

Lemma envelope_handleError now httpCode error :
  Spec.code_and_message (Some error) = true ->
  Spec.envelope (R.handleError now httpCode error) = true.
Proof.
  intros H. unfold Spec.envelope, R.handleError. cbn [body].
  change (json_get "success" _) with (Some (JBool false)). cbv iota.
  unfold Spec.failure_envelope.
  change (json_get "error" _) with (Some error).
  rewrite H. reflexivity.
Qed.

Lemma envelope_refuse now code msg r :
  Ensure.refuse now code msg = Some r -> Spec.envelope r = true.
Proof. unfold Ensure.refuse. intros [= <-]. reflexivity. Qed.

(** C3, as the claim states it, fails in three ways. A success response
    carries no timestamp: here the answer of [GET /search/code/237] for a
    stored country. The application's own 404 answer is a failure without
    timestamp. And its answers to [GET /health] and [GET /] carry no
    [success] field at all. *)
Lemma C3_responses_that_are_not_the_claimed_envelope :
  let found := CountryRoute.search_code "2026-01-01T00:00:00.000Z" "237" Fixtures.one_country in
  let missing := App.notFound "GET" "/nowhere" in
  let health := App.health "2026-01-01T00:00:00.000Z" (JNum 12) None Fixtures.one_country in
  let root := App.root "2026-01-01T00:00:00.000Z" in
  (status found = HttpStatus.SUCCESS /\
   (exists j, body found = Some j /\ json_get "success" j = Some (JBool true)
              /\ has_key "data" j = true /\ has_key "timestamp" j = false) /\
   Spec.claimed_envelope found = false) /\
  (status missing = HttpStatus.NOT_FOUND /\
   (exists j, body missing = Some j /\ json_get "success" j = Some (JBool false)
              /\ Spec.code_and_message (json_get "error" j) = true
              /\ has_key "timestamp" j = false) /\
   Spec.claimed_envelope missing = false) /\
  ((exists j, body health = Some j /\ has_key "success" j = false) /\
   Spec.claimed_envelope health = false) /\
  ((exists j, body root = Some j /\ has_key "success" j = false) /\
   Spec.claimed_envelope root = false).
Proof.
  cbv zeta. repeat split; try (vm_compute; reflexivity);
    eexists; repeat split; vm_compute; reflexivity.
Qed.


(** C3 (amended). Every JSON response sent through the response helpers
    [R], which is how the routers and the method guards answer, is an
    envelope with a boolean [success]: [{ success: true, data }], without
    timestamp, from [handleSuccess] and [handleCreated], and
    [{ success: false, error, timestamp }] from [handleError], the error
    carrying the [code] and [message] it is given. So is every response of
    the ten handlers of the country router and every refusal of the method
    guards. The answers the application sends itself are not: its 404 and
    error answers have no timestamp, [GET /health] and [GET /] no [success]
    field. *)
Theorem C3_every_response_is_an_envelope :
  (forall structure httpCode,
      Spec.envelope (R.handleSuccess structure httpCode) = true /\
      Spec.envelope (R.handleCreated structure) = true) /\
  (forall now httpCode error,
      Spec.code_and_message (Some error) = true ->
      Spec.envelope (R.handleError now httpCode error) = true) /\
  (forall now (param : string) (query : gmap string string) (body : row) (db : registry)
          (decoded : result string) (exported : result json) (revision : result string)
          (checked_at : string),
      Spec.envelope (CountryExportRoute.export_ now exported) = true /\
      Spec.envelope (CountryExportRoute.revision now revision checked_at) = true /\
      Spec.envelope (CountryTimezoneRoute.timezone now param decoded query db) = true /\
      Spec.envelope (fst (CountryRoute.post now body db)) = true /\
      Spec.envelope (fst (CountryRoute.put now param body db)) = true /\
      Spec.envelope (fst (CountryRoute.delete now param db)) = true /\
      Spec.envelope (CountryRoute.list_ now query db) = true /\
      Spec.envelope (CountryRoute.search_iso now param db) = true /\
      Spec.envelope (CountryRoute.search_code now param db) = true /\
      Spec.envelope (CountryRoute.get now param db) = true) /\
  (forall now method expected methods msg env (guard : Ensure.middleware) r,
      In guard [Ensure.validateMethod now expected; Ensure.anyOf now methods;
                Ensure.reject now methods; Ensure.custom now expected msg;
                Ensure.strict now; Ensure.envBased now env expected] ->
      guard method = Some r -> Spec.envelope r = true) /\
  (forall timestamp uptime node_env db method originalUrl status code message stack,
      let answers := [App.notFound method originalUrl;
                      App.errorHandler node_env status code message stack;
                      App.health timestamp uptime node_env db;
                      App.root timestamp] in
      forall r, In r answers -> Spec.envelope r = false /\ Spec.claimed_envelope r = false).
Proof.
  split; [|split; [|split; [|split]]].
  - intros structure httpCode. split; reflexivity.
  - intros now httpCode error. apply envelope_handleError.
  - intros now param query body db decoded exported revision checked_at.
    repeat split.
    + unfold CountryExportRoute.export_. case_match; auto with envelope.
    + unfold CountryExportRoute.revision. case_match; auto with envelope.
    + unfold CountryTimezoneRoute.timezone. repeat case_match; auto with envelope.
    + unfold CountryRoute.post. repeat case_match; cbn [fst]; auto with envelope.
    + unfold CountryRoute.put. repeat case_match; cbn [fst]; auto with envelope.
    + unfold CountryRoute.delete. repeat case_match; cbn [fst]; auto with envelope.
    + unfold CountryRoute.list_. repeat case_match; auto with envelope.
    + unfold CountryRoute.search_iso. case_match; auto with envelope.
    + unfold CountryRoute.search_code. case_match; auto with envelope.
    + unfold CountryRoute.get. auto with envelope.
  - intros now method expected methods msg env guard r Hin Hr.
    cbn [In] in Hin.
    destruct Hin as [<-|[<-|[<-|[<-|[<-|[<-|[]]]]]]]; revert Hr;
      unfold Ensure.validateMethod, Ensure.anyOf, Ensure.reject, Ensure.custom,
        Ensure.strict, Ensure.envBased, Ensure.dev, Ensure.validateMethod;
      repeat case_match; try discriminate; apply envelope_refuse.
  - intros timestamp uptime node_env db method originalUrl status code message stack.
    cbv zeta. cbn [In]. intros r [<-|[<-|[<-|[<-|[]]]]]; try (split; reflexivity).
    unfold Spec.envelope, Spec.claimed_envelope, App.errorHandler. cbn [body].
    change (json_get "success" _) with (Some (JBool false)). cbv iota.
    unfold Spec.failure_envelope.
    split.
    + match goal with
      | |- ?a && ?b && ?c = false => change b with false
      end.
      now rewrite andb_false_r.
    + match goal with
      | |- ?a && ?b = false => change b with false
      end.
      now rewrite andb_false_r.
Qed.


End Envelope.

(** ** Conflicts and missing rows on the country router *)

Section Lookup.
Import TableInitializer.

Lemma satisfies_singleton (k : string) (v : value) (r : row) :
  Model.satisfies {[k := v]} r = true <-> r !! k = Some v.
Proof.
  unfold Model.satisfies. rewrite bool_decide_eq_true.
  now rewrite map_Forall_singleton.
Qed.


Lemma findOne_none (t : table) (k : string) (v : value) :
  Spec.no_row_with t k v -> Model.findOne t {[k := v]} = None.
Proof.
  unfold Spec.no_row_with, Model.findOne. intros H.
  induction (rows t) as [|r rs IH]; [reflexivity|].
  cbn [List.find].
  destruct (Model.satisfies {[k := v]} r) eqn:E.
  - apply satisfies_singleton in E. exfalso. apply (H r); [now left|assumption].
  - apply IH. intros r' Hr'. apply H. now right.
Qed.


Lemma is_digit_not_white c : Js.is_digit c = true -> Js.is_white c = false.
Proof. destruct c as [[] [] [] [] [] [] [] []]; vm_compute; congruence. Qed.

Lemma is_digit_not_sign c : Js.is_digit c = true -> c <> "-"%char /\ c <> "+"%char.
Proof. destruct c as [[] [] [] [] [] [] [] []]; vm_compute; intros; split; congruence. Qed.

Lemma parseInt_digits (s : string) :
  Js.starts_with_digit s = true -> Js.parseInt s = Some (Js.digits_value 0 s).
Proof.
  destruct s as [|c r]; [discriminate|]. cbn [Js.starts_with_digit]. intros Hc.
  unfold Js.parseInt. cbn [Js.trimStart]. rewrite (is_digit_not_white c Hc).
  destruct (is_digit_not_sign c Hc) as [Hm Hp].
  destruct c as [[] [] [] [] [] [] [] []]; try congruence; cbn; rewrite ?Hc; try reflexivity.
Qed.
End Lookup.

Section Routes.
Import TableInitializer.

Lemma from_body_is_new body : Country.isNew (CountryRoute.from_body body) = true.
Proof.
  unfold CountryRoute.from_body, CountryRoute.set_if_truthy, CountryRoute.set_if_given.
  repeat case_match; reflexivity.
Qed.

Lemma findOne_registered db name t where_ :
  getModel db name = Ok t ->
  BaseModel.findOne db name where_ = Ok (Model.findOne t where_).
Proof. intros H. unfold BaseModel.findOne. now rewrite H. Qed.





Lemma load_by_guid db t (n : Z) :
  getModel db CountryDbStructure.tableName = Ok t ->
  Spec.no_row_with t "guid" (VNum n) ->
  Country.load db (VNum n) true false false = Ok None.
Proof.
  intros Hm Hno. unfold Country.load, CountryModel.findByGuid.
  rewrite (findOne_registered db _ t _ Hm), (findOne_none t _ _ Hno). reflexivity.
Qed.

Lemma put_not_found now guid_param n body db t :
  getModel db CountryDbStructure.tableName = Ok t ->
  Js.re_six_digits guid_param = true ->
  Js.parseInt guid_param = Some n ->
  Spec.no_row_with t "guid" (VNum n) ->
  CountryRoute.put now guid_param body db
  = (CountryRoute.fail now HttpStatus.NOT_FOUND "country_not_found" "Country not found", db).
Proof.
  intros Hm Hre Hn Hno. unfold CountryRoute.put. rewrite Hre, Hn. cbn [negb].
  now rewrite (load_by_guid db t n Hm Hno).
Qed.






End Routes.

(** ** The update path of [save()] *)

Section Update.
Import TableInitializer.

Lemma lookup_set_if_defined (k : string) (v : option value) (o : row) (col : string) :
  CountryModel.set_if_defined k v o !! col
  = match v with
    | Some x => if decide (col = k) then Some x else o !! col
    | None => o !! col
    end.
Proof.
  unfold CountryModel.set_if_defined. destruct v as [x|]; [|reflexivity].
  rewrite lookup_insert. repeat case_decide; congruence.
Qed.

Lemma updateData_supplied (c : CountryModel.t) (col : string) :
  CountryModel.updateData c !! col = Spec.supplied c col.
Proof.
  unfold CountryModel.updateData, Spec.supplied.
  rewrite !lookup_set_if_defined, lookup_empty.
  destruct c as [i g co iso_ na tz mr fl]; cbn.
  repeat case_decide; subst; try discriminate;
    destruct co, iso_, na, tz, mr, fl; reflexivity.
Qed.

Lemma holds_ok r msg u : CountryModel.holds r msg = Ok u -> r = Ok true.
Proof. destruct r as [[]|]; cbn; congruence. Qed.

(** Validation cleans the five text fields and leaves [id], [guid] and
    [code] as they are. *)
Lemma validate_keeps_identity this c :
  CountryModel.validate this = Ok c ->
  CountryModel.id c = CountryModel.id this /\
  CountryModel.guid c = CountryModel.guid this /\
  CountryModel.code c = CountryModel.code this.
Proof.
  unfold CountryModel.validate, CountryModel.cleanData, bind.
  repeat (case_match; try discriminate).
  intros [= <-]. auto.
Qed.

Lemma updateOne_registered db name t data where_ :
  getModel db name = Ok t ->
  BaseModel.updateOne db name data where_
  = Ok (Model.count t where_,
        setModel db name
          (Table (columns t)
                 ((fun r => if Model.satisfies where_ r then data ∪ r else r) <$> rows t)
                 (sequence t))).
Proof. intros H. unfold BaseModel.updateOne. rewrite H. reflexivity. Qed.

Lemma save_update_inv this db this' db' :
  Country.isNew this = false ->
  Country.save this db = Ok (this', db') ->
  exists t i,
    getModel db CountryDbStructure.tableName = Ok t /\
    CountryModel.validate this = Ok this' /\
    CountryModel.id this = Some i /\
    db' = setModel db CountryDbStructure.tableName
            (Table (columns t)
               ((fun r => if Model.satisfies {["id" := i]} r
                          then CountryModel.updateData this' ∪ r else r) <$> rows t)
               (sequence t)).
Proof.
  intros Hnew. unfold Country.save. rewrite Hnew.
  destruct (CountryModel.update this db) as [[c d]|e] eqn:Hup; [|intros H; discriminate H].
  intros H. assert (c = this' /\ d = db') as [-> ->] by (split; congruence). clear H.
  revert Hup. unfold CountryModel.update.
  destruct (CountryModel.validate this) as [c|e] eqn:Hval; cbn [bind];
    [|intros H; discriminate H].
  destruct (validate_keeps_identity this c Hval) as (Hid & _ & _).
  destruct (CountryModel.id c) as [i|] eqn:Hi; [|intros H; discriminate H].
  destruct (truthy_value (Some i)); cbn [negb]; [|intros H; discriminate H].
  unfold BaseModel.updateOne.
  destruct (getModel db CountryModel.tableName) as [t|e] eqn:Hm; cbn [bind];
    [|intros H; discriminate H].
  cbn [Model.update bind].
  destruct (Js.truthy_Z (Model.count t {["id" := i]})); cbn [negb];
    [|intros H; discriminate H].
  intros H. assert (c = this') as -> by congruence.
  exists t, i.
  split; [exact Hm|]. split; [reflexivity|]. split; [congruence|].
  inversion H. reflexivity.
Qed.

Lemma getModel_setModel db name t t' :
  getModel db name = Ok t -> getModel (setModel db name t') name = Ok t'.
Proof.
  unfold getModel, setModel. cbn [initialized models].
  destruct (initialized db); cbn [negb]; [|discriminate].
  intros _. now rewrite lookup_insert_eq.
Qed.

Lemma lookup_written (data r : row) (col : string) :
  (data ∪ r) !! col = match data !! col with Some v => Some v | None => r !! col end.
Proof.
  destruct (data !! col) as [v|] eqn:E.
  - now apply lookup_union_Some_l.
  - now apply lookup_union_r.
Qed.

Lemma stamped_updateOne_registered stamp now db name t data where_ :
  getModel db name = Ok t ->
  Timestamps.updateOne stamp now db name data where_
  = Ok (Model.count t where_,
        setModel db name
          (Table (columns t)
             ((fun r => if Model.satisfies where_ r
                        then <[stamp := VNum now]> data ∪ r else r) <$> rows t)
             (sequence t))).
Proof. intros H. unfold Timestamps.updateOne. now apply updateOne_registered. Qed.



Lemma stamped_update_inv now this db this' db' :
  StampedCountryModel.update now this db = Ok (this', db') ->
  exists t i,
    getModel db CountryDbStructure.tableName = Ok t /\
    CountryModel.validate this = Ok this' /\
    CountryModel.id this = Some i /\
    db' = setModel db CountryDbStructure.tableName
            (Table (columns t)
               ((fun r => if Model.satisfies {["id" := i]} r
                          then <[Timestamps.updatedAt := VNum now]>
                                 (CountryModel.updateData this') ∪ r
                          else r) <$> rows t)
               (sequence t)).
Proof.
  unfold StampedCountryModel.update.
  destruct (CountryModel.validate this) as [c|e] eqn:Hval; cbn [bind];
    [|intros H; discriminate H].
  destruct (validate_keeps_identity this c Hval) as (Hid & _ & _).
  destruct (CountryModel.id c) as [i|] eqn:Hi; [|intros H; discriminate H].
  destruct (truthy_value (Some i)); cbn [negb]; [|intros H; discriminate H].
  destruct (getModel db CountryModel.tableName) as [t|e] eqn:Hm.
  - rewrite (stamped_updateOne_registered _ now db _ t _ _ Hm). cbn [bind].
    destruct (Js.truthy_Z (Model.count t {["id" := i]})); cbn [negb];
      [|intros H; discriminate H].
    intros [= <- <-]. exists t, i.
    split; [exact Hm|]. split; [reflexivity|]. split; [congruence|reflexivity].
  - unfold Timestamps.updateOne, BaseModel.updateOne. rewrite Hm. cbn [bind].
    intros H; discriminate H.
Qed.







End Update.

(** ** Billing cycles: the invoice date of a completed cycle *)

Section BillingCycle.
Import BillingCycleDbStructure.

Lemma is_completed_iff this :
  is_completed this = true <-> billing_status this = Js.val COMPLETED.
Proof.
  unfold is_completed. destruct (billing_status this) as [| |s]; try (split; discriminate).
  rewrite String.eqb_eq. split; congruence.
Qed.

Lemma isRequiredForCompleted_ok this :
  isRequiredForCompleted this = Ok tt -> Spec.completed_has_invoice this.
Proof.
  unfold isRequiredForCompleted, Spec.completed_has_invoice. intros H Hc.
  apply is_completed_iff in Hc. rewrite Hc in H. cbn [andb] in H.
  destruct (invoice_generated_at this) as [| |d]; cbn in H; try discriminate H.
  now exists d.
Qed.

Lemma validate_ok this :
  validate this = Ok tt -> isRequiredForCompleted this = Ok tt.
Proof.
  unfold validate, bind.
  destruct (isAfterPeriodStart this) as [[]|]; [|discriminate].
  destruct (isCorrectTotal this) as [[]|]; [|discriminate].
  destruct (isCorrectSubtotal this) as [[]|]; [|discriminate].
  destruct (isCorrectTotalLocal this) as [[]|]; [|discriminate].
  destruct (isRequiredForCompleted this) as [[]|]; [reflexivity|discriminate].
Qed.

Lemma validate_throws this e :
  isRequiredForCompleted this = Throw e -> exists e', validate this = Throw e'.
Proof.
  intros H. unfold validate, bind. rewrite H.
  destruct (isAfterPeriodStart this) as [[]|]; [|eauto].
  destruct (isCorrectTotal this) as [[]|]; [|eauto].
  destruct (isCorrectSubtotal this) as [[]|]; [|eauto].
  destruct (isCorrectTotalLocal this) as [[]|]; eauto.
Qed.

(** C6. For every billing-cycle record whose status is COMPLETED and whose
    [invoice_generated_at] is [null] or [undefined], the validator
    [isRequiredForCompleted] throws, so validation fails and the row is not
    written; consequently, when every stored COMPLETED cycle has an invoice
    date, this is still so after any row is created. *)
Theorem C6_completed_requires_invoice_date :
  (forall this,
      billing_status this = Js.val COMPLETED ->
      Js.is_nullish (invoice_generated_at this) = true ->
      isRequiredForCompleted this
      = Throw (Error "Invoice generated date is required when billing status is COMPLETED")
      /\ (exists e, validate this = Throw e)
      /\ (forall stored, exists e, create stored this = Throw e))
  /\
  (forall stored this stored',
      Forall Spec.completed_has_invoice stored ->
      create stored this = Ok stored' ->
      Forall Spec.completed_has_invoice stored').
Proof.
  split.
  - intros this Hc Hn.
    assert (Hthrow : isRequiredForCompleted this
       = Throw (Error "Invoice generated date is required when billing status is COMPLETED")).
    { unfold isRequiredForCompleted.
      apply is_completed_iff in Hc. now rewrite Hc, Hn. }
    split; [exact Hthrow|].
    destruct (validate_throws this _ Hthrow) as [e He].
    split; [now exists e|].
    intros stored. exists e. unfold create. now rewrite He.
  - intros stored this stored' Hinv Hcreate. unfold create in Hcreate.
    destruct (validate this) as [[]|e] eqn:Hval; cbn [bind] in Hcreate; [|discriminate Hcreate].
    injection Hcreate as <-. apply Forall_app. split; [exact Hinv|].
    constructor; [|constructor].
    apply isRequiredForCompleted_ok. now apply validate_ok.
Qed.

Lemma C6_completed_requires_invoice_date_witness :
  (isRequiredForCompleted Fixtures.completed_without_invoice
   = Throw (Error "Invoice generated date is required when billing status is COMPLETED")
   /\ (exists e, validate Fixtures.completed_without_invoice = Throw e)
   /\ (forall stored, exists e, create stored Fixtures.completed_without_invoice = Throw e))
  /\ Forall Spec.completed_has_invoice [Fixtures.completed_with_invoice].
Proof.
  destruct C6_completed_requires_invoice_date as [Hthrows Hkept].
  split.
  - apply Hthrows; vm_compute; reflexivity.
  - apply (Hkept [] Fixtures.completed_with_invoice); [constructor|vm_compute; reflexivity].
Defined.
End BillingCycle.

(** ** Amount reconciliation *)

Section Ieee.

(** IEEE-754 comparison is antisymmetric. *)
Lemma SFcompare_antisym (x y : spec_float) :
  SFcompare y x = option_map CompOpp (SFcompare x y).
Proof.
  destruct x as [sx|sx| |sx mx ex], y as [sy|sy| |sy my ey]; cbn;
    try reflexivity;
    try (destruct sx; reflexivity); try (destruct sy; reflexivity);
    try (destruct sx, sy; reflexivity).
  pose proof (Pos.compare_cont_antisym mx my Eq) as Hm. cbn [CompOpp] in Hm.
  destruct sx, sy; cbn; try reflexivity; f_equal;
    rewrite (Z.compare_antisym ex ey); destruct (ex ?= ey); cbn; try reflexivity;
    rewrite <- Hm; destruct (Pos.compare_cont Eq mx my); reflexivity.
Qed.

Lemma SFltb_false_iff (x y : spec_float) :
  SFltb y x = false <-> SFleb x y = true \/ SFcompare x y = None.
Proof.
  unfold SFltb, SFleb. rewrite (SFcompare_antisym x y).
  destruct (SFcompare x y) as [[]|]; cbn; split; intros H; try discriminate;
    try (destruct H; discriminate); auto.
Qed.

(** The sign of a rounded result is the sign that was asked for. *)
Lemma SFabs_binary_round_aux prec emax sx sx' mx ex lx :
  SFabs (binary_round_aux prec emax sx mx ex lx)
  = SFabs (binary_round_aux prec emax sx' mx ex lx).
Proof.
  unfold binary_round_aux.
  destruct (shr_fexp prec emax mx ex lx) as [mrs' e'].
  destruct (shr_fexp prec emax _ e' loc_Exact) as [mrs'' e''].
  destruct (shr_m mrs''); try reflexivity.
  destruct (e'' <=? emax - prec); reflexivity.
Qed.

Lemma SFabs_binary_round prec emax sx sx' mx ex :
  SFabs (binary_round prec emax sx mx ex) = SFabs (binary_round prec emax sx' mx ex).
Proof.
  unfold binary_round.
  destruct (shl_align mx ex _) as [mz ez]. apply SFabs_binary_round_aux.
Qed.

Lemma SFabs_binary_normalize_opp prec emax m e szero :
  SFabs (binary_normalize prec emax (- m) e szero)
  = SFabs (binary_normalize prec emax m e szero).
Proof.
  destruct m as [|p|p]; cbn; try reflexivity; apply SFabs_binary_round.
Qed.

(** [|a - b| = |b - a|] for doubles. *)
Lemma SFabs_SFsub_sym prec emax (a b : spec_float) :
  SFabs (SFsub prec emax a b) = SFabs (SFsub prec emax b a).
Proof.
  destruct a as [sa|sa| |sa ma ea], b as [sb|sb| |sb mb eb]; cbn;
    try reflexivity;
    try (destruct sa, sb; reflexivity).
  rewrite (Z.min_comm eb ea).
  rewrite <- SFabs_binary_normalize_opp. f_equal. f_equal. lia.
Qed.

End Ieee.

Section NotNaN.
Variables prec emax : Z.

Lemma shr_1_nonneg mrs : 0 <= shr_m mrs -> 0 <= shr_m (shr_1 mrs).
Proof.
  destruct mrs as [m r s]. cbn [shr_m]. intros H.
  destruct m as [|[p|p|]|p]; cbn; lia.
Qed.

Lemma iter_shr_1_nonneg p : forall mrs, 0 <= shr_m mrs -> 0 <= shr_m (SpecFloat.iter_pos shr_1 p mrs).
Proof.
  induction p as [p IH|p IH|]; intros mrs H; cbn [SpecFloat.iter_pos].
  - apply IH, IH, shr_1_nonneg, H.
  - apply IH, IH, H.
  - apply shr_1_nonneg, H.
Qed.

Lemma shr_fexp_nonneg m e l :
  0 <= m -> 0 <= shr_m (fst (shr_fexp prec emax m e l)).
Proof.
  intros H. unfold shr_fexp, shr.
  assert (H0 : 0 <= shr_m (shr_record_of_loc m l)) by (destruct l as [|[]]; exact H).
  destruct (fexp prec emax (Zdigits2 m + e) - e); cbn [fst]; try exact H0.
  now apply iter_shr_1_nonneg.
Qed.

Lemma round_nearest_even_nonneg m l : 0 <= m -> 0 <= round_nearest_even m l.
Proof.
  intros H. unfold round_nearest_even. destruct l as [|[]]; try lia.
  destruct (Z.even m); lia.
Qed.

Lemma binary_round_aux_is_number sx mx ex lx :
  0 <= mx -> binary_round_aux prec emax sx mx ex lx <> S754_nan.
Proof.
  intros H. unfold binary_round_aux.
  pose proof (shr_fexp_nonneg mx ex lx H) as H1.
  destruct (shr_fexp prec emax mx ex lx) as [mrs' e']. cbn [fst] in H1.
  pose proof (shr_fexp_nonneg _ e' loc_Exact
                (round_nearest_even_nonneg _ (loc_of_shr_record mrs') H1)) as H2.
  destruct (shr_fexp prec emax _ e' loc_Exact) as [mrs'' e'']. cbn [fst] in H2.
  destruct (shr_m mrs'') as [|p|p]; try discriminate; [|lia].
  destruct (e'' <=? emax - prec); discriminate.
Qed.

Lemma binary_normalize_is_number m e szero :
  binary_normalize prec emax m e szero <> S754_nan.
Proof.
  destruct m as [|p|p]; cbn; try discriminate; unfold binary_round;
    destruct (shl_align p e _) as [mz ez]; apply binary_round_aux_is_number; lia.
Qed.

Definition SFfinite (x : spec_float) : bool :=
  match x with
  | S754_zero _ | S754_finite _ _ _ => true
  | _ => false
  end.

Lemma SFadd_finite x y :
  SFfinite x = true -> SFfinite y = true -> SFadd prec emax x y <> S754_nan.
Proof.
  destruct x as [sx|sx| |sx mx ex], y as [sy|sy| |sy my ey]; cbn; try discriminate; intros _ _.
  - destruct sx, sy; discriminate.
  - apply binary_normalize_is_number.
Qed.

Lemma SFsub_finite x y :
  x <> S754_nan -> SFfinite y = true -> SFsub prec emax x y <> S754_nan.
Proof.
  destruct x as [sx|sx| |sx mx ex], y as [sy|sy| |sy my ey]; cbn; try discriminate;
    try congruence; intros _ _.
  - destruct sx, sy; discriminate.
  - apply binary_normalize_is_number.
Qed.

Lemma SFabs_is_number x : x <> S754_nan -> SFabs x <> S754_nan.
Proof. destruct x; cbn; congruence. Qed.

Lemma SFcompare_None x y : SFcompare x y = None -> x = S754_nan \/ y = S754_nan.
Proof.
  destruct x as [sx|sx| |sx mx ex], y as [sy|sy| |sy my ey]; cbn; auto; try discriminate.
Qed.
End NotNaN.

Section Reconciliation.
Import BillingCycleDbStructure LicenseAdjustmentDbStructure.

Lemma tolerance_is_ieee : Prim2SF Amount.tolerance = Spec.tolerance_ieee.
Proof. vm_compute. reflexivity. Qed.

(** [within] and [beyond] on the specification side. *)
Lemma within_ieee a b :
  Amount.within a b = SFleb (SFabs (SF64sub (Prim2SF a) (Prim2SF b))) Spec.tolerance_ieee.
Proof.
  unfold Amount.within. now rewrite leb_spec, abs_spec, sub_spec, tolerance_is_ieee.
Qed.

Lemma beyond_ieee a b :
  Amount.beyond a b = SFltb Spec.tolerance_ieee (SFabs (SF64sub (Prim2SF a) (Prim2SF b))).
Proof.
  unfold Amount.beyond. now rewrite ltb_spec, abs_spec, sub_spec, tolerance_is_ieee.
Qed.

Lemma finite_SFfinite x : Spec.finite x = SFfinite (Prim2SF x).
Proof. reflexivity. Qed.

(** On finite amounts, "not beyond the tolerance" and "within the
    tolerance" are the same, whichever way the difference is taken. *)
Lemma beyond_false_iff_within (a b : float) :
  Prim2SF (a - b)%float <> S754_nan ->
  Amount.beyond b a = false <-> Amount.within a b = true.
Proof.
  intros Hnum. rewrite beyond_ieee, within_ieee.
  unfold SF64sub. rewrite (SFabs_SFsub_sym _ _ (Prim2SF b) (Prim2SF a)).
  rewrite SFltb_false_iff. split; [|auto].
  intros [H|H]; [exact H|]. exfalso.
  apply SFcompare_None in H as [H|H]; [|discriminate H].
  rewrite sub_spec in Hnum. unfold SF64sub in Hnum.
  destruct (SFsub prec emax (Prim2SF a) (Prim2SF b)); cbn in H; try discriminate H.
  now apply Hnum.
Qed.

(** C5 (amended). The reconciliation is decided in double arithmetic.
    [validateTotalCalculation] accepts exactly when the IEEE-754 binary64
    value of |(subtotal + tax) - total|, each operation rounded to nearest,
    is at most the double nearest to 0.01. On finite amounts the schema
    validator [isCorrectTotal] accepts exactly the same inputs, and throws
    on all the others. *)
Theorem C5_total_reconciliation_in_double_arithmetic :
  (forall s t tot : float,
      validateTotalCalculation s t tot
      = Spec.reconciles_ieee (Prim2SF s) (Prim2SF t) (Prim2SF tot))
  /\
  (forall this : BillingCycleDbStructure.t,
      let s := Amount.parseFloat_or_zero (BillingCycleDbStructure.subtotal_usd this) in
      let t := Amount.parseFloat_or_zero (BillingCycleDbStructure.tax_amount_usd this) in
      let tot := Amount.parseFloat_or_zero (BillingCycleDbStructure.total_amount_usd this) in
      Spec.finite s = true -> Spec.finite t = true -> Spec.finite tot = true ->
      (isCorrectTotal this = Ok tt <-> validateTotalCalculation s t tot = true)
      /\ (validateTotalCalculation s t tot = false ->
          isCorrectTotal this = Throw (Error "Total amount must equal subtotal + tax amount"))).
Proof.
  split.
  - intros s t tot. unfold validateTotalCalculation, Spec.reconciles_ieee.
    now rewrite within_ieee, add_spec.
  - intros this s t tot Hs Ht Htot.
    assert (Hnum : Prim2SF ((s + t) - tot)%float <> S754_nan).
    { rewrite sub_spec, add_spec. apply SFsub_finite; [|exact Htot].
      apply SFadd_finite; assumption. }
    pose proof (beyond_false_iff_within (s + t)%float tot Hnum) as Hiff.
    unfold isCorrectTotal, validateTotalCalculation. fold s t tot.
    destruct (Amount.beyond tot (s + t)%float) eqn:Hb.
    + split; [split; [intros H; discriminate H|]|reflexivity].
      intros Hw. apply Hiff in Hw. discriminate Hw.
    + split; [split; [intros _; now apply Hiff|reflexivity]|].
      intros Hw. rewrite (proj1 Hiff eq_refl) in Hw. discriminate Hw.
Qed.

Lemma C5_total_reconciliation_in_double_arithmetic_witness :
  (isCorrectTotal (Fixtures.billed 10000 1925 11925) = Ok tt
   <-> validateTotalCalculation (Amount.decimal 10000) (Amount.decimal 1925)
         (Amount.decimal 11925) = true)
  /\ (validateTotalCalculation (Amount.decimal 10000) (Amount.decimal 1925)
        (Amount.decimal 11925) = false ->
      isCorrectTotal (Fixtures.billed 10000 1925 11925)
      = Throw (Error "Total amount must equal subtotal + tax amount")).
Proof.
  destruct C5_total_reconciliation_in_double_arithmetic as [_ H].
  apply (H (Fixtures.billed 10000 1925 11925)); vm_compute; reflexivity.
Defined.

(** C5, as the claim states it, fails at the boundary: 1.00 + 0.00 and 1.01
    differ by exactly 0.01, which is "at most 0.01", yet both validators
    reject them, because the double 1.01 - 1 exceeds the double 0.01; while
    0.10 + 0.20 against 0.31, one cent apart as well, is accepted. *)
Lemma C5_one_cent_apart_is_rejected :
  Spec.within_one_cent (100 + 0) 101 /\
  validateTotalCalculation (Amount.decimal 100) (Amount.decimal 0) (Amount.decimal 101)
  = false /\
  isCorrectTotal (Fixtures.billed 100 0 101)
  = Throw (Error "Total amount must equal subtotal + tax amount") /\
  (Spec.within_one_cent (10 + 20) 31 /\
   validateTotalCalculation (Amount.decimal 10) (Amount.decimal 20) (Amount.decimal 31)
   = true).
Proof.
  unfold Spec.within_one_cent.
  split; [cbn; lia|]. split; [vm_compute; reflexivity|]. split; [vm_compute; reflexivity|].
  split; [cbn; lia|vm_compute; reflexivity].
Qed.
End Reconciliation.

(** ** License adjustments: the model-level validator *)

Section Adjustment.
Import LicenseAdjustmentDbStructure.

Lemma In_push_if_iff c m errors x :
  In x (push_if c m errors) <-> (c = true /\ x = m) \/ In x errors.
Proof.
  unfold push_if. destruct c.
  - rewrite in_app_iff. cbn [In]. split.
    + intros [H|[H|[]]]; auto.
    + intros [[_ ->]|H]; auto.
  - split; [auto|]. intros [[H _]|H]; [discriminate H|exact H].
Qed.

(** The errors of [validateAdjustmentModel], each check with its guard. *)
Lemma errors_pushed d :
  errors (validateAdjustmentModel d) =
  let g1 := truthy (employees_added_count d) && truthy (months_remaining d) &&
            truthy (price_per_employee_usd d) && truthy (subtotal_usd d) in
  let g2 := truthy (subtotal_usd d) && truthy (tax_amount_usd d) && truthy (total_amount_usd d) in
  let g3 := truthy (exchange_rate_used d) && truthy (subtotal_usd d) &&
            truthy (tax_amount_usd d) && truthy (total_amount_usd d) &&
            truthy (subtotal_local d) && truthy (tax_amount_local d) &&
            truthy (total_amount_local d) in
  push_if (earlier (payment_completed_at d) (invoice_sent_at d)) msg_after_invoice
    (push_if (earlier (payment_completed_at d) (adjustment_date d)) msg_after_adjustment
      (push_if (g3 && Amount.beyond (num (total_amount_usd d) * num (exchange_rate_used d))
                        (num (total_amount_local d))) msg_local_total
        (push_if (g3 && Amount.beyond (num (tax_amount_usd d) * num (exchange_rate_used d))
                          (num (tax_amount_local d))) msg_local_tax
          (push_if (g3 && Amount.beyond (num (subtotal_usd d) * num (exchange_rate_used d))
                            (num (subtotal_local d))) msg_local_subtotal
            (push_if (g2 && Amount.beyond (num (subtotal_usd d) + num (tax_amount_usd d))
                              (num (total_amount_usd d))) msg_total
              (push_if (g1 && Amount.beyond
                                (num (employees_added_count d) * num (months_remaining d)
                                 * num (price_per_employee_usd d)) (num (subtotal_usd d)))
                 msg_subtotal [])))))).
Proof.
  unfold validateAdjustmentModel. cbn [errors]. cbv zeta.
  repeat match goal with |- context [if ?g then _ else _] =>
           match g with
           | andb _ _ => destruct g
           end
         end; reflexivity.
Qed.

(** C9. [validateAdjustmentModel] runs each of its cross-field checks only
    when every field the check reads is truthy: the message of the
    subtotal check, of the total check and of each of the three
    local-amount checks is reported exactly when all the fields of its
    guard are truthy and the two amounts are more than the tolerance apart,
    the message of each date check exactly when both dates are there and
    out of order, and the verdict is valid exactly when no message is
    reported. So an adjustment of 100.00 with a tax of 0 and a total of
    200.00, which [validateTotalCalculation] rejects, is returned valid
    with no errors. *)
Theorem C9_each_check_runs_only_on_truthy_fields :
  (forall d,
      let subtotal_guard :=
        truthy (employees_added_count d) && truthy (months_remaining d) &&
        truthy (price_per_employee_usd d) && truthy (subtotal_usd d) in
      let total_guard :=
        truthy (subtotal_usd d) && truthy (tax_amount_usd d) && truthy (total_amount_usd d) in
      let local_guard :=
        truthy (exchange_rate_used d) && truthy (subtotal_usd d) &&
        truthy (tax_amount_usd d) && truthy (total_amount_usd d) &&
        truthy (subtotal_local d) && truthy (tax_amount_local d) &&
        truthy (total_amount_local d) in
      let reported m := In m (errors (validateAdjustmentModel d)) in
      (reported msg_subtotal <->
       subtotal_guard = true /\
       Amount.beyond (num (employees_added_count d) * num (months_remaining d)
                      * num (price_per_employee_usd d)) (num (subtotal_usd d)) = true) /\
      (reported msg_total <->
       total_guard = true /\
       Amount.beyond (num (subtotal_usd d) + num (tax_amount_usd d))
         (num (total_amount_usd d)) = true) /\
      (reported msg_local_subtotal <->
       local_guard = true /\
       Amount.beyond (num (subtotal_usd d) * num (exchange_rate_used d))
         (num (subtotal_local d)) = true) /\
      (reported msg_local_tax <->
       local_guard = true /\
       Amount.beyond (num (tax_amount_usd d) * num (exchange_rate_used d))
         (num (tax_amount_local d)) = true) /\
      (reported msg_local_total <->
       local_guard = true /\
       Amount.beyond (num (total_amount_usd d) * num (exchange_rate_used d))
         (num (total_amount_local d)) = true) /\
      (reported msg_after_adjustment <->
       earlier (payment_completed_at d) (adjustment_date d) = true) /\
      (reported msg_after_invoice <->
       earlier (payment_completed_at d) (invoice_sent_at d) = true) /\
      (isValid (validateAdjustmentModel d) = true <-> errors (validateAdjustmentModel d) = []))
  /\
  (exists d,
      subtotal_usd d = Js.val (Amount.decimal 10000) /\
      tax_amount_usd d = Js.val (Amount.decimal 0) /\
      total_amount_usd d = Js.val (Amount.decimal 20000) /\
      Amount.decimal 0 = 0%float /\
      ~ Spec.within_one_cent (10000 + 0) 20000 /\
      validateTotalCalculation (Amount.decimal 10000) (Amount.decimal 0)
        (Amount.decimal 20000) = false /\
      validateAdjustmentModel d = Verdict true []).
Proof.
  split.
  - intros d. cbv zeta.
    assert (Hvalid : isValid (validateAdjustmentModel d) = true
                     <-> errors (validateAdjustmentModel d) = []).
    { change (isValid (validateAdjustmentModel d))
        with (length (errors (validateAdjustmentModel d)) =? 0)%nat.
      destruct (errors (validateAdjustmentModel d)); cbn; split; congruence. }
    split; [|split; [|split; [|split; [|split; [|split; [|split; [|exact Hvalid]]]]]]].
    all: clear Hvalid.
    all: rewrite (errors_pushed d).
    all: cbv zeta; rewrite !In_push_if_iff, !andb_true_iff;
      cbn [In]; split; intros H0;
      repeat match goal with
             | X : _ \/ _ |- _ => destruct X
             | X : _ /\ _ |- _ => destruct X
             | X : False |- _ => destruct X
             | X : msg_subtotal = _ |- _ => try discriminate X; clear X
             | X : msg_total = _ |- _ => try discriminate X; clear X
             | X : msg_local_subtotal = _ |- _ => try discriminate X; clear X
             | X : msg_local_tax = _ |- _ => try discriminate X; clear X
             | X : msg_local_total = _ |- _ => try discriminate X; clear X
             | X : msg_after_adjustment = _ |- _ => try discriminate X; clear X
             | X : msg_after_invoice = _ |- _ => try discriminate X; clear X
             end; auto 12; intuition reflexivity.
  - exists Fixtures.zero_tax. unfold Spec.within_one_cent.
    repeat split; try (vm_compute; reflexivity).
    cbn. lia.
Qed.
Lemma C9_each_check_runs_only_on_truthy_fields_witness :
  truthy (tax_amount_usd Fixtures.zero_tax) = false /\
  Amount.beyond (num (subtotal_usd Fixtures.zero_tax) + num (tax_amount_usd Fixtures.zero_tax))
    (num (total_amount_usd Fixtures.zero_tax)) = true /\
  ~ In msg_total (errors (validateAdjustmentModel Fixtures.zero_tax)) /\
  isValid (validateAdjustmentModel Fixtures.zero_tax) = true.
Proof.
  destruct (proj1 C9_each_check_runs_only_on_truthy_fields Fixtures.zero_tax)
    as (_ & Htotal & _ & _ & _ & _ & _ & Hvalid).
  split; [reflexivity|]. split; [vm_compute; reflexivity|]. split.
  - intros Hin. apply Htotal in Hin as [Hguard _]. vm_compute in Hguard. discriminate Hguard.
  - apply Hvalid. vm_compute. reflexivity.
Defined.


End Adjustment.

(** ** The revision stamp *)

Section Calendar.

Lemma dayOfEra_range day : 0 <= Date.dayOfEra day <= 146096.
Proof. unfold Date.dayOfEra. pose proof (Z.mod_pos_bound (day + 719468) 146097). lia. Qed.

Lemma dayOfYear_range doe : 0 <= doe <= 146096 -> 0 <= Date.dayOfYear doe <= 365.
Proof.
  unfold Date.dayOfYear, Date.yearOfEra. intros H.
  split; Z.div_mod_to_equations; lia.
Qed.

Lemma monthFromMarch_range doy : 0 <= doy <= 365 -> 0 <= Date.monthFromMarch doy <= 11.
Proof. unfold Date.monthFromMarch. intros H. split; Z.div_mod_to_equations; lia. Qed.

Lemma getUTCMonth_range t : 0 <= Date.getUTCMonth t <= 11.
Proof.
  unfold Date.getUTCMonth.
  pose proof (monthFromMarch_range _ (dayOfYear_range _ (dayOfEra_range (Date.Day t)))) as H.
  cbv zeta. destruct (Z.ltb_spec (Date.monthFromMarch (Date.dayOfYear (Date.dayOfEra (Date.Day t)))) 10); lia.
Qed.

Lemma getUTCDate_range t : 1 <= Date.getUTCDate t <= 31.
Proof.
  unfold Date.getUTCDate. cbv zeta.
  pose proof (dayOfYear_range _ (dayOfEra_range (Date.Day t))) as H.
  revert H. generalize (Date.dayOfYear (Date.dayOfEra (Date.Day t))). intros doy H.
  unfold Date.monthFromMarch. split; Z.div_mod_to_equations; lia.
Qed.

Lemma getUTCHours_range t : 0 <= Date.getUTCHours t <= 23.
Proof. unfold Date.getUTCHours. pose proof (Z.mod_pos_bound (t / Date.msPerHour) 24). lia. Qed.

Lemma getUTCMinutes_range t : 0 <= Date.getUTCMinutes t <= 59.
Proof. unfold Date.getUTCMinutes. pose proof (Z.mod_pos_bound (t / Date.msPerMinute) 60). lia. Qed.

End Calendar.

Section Digits.

(** Checking a property of every integer of a range by evaluation. *)
Fixpoint all_from (p : Z -> bool) (lo : Z) (n : nat) : bool :=
  match n with
  | O => true
  | S k => p lo && all_from p (lo + 1) k
  end.

Lemma all_from_spec p n :
  forall lo, all_from p lo n = true -> forall x, lo <= x < lo + Z.of_nat n -> p x = true.
Proof.
  induction n as [|k IH]; intros lo H x Hx; [lia|].
  cbn [all_from] in H. apply andb_true_iff in H as [H1 H2].
  destruct (Z.eq_dec x lo) as [->|]; [assumption|].
  apply (IH (lo + 1)); [assumption|lia].
Qed.

Lemma all_between p lo hi :
  all_from p lo (Z.to_nat (hi + 1 - lo)) = true -> forall x, lo <= x <= hi -> p x = true.
Proof. intros H x Hx. apply (all_from_spec p _ lo H). lia. Qed.

Definition good (k : nat) (actual expected : string) : bool :=
  String.eqb actual expected && (String.length actual =? k)%nat
  && Js.all_chars Js.is_digit actual.

Lemma good_spec k actual expected :
  good k actual expected = true ->
  actual = expected /\ String.length actual = k /\ Js.all_chars Js.is_digit actual = true.
Proof.
  unfold good. rewrite !andb_true_iff, String.eqb_eq, Nat.eqb_eq. tauto.
Qed.

Lemma pad2_two_digits n :
  0 <= n <= 99 ->
  Revision.pad2 n = Spec.two_digits n /\ String.length (Revision.pad2 n) = 2%nat
  /\ Js.all_chars Js.is_digit (Revision.pad2 n) = true.
Proof.
  intros H. apply good_spec.
  apply (all_between (fun n => good 2 (Revision.pad2 n) (Spec.two_digits n)) 0 99);
    [vm_compute; reflexivity|exact H].
Qed.

Lemma year_four_digits y :
  1000 <= y <= 9999 ->
  Js.String_of_Z y = Spec.four_digits y /\ String.length (Js.String_of_Z y) = 4%nat
  /\ Js.all_chars Js.is_digit (Js.String_of_Z y) = true.
Proof.
  intros H. apply good_spec.
  apply (all_between (fun y => good 4 (Js.String_of_Z y) (Spec.four_digits y)) 1000 9999);
    [vm_compute; reflexivity|exact H].
Qed.

Lemma length_append (a b : string) :
  String.length (a +:+ b) = (String.length a + String.length b)%nat.
Proof.
  induction a as [|c a IH]; [reflexivity|].
  change (String c a +:+ b) with (String c (a +:+ b)).
  cbn [String.length Nat.add]. now rewrite IH.
Qed.

Lemma all_chars_append p (a b : string) :
  Js.all_chars p a = true -> Js.all_chars p b = true -> Js.all_chars p (a +:+ b) = true.
Proof.
  intros Ha Hb. induction a as [|c a IH]; [exact Hb|].
  change (String c a +:+ b) with (String c (a +:+ b)).
  cbn [Js.all_chars] in *.
  apply andb_true_iff in Ha as [Hc Ha]. now rewrite Hc, IH.
Qed.

End Digits.

Section RevisionStamp.
Import TableInitializer.

(** C10, as the claim states it, fails outside the four-digit years: the
    year is not padded, so a table last modified on 10000-01-01 has a
    revision of 13 characters. *)
Lemma C10_year_10000_has_13_characters :
  BaseModel.findLastModification Fixtures.year_10000 CountryDbStructure.tableName
  = Some 253402300800000 /\
  Date.getUTCFullYear 253402300800000 = 10000 /\
  Revision.getRevision Fixtures.year_10000 CountryDbStructure.tableName = "1000001010000" /\
  ~ Spec.twelve_digits (Revision.getRevision Fixtures.year_10000 CountryDbStructure.tableName).
Proof.
  split; [vm_compute; reflexivity|]. split; [vm_compute; reflexivity|].
  split; [vm_compute; reflexivity|].
  intros [Hlen _]. vm_compute in Hlen. discriminate Hlen.
Qed.

(** C10 (amended). [getRevision] returns the constant '202501010000' when
    the table has no last-modification timestamp; otherwise, when the UTC
    year of the last modification lies between 1000 and 9999, it returns that
    instant formatted in UTC as YYYYMMDDHHMM. In both cases the result is a
    string of exactly 12 decimal digits. *)
Theorem C10_revision_is_default_or_utc_stamp db name :
  (BaseModel.findLastModification db name = None ->
   Revision.getRevision db name = "202501010000")
  /\
  (forall t,
      BaseModel.findLastModification db name = Some t ->
      1000 <= Date.getUTCFullYear t <= 9999 ->
      Revision.getRevision db name = Spec.YYYYMMDDHHMM t
      /\ Spec.twelve_digits (Revision.getRevision db name))
  /\ Spec.twelve_digits Revision.default_revision.
Proof.
  split; [|split].
  - intros H. unfold Revision.getRevision. now rewrite H.
  - intros t H Hyear. unfold Revision.getRevision. rewrite H.
    destruct (year_four_digits _ Hyear) as (Ey & Ly & Dy).
    assert (Hm : 0 <= Date.getUTCMonth t + 1 <= 99) by (pose proof (getUTCMonth_range t); lia).
    assert (Hd : 0 <= Date.getUTCDate t <= 99) by (pose proof (getUTCDate_range t); lia).
    assert (Hh : 0 <= Date.getUTCHours t <= 99) by (pose proof (getUTCHours_range t); lia).
    assert (Hn : 0 <= Date.getUTCMinutes t <= 99) by (pose proof (getUTCMinutes_range t); lia).
    destruct (pad2_two_digits _ Hm) as (Em & Lm & Dm).
    destruct (pad2_two_digits _ Hd) as (Ed & Ld & Dd).
    destruct (pad2_two_digits _ Hh) as (Eh & Lh & Dh).
    destruct (pad2_two_digits _ Hn) as (En & Ln & Dn).
    split; [|split].
    + unfold Spec.YYYYMMDDHHMM. now rewrite Ey, Em, Ed, Eh, En.
    + rewrite !length_append, Ly, Lm, Ld, Lh, Ln. reflexivity.
    + apply all_chars_append; [exact Dy|].
      apply all_chars_append; [exact Dm|].
      apply all_chars_append; [exact Dd|].
      apply all_chars_append; [exact Dh|exact Dn].
  - split; reflexivity.
Qed.

Lemma C10_revision_is_default_or_utc_stamp_witness :
  Revision.getRevision Fixtures.empty_db CountryDbStructure.tableName = "202501010000"
  /\ (Revision.getRevision Fixtures.leap_day CountryDbStructure.tableName
      = Spec.YYYYMMDDHHMM 1709251199000
      /\ Spec.twelve_digits (Revision.getRevision Fixtures.leap_day CountryDbStructure.tableName)).
Proof.
  split.
  - apply (C10_revision_is_default_or_utc_stamp Fixtures.empty_db CountryDbStructure.tableName).
    vm_compute. reflexivity.
  - apply (C10_revision_is_default_or_utc_stamp Fixtures.leap_day CountryDbStructure.tableName).
    + vm_compute. reflexivity.
    + vm_compute. split; discriminate.
Defined.
End RevisionStamp.

(* ===================================================================== *)
(** * Part III: further properties of the same code                      *)
(* ===================================================================== *)

Section Primitives.
Import TableInitializer ExtractQueryParams.

Lemma filter_length_zero {A} (p : A -> bool) (l : list A) :
  length (List.filter p l) = 0%nat -> List.filter (fun x => negb (p x)) l = l.
Proof.
  induction l as [|a l IH]; [reflexivity|]. cbn [List.filter].
  destruct (p a); cbn [negb length]; [discriminate|]. intros H. now rewrite IH.
Qed.

Lemma filter_negb_none {A} (p : A -> bool) (l : list A) :
  List.filter p (List.filter (fun x => negb (p x)) l) = [].
Proof.
  induction l as [|a l IH]; [reflexivity|]. cbn [List.filter].
  destruct (p a) eqn:E; cbn [negb]; [exact IH|]. cbn [List.filter]. now rewrite E.
Qed.

Lemma find_filter_nil {A} (p : A -> bool) (l : list A) :
  List.filter p l = [] -> List.find p l = None.
Proof.
  induction l as [|a l IH]; [reflexivity|]. cbn [List.filter List.find].
  destruct (p a); [discriminate|]. exact IH.
Qed.

Lemma setModel_same db name t :
  getModel db name = Ok t -> setModel db name t = db.
Proof.
  unfold getModel, setModel. destruct db as [i m]. cbn [initialized models].
  destruct i; cbn [negb]; [|discriminate].
  destruct (m !! name) as [t'|] eqn:E; [|discriminate].
  intros [= ->]. now rewrite insert_id.
Qed.


Lemma models_setModel_ne db name other t' :
  other <> name -> models (setModel db name t') !! other = models db !! other.
Proof. intros Hne. cbn [setModel models]. now rewrite lookup_insert_ne by congruence. Qed.

Lemma deleteOne_false_unchanged db name where_ db' :
  BaseModel.deleteOne db name where_ = Ok (false, db') -> db' = db.
Proof.
  unfold BaseModel.deleteOne.
  destruct (getModel db name) as [t|e] eqn:Hm; cbn [bind]; [|discriminate].
  cbn [Model.destroy]. unfold Model.count. intros [= H <-].
  apply Z.ltb_ge in H.
  assert (length (List.filter (Model.satisfies where_) (rows t)) = 0%nat) as H0 by lia.
  rewrite (filter_length_zero _ _ H0).
  destruct t as [c r s]. cbn [columns rows sequence].
  now apply setModel_same.
Qed.

(** X1. [deleteOne] removes exactly the rows that match its condition: after
    a call that returns, the table holds the rows that did not match, in
    their order; the flag returned says whether a row matched; [exists] and
    [findOne] on the same condition then find nothing; a call that deleted
    nothing leaves the registry as it was; and no other table changes. *)
Theorem deleteOne_removes_exactly_the_matches db name where_ b db' :
  BaseModel.deleteOne db name where_ = Ok (b, db') ->
  exists t t',
    getModel db name = Ok t /\ getModel db' name = Ok t' /\
    rows t' = List.filter (fun r => negb (Model.satisfies where_ r)) (rows t) /\
    (b = true <-> exists r, In r (rows t) /\ Model.satisfies where_ r = true) /\
    BaseModel.exists_ db' name where_ = Ok false /\
    BaseModel.findOne db' name where_ = Ok None /\
    (b = false -> db' = db) /\
    (forall other, other <> name -> models db' !! other = models db !! other).
Proof.
  unfold BaseModel.deleteOne.
  destruct (getModel db name) as [t|e] eqn:Hm; cbn [bind]; [|discriminate].
  cbn [Model.destroy]. intros [= Hb <-].
  eexists t, _. split; [reflexivity|].
  split; [exact (getModel_setModel db name t _ Hm)|].
  split; [reflexivity|]. split; [|split; [|split; [|split]]].
  - rewrite <- Hb. unfold Model.count. rewrite Z.ltb_lt. split.
    + intros H. destruct (List.filter (Model.satisfies where_) (rows t)) as [|r l] eqn:E;
        [cbn in H; lia|].
      exists r. apply filter_In. rewrite E. now left.
    + intros (r & Hin & Hsat).
      assert (In r (List.filter (Model.satisfies where_) (rows t))) as Hr
        by (apply filter_In; auto).
      destruct (List.filter (Model.satisfies where_) (rows t)); [destruct Hr|cbn; lia].
  - unfold BaseModel.exists_, BaseModel.count.
    rewrite (getModel_setModel db name t _ Hm). cbn [bind]. unfold Model.count. cbn [rows].
    now rewrite filter_negb_none.
  - unfold BaseModel.findOne.
    rewrite (getModel_setModel db name t _ Hm). cbn [bind]. unfold Model.findOne. cbn [rows].
    f_equal. apply find_filter_nil, filter_negb_none.
  - intros ->. apply (deleteOne_false_unchanged db name where_).
    unfold BaseModel.deleteOne. rewrite Hm. cbn [bind Model.destroy].
    now rewrite Hb.
  - intros other Hne. now apply models_setModel_ne.
Qed.

End Primitives.

Section DecimalStrings.

(** The value and the number of digits of a decimal numeral read from its
    most significant digit, as [parseInt] reads it. *)
Lemma digits_value_string_of_uint (d : Decimal.uint) :
  forall acc,
    Js.digits_value acc (NilEmpty.string_of_uint d)
    = acc * 10 ^ Z.of_N (Unsigned.usize d) + Z.of_N (Unsigned.of_lu (Decimal.rev d)).
Proof.
  induction d; intros acc;
    [cbn; lia|
     cbn [NilEmpty.string_of_uint Js.digits_value];
     change (Js.is_digit _) with true; cbv iota;
     rewrite IHd; unfold Decimal.rev; cbn [Decimal.revapp];
     match goal with
     | |- _ = _ + Z.of_N (Unsigned.of_lu (Decimal.revapp d ?x)) =>
         rewrite (Unsigned.of_lu_revapp d x)
     end;
     cbn [Unsigned.usize Unsigned.of_lu];
     rewrite N2Z.inj_succ, Z.pow_succ_r by lia;
     rewrite N2Z.inj_add, N2Z.inj_mul, N2Z.inj_pow;
     vm_compute Js.digit_value;
     change (Z.of_N 10) with 10;
     change (Decimal.revapp d Decimal.Nil) with (Decimal.rev d);
     generalize (10 ^ Z.of_N (Unsigned.usize d));
     generalize (Z.of_N (Unsigned.of_lu (Decimal.rev d)));
     intros V P; lia ..].
Qed.

Lemma all_digits_string_of_uint (d : Decimal.uint) :
  Js.all_chars Js.is_digit (NilEmpty.string_of_uint d) = true.
Proof. induction d; cbn [NilEmpty.string_of_uint Js.all_chars]; [reflexivity|exact IHd ..]. Qed.

Lemma length_string_of_uint (d : Decimal.uint) :
  Z.of_nat (String.length (NilEmpty.string_of_uint d)) = Z.of_N (Unsigned.usize d).
Proof.
  induction d; cbn [NilEmpty.string_of_uint String.length Unsigned.usize]; [reflexivity|lia ..].
Qed.

Lemma String_of_Z_pos (p : positive) :
  Js.String_of_Z (Z.pos p) = NilEmpty.string_of_uint (Pos.to_uint p).
Proof.
  unfold Js.String_of_Z. cbn [Z.to_int NilZero.string_of_int].
  unfold NilZero.string_of_uint.
  pose proof (Unsigned.to_uint_nonnil p) as H.
  destruct (Pos.to_uint p); [congruence|reflexivity ..].
Qed.

Lemma String_of_Z_digits (n : Z) :
  0 <= n -> Js.re_digits (Js.String_of_Z n) = true.
Proof.
  intros H. destruct n as [|p|p]; [reflexivity| |lia].
  rewrite String_of_Z_pos. unfold Js.re_digits.
  rewrite all_digits_string_of_uint, andb_true_r.
  pose proof (Unsigned.to_uint_nonnil p) as Hn.
  destruct (Pos.to_uint p); [congruence|reflexivity ..].
Qed.

Lemma re_digits_starts s : Js.re_digits s = true -> Js.starts_with_digit s = true.
Proof.
  unfold Js.re_digits. destruct s as [|c r]; [discriminate|]. cbn.
  now intros H%andb_true_iff.
Qed.

(** [parseInt(String(n))] is [n]. *)
Lemma parseInt_String_of_Z (n : Z) :
  0 <= n -> Js.parseInt (Js.String_of_Z n) = Some n.
Proof.
  intros H. rewrite (parseInt_digits _ (re_digits_starts _ (String_of_Z_digits n H))).
  f_equal. destruct n as [|p|p]; [reflexivity| |lia].
  rewrite String_of_Z_pos, digits_value_string_of_uint.
  rewrite <- Unsigned.of_uint_alt, Unsigned.of_to. cbn. lia.
Qed.

End DecimalStrings.

Section Create.
Import TableInitializer.

Lemma insertOne_registered db name t data :
  getModel db name = Ok t ->
  BaseModel.insertOne db name data
  = Ok (<["id" := VNum (sequence t + 1)]> (data ∪ Model.blank (columns t)),
        setModel db name
          (Table (columns t)
             (rows t ++ [<["id" := VNum (sequence t + 1)]> (data ∪ Model.blank (columns t))])
             (sequence t + 1))).
Proof. intros H. unfold BaseModel.insertOne. rewrite H. reflexivity. Qed.

Lemma find_none_iff {A} (p : A -> bool) (l : list A) :
  List.find p l = None <-> forall x, In x l -> p x = false.
Proof.
  split; [apply find_none|].
  induction l as [|a l IH]; [reflexivity|]. intros H. cbn [List.find].
  rewrite (H a) by now left. apply IH. intros x Hx. apply H. now right.
Qed.

Lemma findOne_none_inv (t : table) (k : string) (v : value) :
  Model.findOne t {[k := v]} = None -> Spec.no_row_with t k v.
Proof.
  unfold Model.findOne. intros H r Hin Hr.
  apply find_none_iff with (x := r) in H; [|exact Hin].
  apply satisfies_singleton in Hr. congruence.
Qed.

Lemma create_inv this db c' db' :
  CountryModel.create this db = Ok (c', db') ->
  exists t c,
    getModel db CountryDbStructure.tableName = Ok t /\
    CountryModel.validate this = Ok c /\
    let guid := Spec.max_id t + 100001 in
    let stored : row :=
      <["id" := VNum (sequence t + 1)]> (createData guid c ∪ Model.blank (columns t)) in
    Spec.no_row_with t "code" (default VNull (CountryModel.code c)) /\
    (forall s, CountryModel.iso c = Some (VStr s) ->
               Spec.no_row_with t "iso" (VStr (Js.toUpperCase s))) /\
    c' = CountryModel.Country_ (Some VObject) (Some (VNum guid)) (CountryModel.code c)
           (CountryModel.iso c) (CountryModel.name c) (CountryModel.timezone c)
           (CountryModel.mobileRegex c) (CountryModel.flag c) /\
    db' = setModel db CountryDbStructure.tableName
            (Table (columns t) (rows t ++ [stored]) (sequence t + 1)).
Proof.
  unfold CountryModel.create.
  destruct (CountryModel.validate this) as [c|e] eqn:Hval; cbn [bind]; [|discriminate].
  unfold BaseModel.guidGenerator.
  destruct (getModel db CountryModel.tableName) as [t|e] eqn:Hm; [|discriminate].
  change (6 <? 3) with false. cbv iota.
  change (10 ^ (6 - 1)) with 100000.
  assert (Hg : 100000 + ((match Model.max t "id" with
                          | Some m => if Js.truthy_Z m then m else 0
                          | None => 0 end) + 1) = Spec.max_id t + 100001).
  { unfold Spec.max_id. destruct (Model.max t "id"); [rewrite or_zero|]; lia. }
  cbv zeta. rewrite Hg.
  destruct (Js.truthy_Z (Spec.max_id t + 100001)); cbn [negb]; [|discriminate].
  unfold CountryModel.findByCode. rewrite (findOne_registered db _ t _ Hm). cbn [bind].
  destruct (Model.findOne t {["code" := default VNull (CountryModel.code c)]}) eqn:Ecode;
    [discriminate|].
  destruct (CountryModel.findByIso db (default VNull (CountryModel.iso c)))
    as [[r|]|e] eqn:Eiso; cbn [bind]; try discriminate.
  rewrite (insertOne_registered db _ t _ Hm). cbn [bind].
  intros [= <- <-]. exists t, c.
  split; [exact Hm|]. split; [reflexivity|]. cbv zeta.
  split; [now apply findOne_none_inv|].
  split; [|split; reflexivity].
  intros s Hs. rewrite Hs in Eiso. cbn [default from_option id CountryModel.findByIso] in Eiso.
  rewrite (findOne_registered db _ t _ Hm) in Eiso.
  apply findOne_none_inv. congruence.
Qed.


Lemma lookup_createData guid c col :
  createData guid c !! col
  = match Spec.supplied c col with
    | Some v => Some v
    | None => if decide (col = "guid") then Some (VNum guid) else None
    end.
Proof.
  unfold createData, Spec.supplied.
  rewrite !lookup_set_if_defined.
  destruct c as [i g co iso_ na tz mr fl]; cbn [CountryModel.code CountryModel.iso
    CountryModel.name CountryModel.timezone CountryModel.mobileRegex CountryModel.flag].
  destruct (decide (col = "guid")) as [->|Hne].
  - rewrite lookup_singleton_eq.
    repeat case_decide; try discriminate; destruct co, iso_, na, tz, mr, fl; reflexivity.
  - rewrite lookup_singleton_ne by congruence.
    repeat case_decide; subst; try discriminate;
      destruct co, iso_, na, tz, mr, fl; reflexivity.
Qed.

Lemma lookup_stored (id : Z) (data blank : row) col :
  (<["id" := VNum id]> (data ∪ blank)) !! col
  = if decide (col = "id") then Some (VNum id)
    else match data !! col with Some v => Some v | None => blank !! col end.
Proof.
  case_decide as H; [subst; now rewrite lookup_insert_eq|].
  rewrite lookup_insert_ne by congruence. apply lookup_written.
Qed.

Lemma max_id_ge (t : table) (r : row) (i : Z) :
  In r (rows t) -> r !! "id" = Some (VNum i) -> i <= Spec.max_id t.
Proof.
  unfold Spec.max_id, Model.max. induction (rows t) as [|a l IH]; [intros []|].
  intros [->|Hin] Hr; cbn [foldr].
  - rewrite Hr. destruct (foldr _ None l); lia.
  - specialize (IH Hin Hr).
    destruct (a !! "id") as [[|n| | |]|]; try exact IH.
    destruct (foldr _ None l) as [m|] eqn:E; [lia|].
    exfalso. clear IH. revert E. clear -Hin Hr.
    induction l as [|b l IH]; [destruct Hin|]. cbn [foldr].
    destruct Hin as [->|Hin].
    + rewrite Hr. destruct (foldr _ None l); discriminate.
    + intros E. apply (IH Hin).
      destruct (b !! "id") as [[|n'| | |]|]; try exact E.
      destruct (foldr _ None l); discriminate.
Qed.

Lemma max_id_le_sequence (t : table) :
  Invariant.numbered t -> Spec.max_id t <= sequence t.
Proof.
  intros [Hseq Hrows]. unfold Spec.max_id, Model.max.
  assert (H : forall l, (forall r, In r l -> In r (rows t)) ->
            match foldr (fun (r : row) acc =>
                     match r !! "id", acc with
                     | Some (VNum n), Some m => Some (Z.max n m)
                     | Some (VNum n), None => Some n
                     | _, _ => acc
                     end) None l with
            | Some m => m <= sequence t
            | None => True
            end).
  { induction l as [|a l IH]; [exact (fun _ => I)|]. intros Hsub. cbn [foldr].
    specialize (IH (fun r Hr => Hsub r (or_intror Hr))).
    destruct (Hrows a (Hsub a (or_introl eq_refl))) as (i & g & Hi & _ & Hle & _).
    rewrite Hi. destruct (foldr _ None l); lia. }
  specialize (H (rows t) (fun r Hr => Hr)).
  destruct (foldr _ None (rows t)); lia.
Qed.

Lemma max_id_nonneg (t : table) : Invariant.numbered t -> 0 <= Spec.max_id t.
Proof.
  intros [Hseq Hrows].
  destruct (rows t) as [|r l] eqn:E.
  - unfold Spec.max_id, Model.max. rewrite E. cbn. lia.
  - assert (Hin : In r (rows t)) by (rewrite E; now left).
    rewrite <- E in Hrows.
    destruct (Hrows r Hin) as (i & g & Hi & _ & Hle & _).
    pose proof (max_id_ge t r i Hin Hi). lia.
Qed.

End Create.

Section Invariants.
Import TableInitializer.

Lemma NoDup_fmap_filter {A B} (f : A -> B) (p : A -> bool) (l : list A) :
  NoDup (f <$> l) -> NoDup (f <$> List.filter p l).
Proof.
  induction l as [|a l IH]; [intros; constructor|].
  cbn [fmap list_fmap List.filter]. intros H. apply NoDup_cons in H as [Hn Hl].
  destruct (p a); [|now apply IH].
  cbn [list_fmap]. apply NoDup_cons. split; [|now apply IH].
  intros Hin. apply Hn. apply list_elem_of_fmap in Hin as (x & -> & Hx).
  apply list_elem_of_fmap. exists x. split; [reflexivity|].
  apply list_elem_of_In. apply list_elem_of_In in Hx. now apply filter_In in Hx as [Hx _].
Qed.

Lemma updated_row_keeps (c : CountryModel.t) (where_ r : row) (col : string) :
  Spec.supplied c col = None ->
  (if Model.satisfies where_ r then CountryModel.updateData c ∪ r else r) !! col = r !! col.
Proof.
  intros H. destruct (Model.satisfies where_ r); [|reflexivity].
  now rewrite lookup_written, updateData_supplied, H.
Qed.

Lemma unique_snoc (k : string) (t : table) (stored : row) (v : value) seq :
  Invariant.unique k t -> stored !! k = Some v -> Spec.no_row_with t k v ->
  Invariant.unique k (Table (columns t) (rows t ++ [stored]) seq).
Proof.
  intros Hun Hs Hno. unfold Invariant.unique. cbn [rows].
  rewrite fmap_app. apply NoDup_app.
  split; [exact Hun|]. split; [|apply NoDup_singleton].
  intros x Hx [<-|[]]%list_elem_of_In. cbn beta in Hx. rewrite Hs in Hx.
  apply list_elem_of_fmap in Hx as (r & Hr & Hin).
  apply list_elem_of_In in Hin. now apply (Hno r Hin).
Qed.

Lemma create_keeps_numbering this db t c' db' :
  getModel db CountryDbStructure.tableName = Ok t ->
  Invariant.keyed t ->
  CountryModel.create this db = Ok (c', db') ->
  exists t',
    getModel db' CountryDbStructure.tableName = Ok t' /\
    Invariant.keyed t' /\
    CountryModel.guid c' = Some (VNum (Spec.max_id t + 100001)) /\
    Spec.no_row_with t "guid" (VNum (Spec.max_id t + 100001)).
Proof.
  intros Hm (Hnum & Hid & Hun) Hcreate.
  destruct (create_inv this db c' db' Hcreate) as (t0 & c & Hm0 & Hval & H).
  assert (t0 = t) as -> by congruence. cbv zeta in H.
  destruct H as (_ & _ & -> & ->).
  assert (Hfresh : Spec.no_row_with t "guid" (VNum (Spec.max_id t + 100001))).
  { intros r Hin Hr. destruct Hnum as [_ Hrows].
    destruct (Hrows r Hin) as (i & g & Hi & Hg & _ & Hle).
    pose proof (max_id_ge t r i Hin Hi). rewrite Hg in Hr. injection Hr as Hr. lia. }
  pose proof (max_id_le_sequence t Hnum) as Hmax.
  assert (Hnewid : Spec.no_row_with t "id" (VNum (sequence t + 1))).
  { intros r Hin Hr. destruct Hnum as [_ Hrows].
    destruct (Hrows r Hin) as (i & g & Hi & _ & Hle & _).
    rewrite Hi in Hr. injection Hr as Hr. lia. }
  eexists. split; [exact (getModel_setModel db _ t _ Hm)|].
  split; [|split; [reflexivity|exact Hfresh]].
  split; [|split].
  - destruct Hnum as [Hseq Hrows]. split; [cbn [sequence]; lia|].
    cbn [rows sequence]. intros r [Hin|[<-|[]]]%in_app_iff.
    + destruct (Hrows r Hin) as (i & g & Hi & Hg & Hle & Hg').
      exists i, g. repeat split; auto; lia.
    + exists (sequence t + 1), (Spec.max_id t + 100001).
      rewrite !lookup_stored, !lookup_createData.
      split; [reflexivity|]. split; [reflexivity|]. lia.
  - apply (unique_snoc "id" t _ (VNum (sequence t + 1))); [exact Hid| |exact Hnewid].
    now rewrite lookup_stored.
  - apply (unique_snoc "guid" t _ (VNum (Spec.max_id t + 100001))); [exact Hun| |exact Hfresh].
    now rewrite lookup_stored, lookup_createData.
Qed.

Lemma update_keeps_numbering this db t c' db' :
  getModel db CountryDbStructure.tableName = Ok t ->
  Invariant.keyed t ->
  Country.isNew this = false ->
  Country.save this db = Ok (c', db') ->
  exists t',
    getModel db' CountryDbStructure.tableName = Ok t' /\ Invariant.keyed t'.
Proof.
  intros Hm (Hnum & Hid' & Hun) Hnew Hsave.
  destruct (save_update_inv this db c' db' Hnew Hsave) as (t0 & i & Hm0 & Hval & Hid & ->).
  assert (t0 = t) as -> by congruence.
  eexists. split; [exact (getModel_setModel db _ t _ Hm)|]. split; [|split].
  - destruct Hnum as [Hseq Hrows]. split; [exact Hseq|].
    cbn [rows sequence]. intros r' Hin. apply in_map_iff in Hin as (r & <- & Hin).
    destruct (Hrows r Hin) as (j & g & Hj & Hg & Hle).
    exists j, g. rewrite !updated_row_keeps by reflexivity. auto.
  - unfold Invariant.unique. cbn [rows]. rewrite <- list_fmap_compose.
    erewrite list_fmap_ext; [exact Hid'|].
    intros n r _. cbn. now apply updated_row_keeps.
  - unfold Invariant.unique. cbn [rows]. rewrite <- list_fmap_compose.
    erewrite list_fmap_ext; [exact Hun|].
    intros n r _. cbn. now apply updated_row_keeps.
Qed.

Lemma delete_keeps_numbering this db t b db' :
  getModel db CountryDbStructure.tableName = Ok t ->
  Invariant.keyed t ->
  Country.delete this db = Ok (b, db') ->
  exists t',
    getModel db' CountryDbStructure.tableName = Ok t' /\ Invariant.keyed t'.
Proof.
  intros Hm Hk. pose proof Hk as (Hnum & Hid' & Hun). unfold Country.delete.
  destruct (CountryModel.id this) as [i|]; [|intros [= <- <-]; eauto].
  destruct (W.isOccur _ _); cbn [bind]; [|discriminate].
  unfold CountryModel.trash, BaseModel.deleteOne, CountryModel.tableName.
  rewrite Hm. cbn [bind Model.destroy]. intros [= <- <-].
  eexists. split; [exact (getModel_setModel db _ t _ Hm)|]. split; [|split].
  - destruct Hnum as [Hseq Hrows]. split; [exact Hseq|].
    cbn [rows sequence]. intros r Hin. apply filter_In in Hin as [Hin _]. auto.
  - unfold Invariant.unique. cbn [rows]. now apply NoDup_fmap_filter.
  - unfold Invariant.unique. cbn [rows]. now apply NoDup_fmap_filter.
Qed.

End Invariants.

Section Validation.
Import CountryModel.

Lemma required_inv v validator msg :
  required v validator msg = Ok tt ->
  exists x, v = Some x /\ truthy_value v = true /\ validator x = Ok true.
Proof.
  unfold required. destruct v as [x|]; [|discriminate].
  destruct (truthy_value (Some x)); [|discriminate].
  intros H%holds_ok. eauto.
Qed.

Lemma optional_inv v validator msg :
  optional v validator msg = Ok tt ->
  truthy_value v = false \/ exists x, v = Some x /\ truthy_value v = true /\ validator x = Ok true.
Proof.
  unfold optional. destruct v as [x|]; [|now left].
  destruct (truthy_value (Some x)); [|now left].
  intros H%holds_ok. right. eauto.
Qed.

Lemma trim_of_inv what v s : CountryDbStructure.trim_of what v = Ok s -> exists u, v = VStr u /\ s = Js.trim u.
Proof. destruct v; cbn; try discriminate. intros [= <-]. eauto. Qed.

Lemma clean_falsy what f v :
  truthy_value v = false -> CountryDbStructure.clean_field what f v = Ok v.
Proof. unfold CountryDbStructure.clean_field. now intros ->. Qed.

Lemma clean_string what f s :
  truthy_value (Some (VStr s)) = true ->
  CountryDbStructure.clean_field what f (Some (VStr s)) = Ok (Some (VStr (f (Js.trim s)))).
Proof. unfold CountryDbStructure.clean_field. now intros ->. Qed.

Lemma validate_inv this c :
  validate this = Ok c ->
  id c = id this /\ guid c = guid this /\
  (exists n, code this = Some (VNum n) /\ code c = Some (VNum n) /\ 1 <= n <= 999) /\
  (exists s, iso this = Some (VStr s) /\ iso c = Some (VStr (Js.toUpperCase (Js.trim s)))
             /\ Js.re_two_upper (Js.toUpperCase (Js.trim s)) = true) /\
  (exists s, name this = Some (VStr s) /\ name c = Some (VStr (Js.trim s))
             /\ (2 <= String.length (Js.trim s) <= 128)%nat) /\
  Normal.optional_text CountryDbStructure.re_timezone (timezone this) (timezone c) /\
  Normal.optional_text Js.re_identifier (mobileRegex this) (mobileRegex c) /\
  Normal.optional_text Normal.flag_length (flag this) (flag c).
Proof.
  unfold validate.
  destruct (code this) as [co|] eqn:Hcode; [|discriminate].
  destruct (CountryDbStructure.validateCode co) eqn:Hvc; [|discriminate]. cbn [bind].
  destruct (required (iso this) _ _) as [[]|] eqn:Hiso; [|discriminate]. cbn [bind].
  destruct (required (name this) _ _) as [[]|] eqn:Hname; [|discriminate]. cbn [bind].
  destruct (optional (timezone this) _ _) as [[]|] eqn:Htz; [|discriminate]. cbn [bind].
  destruct (optional (mobileRegex this) _ _) as [[]|] eqn:Hmr; [|discriminate]. cbn [bind].
  destruct (optional (flag this) _ _) as [[]|] eqn:Hfl; [|discriminate]. cbn [bind].
  apply required_inv in Hiso as (xi & Ei & Ti & Vi).
  apply required_inv in Hname as (xn & En & Tn & Vn).
  unfold CountryDbStructure.validateIso in Vi.
  destruct (CountryDbStructure.trim_of "iso" xi) as [si|] eqn:Hsi; [|discriminate].
  apply trim_of_inv in Hsi as (ui & -> & ->). cbn [bind] in Vi. injection Vi as Vi.
  unfold CountryDbStructure.validateName in Vn.
  destruct (CountryDbStructure.trim_of "name" xn) as [sn|] eqn:Hsn; [|discriminate].
  apply trim_of_inv in Hsn as (un & -> & ->). cbn [bind] in Vn.
  assert (Vn' : (2 <= String.length (Js.trim un) <= 128)%nat).
  { assert (V : (2 <=? String.length (Js.trim un))%nat
                 && (String.length (Js.trim un) <=? 128)%nat = true) by congruence.
    apply andb_true_iff in V as [V1 V2]. apply Nat.leb_le in V1, V2. lia. }
  clear Vn.
  assert (Ho : forall what ok v (validator : value -> result bool) msg,
             (forall x, validator x = (let* trimmed := CountryDbStructure.trim_of what x in Ok (ok trimmed))) ->
             optional v validator msg = Ok tt ->
             forall what', exists v',
               CountryDbStructure.clean_field what' (fun s => s) v = Ok v'
               /\ Normal.optional_text ok v v').
  { intros what ok v validator msg Hv H what'. apply optional_inv in H as [H|(x & -> & T & V)].
    - exists v. split; [now apply clean_falsy|]. now left.
    - rewrite Hv in V.
      destruct (CountryDbStructure.trim_of what x) as [s|] eqn:Hs; [|discriminate].
      apply trim_of_inv in Hs as (u & -> & ->). cbn [bind] in V. injection V as V.
      exists (Some (VStr (Js.trim u))). split; [now apply clean_string|].
      right. eauto. }
  destruct (Ho _ CountryDbStructure.re_timezone _ _ _ (fun x => eq_refl) Htz "data.timezone")
    as (tz' & Ctz & Ptz).
  destruct (Ho _ Js.re_identifier _ _ _ (fun x => eq_refl) Hmr "data.mobileRegex")
    as (mr' & Cmr & Pmr).
  destruct (Ho _ Normal.flag_length _ _ _ (fun x => eq_refl) Hfl "data.flag")
    as (fl' & Cfl & Pfl).
  unfold cleanData. rewrite Ei, En, Ctz, Cmr, Cfl.
  rewrite (clean_string "data.iso" Js.toUpperCase ui) by (now rewrite <- Ei).
  rewrite (clean_string "data.name" (fun s => s) un) by (now rewrite <- En).
  cbn [bind]. intros [= <-]. cbn [id guid code iso name timezone mobileRegex flag].
  split; [reflexivity|]. split; [reflexivity|].
  split.
  { unfold CountryDbStructure.validateCode in Hvc. destruct co; try discriminate.
    exists n. split; [first [reflexivity|exact Hcode]|].
    split; [first [reflexivity|exact Hcode]|].
    apply andb_true_iff in Hvc as [V1 V2]. apply Z.ltb_lt in V1. apply Z.leb_le in V2. lia. }
  split.
  { exists ui. split; [first [reflexivity|exact Ei]|]. split; [reflexivity|exact Vi]. }
  split; [|auto].
  exists un. split; [first [reflexivity|exact En]|]. split; [reflexivity|]. exact Vn'.
Qed.

End Validation.

Section Characters.

Lemma upper_char_idem c : Js.upper_char (Js.upper_char c) = Js.upper_char c.
Proof. destruct c as [[] [] [] [] [] [] [] []]; reflexivity. Qed.

Lemma upper_char_white c : Js.is_white (Js.upper_char c) = Js.is_white c.
Proof. destruct c as [[] [] [] [] [] [] [] []]; reflexivity. Qed.

Lemma toUpperCase_idem s : Js.toUpperCase (Js.toUpperCase s) = Js.toUpperCase s.
Proof.
  induction s as [|c s IH]; [reflexivity|].
  cbn [Js.toUpperCase]. now rewrite upper_char_idem, IH.
Qed.

Lemma trimStart_toUpperCase s :
  Js.trimStart (Js.toUpperCase s) = Js.toUpperCase (Js.trimStart s).
Proof.
  induction s as [|c s IH]; [reflexivity|].
  cbn [Js.toUpperCase Js.trimStart]. rewrite upper_char_white.
  destruct (Js.is_white c); [exact IH|reflexivity].
Qed.

Lemma toUpperCase_empty s : Js.toUpperCase s = "" <-> s = "".
Proof. destruct s; cbn; split; congruence. Qed.

Lemma trimEnd_toUpperCase s :
  Js.trimEnd (Js.toUpperCase s) = Js.toUpperCase (Js.trimEnd s).
Proof.
  induction s as [|c s IH]; [reflexivity|].
  cbn [Js.toUpperCase Js.trimEnd]. rewrite IH, upper_char_white.
  destruct (Js.trimEnd s) as [|d r] eqn:E; cbn [Js.toUpperCase].
  - destruct (Js.is_white c); reflexivity.
  - reflexivity.
Qed.

Lemma trim_toUpperCase s : Js.trim (Js.toUpperCase s) = Js.toUpperCase (Js.trim s).
Proof. unfold Js.trim. now rewrite trimStart_toUpperCase, trimEnd_toUpperCase. Qed.

Lemma trimEnd_cons c s :
  Js.trimEnd (String c s)
  = match Js.trimEnd s with
    | "" => if Js.is_white c then "" else String c ""
    | r' => String c r'
    end.
Proof. reflexivity. Qed.

(** [trimEnd] is idempotent, and keeps a first character that is not white. *)
Lemma trimEnd_idem s : Js.trimEnd (Js.trimEnd s) = Js.trimEnd s.
Proof.
  induction s as [|c s IH]; [reflexivity|].
  rewrite trimEnd_cons. destruct (Js.trimEnd s) as [|d r] eqn:E.
  - destruct (Js.is_white c) eqn:W; [reflexivity|]. cbn [Js.trimEnd]. now rewrite W.
  - rewrite trimEnd_cons, IH. reflexivity.
Qed.

Lemma trimEnd_head c s :
  Js.is_white c = false -> exists r, Js.trimEnd (String c s) = String c r.
Proof.
  intros W. cbn [Js.trimEnd]. destruct (Js.trimEnd s); rewrite ?W; eauto.
Qed.

Lemma trimStart_head s :
  Js.trimStart s = "" \/ exists c r, Js.trimStart s = String c r /\ Js.is_white c = false.
Proof.
  induction s as [|c s IH]; [now left|].
  cbn [Js.trimStart]. destruct (Js.is_white c) eqn:W; [exact IH|]. right. eauto.
Qed.

Lemma trim_idem s : Js.trim (Js.trim s) = Js.trim s.
Proof.
  unfold Js.trim. destruct (trimStart_head s) as [->|(c & r & -> & W)]; [reflexivity|].
  destruct (trimEnd_head c r W) as [r' E]. rewrite E.
  cbn [Js.trimStart]. rewrite W, <- E. apply trimEnd_idem.
Qed.

End Characters.

Section Idempotence.
Import CountryModel.

Lemma optional_text_again ok (v v' : option value) what what' validator msg :
  (forall x, validator x = (let* trimmed := CountryDbStructure.trim_of what x in Ok (ok trimmed))) ->
  ok "" = false ->
  Normal.optional_text ok v v' ->
  optional v' validator msg = Ok tt /\
  CountryDbStructure.clean_field what' (fun s => s) v' = Ok v'.
Proof.
  intros Hv Hempty [[Hf ->]|(s & -> & -> & Hok)].
  - split; [|now apply clean_falsy].
    unfold optional. destruct v; [now rewrite Hf|reflexivity].
  - assert (T : truthy_value (Some (VStr (Js.trim s))) = true).
    { cbn. destruct (Js.trim s); [congruence|reflexivity]. }
    split.
    + unfold optional. rewrite T, Hv. cbn [CountryDbStructure.trim_of bind].
      now rewrite trim_idem, Hok.
    + rewrite (clean_string _ _ _ T). now rewrite trim_idem.
Qed.

Lemma re_two_upper_truthy u : Js.re_two_upper u = true -> Js.truthy_string u = true.
Proof. destruct u; [discriminate|reflexivity]. Qed.

Lemma validate_idempotent this c : validate this = Ok c -> validate c = Ok c.
Proof.
  intros H. destruct (validate_inv this c H)
    as (_ & _ & (n & _ & Hcode & Hn) & (s & _ & Hiso & Hs) & (m & _ & Hname & Hm)
        & Htz & Hmr & Hfl).
  destruct (optional_text_again _ _ _ "timezone" "data.timezone"
              CountryDbStructure.validateTimezone
              "Invalid timezone format. Use Continent/City or UTC±offset format"
              (fun x => eq_refl) eq_refl Htz) as [Vtz Ctz].
  destruct (optional_text_again _ _ _ "mobileRegex" "data.mobileRegex"
              CountryDbStructure.validateMobileRegex
              "Mobile regex reference must be a valid identifier (camelCase or UPPER_CASE)"
              (fun x => eq_refl) eq_refl Hmr) as [Vmr Cmr].
  destruct (optional_text_again _ _ _ "flag" "data.flag"
              CountryDbStructure.validateFlag
              "Flag must be a valid emoji (1-10 characters)"
              (fun x => eq_refl) eq_refl Hfl) as [Vfl Cfl].
  assert (Tm : Js.truthy_string (Js.trim m) = true).
  { destruct (Js.trim m); [cbn in Hm; lia|reflexivity]. }
  unfold validate. rewrite Hcode. unfold CountryDbStructure.validateCode.
  destruct (Z.ltb_spec 0 n); [|lia]. destruct (Z.leb_spec n 999); [|lia]. cbn [andb bind].
  rewrite Vtz, Vmr, Vfl. rewrite Hiso, Hname.
  unfold required. cbn [truthy_value]. rewrite (re_two_upper_truthy _ Hs), Tm.
  unfold CountryDbStructure.validateIso, CountryDbStructure.validateName.
  cbn [CountryDbStructure.trim_of bind holds].
  rewrite trim_toUpperCase, !trim_idem, toUpperCase_idem, Hs.
  destruct (Nat.leb_spec 2 (String.length (Js.trim m))); [|lia].
  destruct (Nat.leb_spec (String.length (Js.trim m)) 128); [|lia].
  cbn [andb holds bind].
  unfold cleanData. rewrite Ctz, Cmr, Cfl, Hiso, Hname.
  rewrite !clean_string by (cbn [truthy_value]; auto using re_two_upper_truthy).
  rewrite trim_toUpperCase, !trim_idem, toUpperCase_idem. cbn [bind].
  destruct c; cbn in *. congruence.
Qed.

End Idempotence.

Section NaturalKeys.
Import TableInitializer.

Lemma create_keeps_keys this db t c' db' :
  getModel db CountryDbStructure.tableName = Ok t ->
  Invariant.unique "code" t -> Invariant.unique "iso" t ->
  CountryModel.create this db = Ok (c', db') ->
  exists t',
    getModel db' CountryDbStructure.tableName = Ok t' /\
    Invariant.unique "code" t' /\ Invariant.unique "iso" t'.
Proof.
  intros Hm Hcode Hiso Hcreate.
  destruct (create_inv this db c' db' Hcreate) as (t0 & c & Hm0 & Hval & H).
  assert (t0 = t) as -> by congruence. cbv zeta in H.
  destruct H as (Hnc & Hni & -> & ->).
  destruct (validate_inv this c Hval)
    as (_ & _ & (n & _ & Ec & _) & (s & _ & Ei & _) & _).
  eexists. split; [exact (getModel_setModel db _ t _ Hm)|]. split.
  - apply (unique_snoc "code" t _ (VNum n)); [exact Hcode| |].
    + rewrite lookup_stored, lookup_createData.
      change (Spec.supplied c "code") with (CountryModel.code c). now rewrite Ec.
    + rewrite Ec in Hnc. exact Hnc.
  - apply (unique_snoc "iso" t _ (VStr (Js.toUpperCase (Js.trim s)))); [exact Hiso| |].
    + rewrite lookup_stored, lookup_createData.
      change (Spec.supplied c "iso") with (CountryModel.iso c). now rewrite Ei.
    + specialize (Hni _ Ei). now rewrite toUpperCase_idem in Hni.
Qed.

End NaturalKeys.

Section StoredRows.
Import TableInitializer.

Lemma blank_falsy cols col : truthy_value (Model.blank cols !! col) = false.
Proof.
  unfold Model.blank.
  destruct (list_to_map ((λ c : string, (c, VNull)) <$> cols) !! col) as [v|] eqn:E;
    [|reflexivity].
  apply elem_of_list_to_map_2 in E.
  apply list_elem_of_fmap in E as (c & [= _ ->] & _). reflexivity.
Qed.

Lemma optional_written ok (before after old : option value) :
  Normal.optional_text ok before after ->
  Stored.optional_column ok old ->
  Stored.optional_column ok (match after with Some v => Some v | None => old end).
Proof.
  intros [[Hf ->]|(s & -> & -> & Hok)] Hold.
  - destruct before as [v|]; [now left|exact Hold].
  - right. exists (Js.trim s). split; [reflexivity|]. split; [apply trim_idem|exact Hok].
Qed.

Lemma falsy_column ok v : truthy_value v = false -> Stored.optional_column ok v.
Proof. now left. Qed.

(** A row written from a validated country, over what the row held in the
    columns the country leaves undefined, is valid when the columns kept
    are. *)
Lemma written_row_valid this c (r r' : row) :
  CountryModel.validate this = Ok c ->
  (forall col, r' !! col = match Spec.supplied c col with
                           | Some v => Some v
                           | None => r !! col
                           end) ->
  Stored.optional_column CountryDbStructure.re_timezone (r !! "timezone") ->
  Stored.optional_column Js.re_identifier (r !! "mobileRegex") ->
  Stored.optional_column Normal.flag_length (r !! "flag") ->
  Stored.valid_row r'.
Proof.
  intros Hval Hcol Otz Omr Ofl.
  destruct (validate_inv this c Hval)
    as (_ & _ & (n & _ & Ec & Hn) & (s & _ & Ei & Hs) & (m & _ & En & Hm) & Htz & Hmr & Hfl).
  unfold Stored.valid_row. rewrite !Hcol.
  change (Spec.supplied c "code") with (CountryModel.code c).
  change (Spec.supplied c "iso") with (CountryModel.iso c).
  change (Spec.supplied c "name") with (CountryModel.name c).
  change (Spec.supplied c "timezone") with (CountryModel.timezone c).
  change (Spec.supplied c "mobileRegex") with (CountryModel.mobileRegex c).
  change (Spec.supplied c "flag") with (CountryModel.flag c).
  rewrite Ec, Ei, En.
  split; [eauto|]. split; [eauto|].
  split; [exists (Js.trim m); split; [reflexivity|]; split; [apply trim_idem|exact Hm]|].
  split; [exact (optional_written _ _ _ _ Htz Otz)|].
  split; [exact (optional_written _ _ _ _ Hmr Omr)|exact (optional_written _ _ _ _ Hfl Ofl)].
Qed.

Lemma create_keeps_valid this db t c' db' :
  getModel db CountryDbStructure.tableName = Ok t ->
  Stored.valid t ->
  CountryModel.create this db = Ok (c', db') ->
  exists t', getModel db' CountryDbStructure.tableName = Ok t' /\ Stored.valid t'.
Proof.
  intros Hm Hv Hcreate.
  destruct (create_inv this db c' db' Hcreate) as (t0 & c & Hm0 & Hval & H).
  assert (t0 = t) as -> by congruence. cbv zeta in H.
  destruct H as (_ & _ & -> & ->).
  eexists. split; [exact (getModel_setModel db _ t _ Hm)|].
  intros r. cbn [rows]. intros [Hin|[<-|[]]]%in_app_iff; [now apply Hv|].
  apply (written_row_valid this c
           (<["id" := VNum (sequence t + 1)]>
              (<["guid" := VNum (Spec.max_id t + 100001)]> (Model.blank (columns t)))));
    [exact Hval| |apply falsy_column..].
  - intros col. rewrite !lookup_stored, lookup_createData.
    destruct (Spec.supplied c col) as [v|] eqn:E.
    + case_decide as Hid; [|reflexivity]. subst col. discriminate E.
    + rewrite !lookup_insert. repeat case_decide; subst; congruence.
  - rewrite lookup_insert_ne, lookup_insert_ne by discriminate. apply blank_falsy.
  - rewrite lookup_insert_ne, lookup_insert_ne by discriminate. apply blank_falsy.
  - rewrite lookup_insert_ne, lookup_insert_ne by discriminate. apply blank_falsy.
Qed.

Lemma update_keeps_valid this db t c' db' :
  getModel db CountryDbStructure.tableName = Ok t ->
  Stored.valid t ->
  Country.isNew this = false ->
  Country.save this db = Ok (c', db') ->
  exists t', getModel db' CountryDbStructure.tableName = Ok t' /\ Stored.valid t'.
Proof.
  intros Hm Hv Hnew Hsave.
  destruct (save_update_inv this db c' db' Hnew Hsave) as (t0 & i & Hm0 & Hval & Hid & ->).
  assert (t0 = t) as -> by congruence.
  eexists. split; [exact (getModel_setModel db _ t _ Hm)|].
  intros r'. cbn [rows]. intros Hin. apply in_map_iff in Hin as (r & <- & Hin).
  destruct (Model.satisfies {["id" := i]} r); [|now apply Hv].
  destruct (Hv r Hin) as (_ & _ & _ & Otz & Omr & Ofl).
  apply (written_row_valid this c' r); auto.
  intros col. now rewrite lookup_written, updateData_supplied.
Qed.

Lemma delete_keeps_valid this db t b db' :
  getModel db CountryDbStructure.tableName = Ok t ->
  Stored.valid t ->
  Country.delete this db = Ok (b, db') ->
  exists t', getModel db' CountryDbStructure.tableName = Ok t' /\ Stored.valid t'.
Proof.
  intros Hm Hv. unfold Country.delete.
  destruct (CountryModel.id this) as [i|]; [|intros [= <- <-]; eauto].
  destruct (W.isOccur _ _); cbn [bind]; [|discriminate].
  unfold CountryModel.trash, BaseModel.deleteOne, CountryModel.tableName.
  rewrite Hm. cbn [bind Model.destroy]. intros [= <- <-].
  eexists. split; [exact (getModel_setModel db _ t _ Hm)|].
  intros r. cbn [rows]. intros Hin. apply filter_In in Hin as [Hin _]. auto.
Qed.

End StoredRows.

Section Persistence.
Import TableInitializer.

Lemma save_inv this db c' db' :
  Country.save this db = Ok (c', db') ->
  (Country.isNew this = true /\ CountryModel.create this db = Ok (c', db'))
  \/ Country.isNew this = false.
Proof.
  unfold Country.save. destruct (Country.isNew this); [|now right].
  destruct (CountryModel.create this db) as [r|e]; [|discriminate].
  intros [= ->]. now left.
Qed.

(** X4. [save()] and [delete()] keep the surrogate keys of the country table
    in order: when every row has an id handed out by the sequence and a GUID
    not above id + 100000, and no two rows share an id or a GUID, the same
    holds after a successful [save()] (create or update) and after a
    [delete()]. The GUID [create()] gives a new country is
    max(id) + 100001, which no stored row carries. *)
Theorem save_and_delete_keep_ids_and_guids_unique this db t :
  getModel db CountryDbStructure.tableName = Ok t ->
  Invariant.keyed t ->
  (forall c' db', Country.save this db = Ok (c', db') ->
     exists t', getModel db' CountryDbStructure.tableName = Ok t' /\ Invariant.keyed t') /\
  (forall b db', Country.delete this db = Ok (b, db') ->
     exists t', getModel db' CountryDbStructure.tableName = Ok t' /\ Invariant.keyed t') /\
  (forall c' db', CountryModel.create this db = Ok (c', db') ->
     CountryModel.guid c' = Some (VNum (Spec.max_id t + 100001)) /\
     Spec.no_row_with t "guid" (VNum (Spec.max_id t + 100001))).
Proof.
  intros Hm Hk. split; [|split].
  - intros c' db' Hsave. destruct (save_inv this db c' db' Hsave) as [[_ Hc]|Hnew].
    + destruct (create_keeps_numbering this db t c' db' Hm Hk Hc) as (t' & Hm' & Hk' & _).
      eauto.
    + exact (update_keeps_numbering this db t c' db' Hm Hk Hnew Hsave).
  - intros b db'. apply (delete_keeps_numbering this db t b db' Hm Hk).
  - intros c' db' Hc.
    destruct (create_keeps_numbering this db t c' db' Hm Hk Hc) as (t' & _ & _ & Hg & Hf).
    now split.
Qed.

(** X5. [create()] keeps the natural keys of the country table unique: when
    no two rows share a code and no two rows share an ISO code, the same
    holds after a successful [create()], which adds one row; its own
    duplicate checks are what guarantee it. *)
Theorem create_keeps_code_and_iso_unique this db t c' db' :
  getModel db CountryDbStructure.tableName = Ok t ->
  Invariant.unique "code" t -> Invariant.unique "iso" t ->
  CountryModel.create this db = Ok (c', db') ->
  exists t',
    getModel db' CountryDbStructure.tableName = Ok t' /\
    Invariant.unique "code" t' /\ Invariant.unique "iso" t' /\
    length (rows t') = S (length (rows t)).
Proof.
  intros Hm Hcode Hiso Hcreate.
  destruct (create_keeps_keys this db t c' db' Hm Hcode Hiso Hcreate) as (t' & Hm' & Hc & Hi).
  exists t'. split; [exact Hm'|]. split; [exact Hc|]. split; [exact Hi|].
  destruct (create_inv this db c' db' Hcreate) as (t0 & c & Hm0 & _ & H).
  assert (t0 = t) as -> by congruence. cbv zeta in H. destruct H as (_ & _ & _ & ->).
  rewrite (getModel_setModel db _ t _ Hm) in Hm'. injection Hm' as <-.
  cbn [rows]. rewrite length_app. cbn [length]. lia.
Qed.

Lemma plain_upper_char c : Text.plain_char (Js.upper_char c) = Text.plain_char c.
Proof.
  unfold Js.upper_char, Js.is_lower, Text.plain_char.
  destruct (_ && _) eqn:E; [|reflexivity].
  apply andb_true_iff in E as [E1 E2]. apply Nat.leb_le in E1, E2.
  rewrite nat_ascii_embedding by lia.
  transitivity true; [|symmetry]; apply Nat.ltb_lt; lia.
Qed.

Lemma plain_toUpperCase s : Text.plain (Js.toUpperCase s) = Text.plain s.
Proof.
  unfold Text.plain. induction s as [|c r IH]; [reflexivity|].
  cbn [Js.toUpperCase Js.all_chars]. now rewrite plain_upper_char, IH.
Qed.

Lemma plain_trimStart s : Text.plain s = true -> Text.plain (Js.trimStart s) = true.
Proof.
  unfold Text.plain. induction s as [|c r IH]; [reflexivity|].
  cbn [Js.trimStart Js.all_chars]. intros [Hc Hr]%andb_true_iff.
  destruct (Js.is_white c); [auto|]. cbn [Js.all_chars]. now rewrite Hc, Hr.
Qed.

Lemma plain_trimEnd s : Text.plain s = true -> Text.plain (Js.trimEnd s) = true.
Proof.
  unfold Text.plain. induction s as [|c r IH]; [reflexivity|].
  cbn [Js.trimEnd Js.all_chars]. intros [Hc Hr]%andb_true_iff.
  specialize (IH Hr).
  destruct (Js.trimEnd r) as [|c' r'].
  - destruct (Js.is_white c); [reflexivity|]. cbn [Js.all_chars]. now rewrite Hc.
  - cbn [Js.all_chars] in *. now rewrite Hc, IH.
Qed.

Lemma plain_trim s : Text.plain s = true -> Text.plain (Js.trim s) = true.
Proof. intros H. unfold Js.trim. now apply plain_trimEnd, plain_trimStart. Qed.

Lemma plain_optional ok before after :
  Normal.optional_text ok before after ->
  Text.plain_value before = true -> Text.plain_value after = true.
Proof.
  intros [[_ ->]|(s & -> & -> & _)]; [auto|]. cbn [Text.plain_value]. apply plain_trim.
Qed.

(** Validation keeps a plain country plain. *)
Lemma validate_keeps_plain this c :
  CountryModel.validate this = Ok c ->
  Text.plain_country this = true -> Text.plain_country c = true.
Proof.
  intros Hval.
  destruct (validate_inv this c Hval)
    as (_ & _ & _ & (s & Ei & Ei' & _) & (m & En & En' & _) & Htz & Hmr & Hfl).
  unfold Text.plain_country. rewrite !andb_true_iff.
  intros [[[[Hi Hn] Ht] Hm] Hf].
  rewrite Ei in Hi. rewrite En in Hn. rewrite Ei', En'.
  cbn [Text.plain_value] in *.
  rewrite plain_toUpperCase, (plain_trim _ Hi), (plain_trim _ Hn).
  rewrite (plain_optional _ _ _ Htz Ht), (plain_optional _ _ _ Hmr Hm),
    (plain_optional _ _ _ Hfl Hf).
  auto.
Qed.

Lemma plain_value_written (after old : option value) :
  Text.plain_value after = true -> Text.plain_value old = true ->
  Text.plain_value (match after with Some v => Some v | None => old end) = true.
Proof. now destruct after. Qed.

(** A row written from a plain country over a plain row is plain. *)
Lemma written_row_plain c (r r' : row) :
  Text.plain_country c = true ->
  (forall col, r' !! col = match Spec.supplied c col with
                           | Some v => Some v
                           | None => r !! col
                           end) ->
  Text.plain_row r = true -> Text.plain_row r' = true.
Proof.
  unfold Text.plain_country, Text.plain_row. rewrite !andb_true_iff.
  intros [[[[Hi Hn] Ht] Hm] Hf] Hcol [[[[Ri Rn] Rt] Rm] Rf].
  rewrite !Hcol.
  change (Spec.supplied c "iso") with (CountryModel.iso c).
  change (Spec.supplied c "name") with (CountryModel.name c).
  change (Spec.supplied c "timezone") with (CountryModel.timezone c).
  change (Spec.supplied c "mobileRegex") with (CountryModel.mobileRegex c).
  change (Spec.supplied c "flag") with (CountryModel.flag c).
  repeat split; now apply plain_value_written.
Qed.

Lemma blank_plain cols col : Text.plain_value (Model.blank cols !! col) = true.
Proof.
  unfold Model.blank.
  destruct (list_to_map ((λ c : string, (c, VNull)) <$> cols) !! col) as [v|] eqn:E;
    [|reflexivity].
  apply elem_of_list_to_map_2 in E.
  apply list_elem_of_fmap in E as (c & [= _ ->] & _). reflexivity.
Qed.

Lemma create_keeps_plain this db t c' db' :
  getModel db CountryDbStructure.tableName = Ok t ->
  Text.plain_table t -> Text.plain_country this = true ->
  CountryModel.create this db = Ok (c', db') ->
  exists t', getModel db' CountryDbStructure.tableName = Ok t' /\ Text.plain_table t'.
Proof.
  intros Hm Hv Hp Hcreate.
  destruct (create_inv this db c' db' Hcreate) as (t0 & c & Hm0 & Hval & H).
  assert (t0 = t) as -> by congruence. cbv zeta in H.
  destruct H as (_ & _ & -> & ->).
  eexists. split; [exact (getModel_setModel db _ t _ Hm)|].
  intros r. cbn [rows]. intros [Hin|[<-|[]]]%in_app_iff; [now apply Hv|].
  apply (written_row_plain c
           (<["id" := VNum (sequence t + 1)]>
              (<["guid" := VNum (Spec.max_id t + 100001)]> (Model.blank (columns t))))).
  - exact (validate_keeps_plain this c Hval Hp).
  - intros col. rewrite !lookup_stored, lookup_createData.
    destruct (Spec.supplied c col) as [v|] eqn:E.
    + case_decide as Hid; [|reflexivity]. subst col. discriminate E.
    + rewrite !lookup_insert. repeat case_decide; subst; congruence.
  - unfold Text.plain_row.
    rewrite !(lookup_insert_ne _ "id"), !(lookup_insert_ne _ "guid") by discriminate.
    now rewrite !blank_plain.
Qed.

Lemma update_keeps_plain this db t c' db' :
  getModel db CountryDbStructure.tableName = Ok t ->
  Text.plain_table t -> Text.plain_country this = true ->
  Country.isNew this = false ->
  Country.save this db = Ok (c', db') ->
  exists t', getModel db' CountryDbStructure.tableName = Ok t' /\ Text.plain_table t'.
Proof.
  intros Hm Hv Hp Hnew Hsave.
  destruct (save_update_inv this db c' db' Hnew Hsave) as (t0 & i & Hm0 & Hval & Hid & ->).
  assert (t0 = t) as -> by congruence.
  eexists. split; [exact (getModel_setModel db _ t _ Hm)|].
  intros r'. cbn [rows]. intros Hin. apply in_map_iff in Hin as (r & <- & Hin).
  destruct (Model.satisfies {["id" := i]} r); [|now apply Hv].
  apply (written_row_plain c' r).
  - exact (validate_keeps_plain this c' Hval Hp).
  - intros col. now rewrite lookup_written, updateData_supplied.
  - now apply Hv.
Qed.

Lemma delete_keeps_plain this db t b db' :
  getModel db CountryDbStructure.tableName = Ok t ->
  Text.plain_table t ->
  Country.delete this db = Ok (b, db') ->
  exists t', getModel db' CountryDbStructure.tableName = Ok t' /\ Text.plain_table t'.
Proof.
  intros Hm Hv. unfold Country.delete.
  destruct (CountryModel.id this) as [i|]; [|intros [= <- <-]; eauto].
  destruct (W.isOccur _ _); cbn [bind]; [|discriminate].
  unfold CountryModel.trash, BaseModel.deleteOne, CountryModel.tableName.
  rewrite Hm. cbn [bind Model.destroy]. intros [= <- <-].
  eexists. split; [exact (getModel_setModel db _ t _ Hm)|].
  intros r. cbn [rows]. intros Hin. apply filter_In in Hin as [Hin _]. auto.
Qed.

(** X6. What validation checks of a country holds of every stored row, on
    plain (ASCII) text, where the lengths, [trim()] and [toUpperCase()] of
    JavaScript are the ones used here. When each row of the table has a
    code between 1 and 999, a two-capital ISO code, a trimmed name of 2 to
    128 characters and optional columns that are falsy or trimmed texts
    passing their format check, and every stored text is plain, the same
    holds after a successful [save()] (create or update) of a country whose
    texts are plain, and after a [delete()]. *)
Theorem stored_countries_stay_valid this db t :
  getModel db CountryDbStructure.tableName = Ok t ->
  Stored.valid t -> Text.plain_table t ->
  Text.plain_country this = true ->
  (forall c' db', Country.save this db = Ok (c', db') ->
     exists t', getModel db' CountryDbStructure.tableName = Ok t' /\
                Stored.valid t' /\ Text.plain_table t') /\
  (forall b db', Country.delete this db = Ok (b, db') ->
     exists t', getModel db' CountryDbStructure.tableName = Ok t' /\
                Stored.valid t' /\ Text.plain_table t').
Proof.
  intros Hm Hv Hpt Hp. split.
  - intros c' db' Hsave. destruct (save_inv this db c' db' Hsave) as [[_ Hc]|Hnew].
    + destruct (create_keeps_valid this db t c' db' Hm Hv Hc) as (t1 & H1 & V1).
      destruct (create_keeps_plain this db t c' db' Hm Hpt Hp Hc) as (t2 & H2 & P2).
      assert (t2 = t1) as -> by congruence. eauto.
    + destruct (update_keeps_valid this db t c' db' Hm Hv Hnew Hsave) as (t1 & H1 & V1).
      destruct (update_keeps_plain this db t c' db' Hm Hpt Hp Hnew Hsave) as (t2 & H2 & P2).
      assert (t2 = t1) as -> by congruence. eauto.
  - intros b db' Hd.
    destruct (delete_keeps_valid this db t b db' Hm Hv Hd) as (t1 & H1 & V1).
    destruct (delete_keeps_plain this db t b db' Hm Hpt Hd) as (t2 & H2 & P2).
    assert (t2 = t1) as -> by congruence. eauto.
Qed.


(** X7. [validate()] normalises a country whose texts are plain (ASCII):
    the country it returns has the id and GUID of the one it was given, a
    numeric code between 1 and 999, the ISO code trimmed and upper-cased,
    the name trimmed and of 2 to 128 characters, its texts are plain again,
    and validating it again succeeds and returns it unchanged. *)
Theorem validate_is_idempotent this c :
  CountryModel.validate this = Ok c ->
  Text.plain_country this = true ->
  CountryModel.validate c = Ok c /\
  Text.plain_country c = true /\
  CountryModel.id c = CountryModel.id this /\
  CountryModel.guid c = CountryModel.guid this /\
  (exists n, CountryModel.code this = Some (VNum n) /\ CountryModel.code c = Some (VNum n)
             /\ 1 <= n <= 999) /\
  (exists s, CountryModel.iso this = Some (VStr s) /\
             CountryModel.iso c = Some (VStr (Js.toUpperCase (Js.trim s)))) /\
  (exists s, CountryModel.name this = Some (VStr s) /\
             CountryModel.name c = Some (VStr (Js.trim s)) /\
             (2 <= String.length (Js.trim s) <= 128)%nat).
Proof.
  intros H Hp. split; [exact (validate_idempotent this c H)|].
  split; [exact (validate_keeps_plain this c H Hp)|].
  destruct (validate_inv this c H)
    as (Hid & Hguid & Hcode & (s & Hs & Hs' & _) & Hname & _).
  repeat split; try assumption. exists s. now split.
Qed.


End Persistence.

Section Statuses.
Import TableInitializer.

Lemma status_save_failure now fallback e :
  status (CountryRoute.save_failure now fallback e) = HttpStatus.CONFLICT \/
  status (CountryRoute.save_failure now fallback e) = HttpStatus.BAD_REQUEST.
Proof. unfold CountryRoute.save_failure. repeat case_match; cbn; auto. Qed.

Lemma status_found_or_404 now m1 m2 r :
  In (status (CountryRoute.found_or_404 now m1 m2 r))
     [HttpStatus.SUCCESS; HttpStatus.NOT_FOUND; HttpStatus.INTERNAL_ERROR].
Proof. unfold CountryRoute.found_or_404. repeat case_match; cbn; auto. Qed.

(** X8. The statuses of the country handlers. POST answers 201, 400 or 409;
    PUT 200, 400, 404 or 409; DELETE 200, 400, 404 or 500; the list 200 or
    500; the searches by ISO code and by code 200, 400, 404 or 500; GET by
    identifier 200, 404 or 500. In particular POST and PUT never answer
    500: whatever the persistence layer throws is answered 400 or 409. *)
Theorem handlers_answer_with_these_statuses now (param : string)
    (query : gmap string string) (body : row) (db : registry) :
  In (status (fst (CountryRoute.post now body db)))
     [HttpStatus.CREATED; HttpStatus.BAD_REQUEST; HttpStatus.CONFLICT] /\
  In (status (fst (CountryRoute.put now param body db)))
     [HttpStatus.SUCCESS; HttpStatus.BAD_REQUEST; HttpStatus.NOT_FOUND; HttpStatus.CONFLICT] /\
  In (status (fst (CountryRoute.delete now param db)))
     [HttpStatus.SUCCESS; HttpStatus.BAD_REQUEST; HttpStatus.NOT_FOUND;
      HttpStatus.INTERNAL_ERROR] /\
  In (status (CountryRoute.list_ now query db))
     [HttpStatus.SUCCESS; HttpStatus.INTERNAL_ERROR] /\
  In (status (CountryRoute.search_iso now param db))
     [HttpStatus.SUCCESS; HttpStatus.BAD_REQUEST; HttpStatus.NOT_FOUND;
      HttpStatus.INTERNAL_ERROR] /\
  In (status (CountryRoute.search_code now param db))
     [HttpStatus.SUCCESS; HttpStatus.BAD_REQUEST; HttpStatus.NOT_FOUND;
      HttpStatus.INTERNAL_ERROR] /\
  In (status (CountryRoute.get now param db))
     [HttpStatus.SUCCESS; HttpStatus.NOT_FOUND; HttpStatus.INTERNAL_ERROR].
Proof.
  repeat split.
  - unfold CountryRoute.post. repeat case_match; cbn [fst]; try (cbn; auto; fail).
    destruct (status_save_failure now "creation_failed" e) as [-> | ->]; cbn; auto.
  - unfold CountryRoute.put. repeat case_match; cbn [fst]; try (cbn; auto; fail);
      match goal with
      | |- context [CountryRoute.save_failure ?n ?f ?e] =>
          destruct (status_save_failure n f e) as [-> | ->]; cbn; auto
      end.
  - unfold CountryRoute.delete. repeat case_match; cbn; auto.
  - unfold CountryRoute.list_. repeat case_match; cbn; auto.
  - unfold CountryRoute.search_iso. case_match; [cbn; auto|].
    pose proof (status_found_or_404 now
      ("Country with ISO '" +:+ Js.toUpperCase param +:+ "' not found")
      "Failed to search country by ISO"
      (Country.load db (VStr (Js.toUpperCase param)) false false true)) as Hs.
    cbn in Hs |- *. tauto.
  - unfold CountryRoute.search_code. case_match; [cbn; auto|].
    match goal with
    | |- context [CountryRoute.found_or_404 ?n ?a ?b ?r] =>
        pose proof (status_found_or_404 n a b r) as Hs
    end.
    cbn in Hs |- *. tauto.
  - unfold CountryRoute.get. apply status_found_or_404.
Qed.

End Statuses.

Section Failures.
Import TableInitializer.

Lemma status_save_failure_not (now fallback : string) e (code : Z) :
  code <> HttpStatus.CONFLICT -> code <> HttpStatus.BAD_REQUEST ->
  status (CountryRoute.save_failure now fallback e) <> code.
Proof. intros H1 H2. destruct (status_save_failure now fallback e) as [-> | ->]; congruence. Qed.

Lemma delete_false_unchanged c db db' :
  Country.delete c db = Ok (false, db') -> db' = db.
Proof.
  unfold Country.delete. destruct (CountryModel.id c) as [i|]; [|now intros [= <-]].
  destruct (W.isOccur _ _); cbn [bind]; [|discriminate].
  apply deleteOne_false_unchanged.
Qed.

(** X9. A refused request writes nothing: when POST does not answer 201, or
    PUT or DELETE does not answer 200, the database is left as it was. *)
Theorem refused_request_writes_nothing now (param : string) (body : row) (db : registry) :
  (status (fst (CountryRoute.post now body db)) <> HttpStatus.CREATED ->
   snd (CountryRoute.post now body db) = db) /\
  (status (fst (CountryRoute.put now param body db)) <> HttpStatus.SUCCESS ->
   snd (CountryRoute.put now param body db) = db) /\
  (status (fst (CountryRoute.delete now param db)) <> HttpStatus.SUCCESS ->
   snd (CountryRoute.delete now param db) = db).
Proof.
  repeat split.
  - unfold CountryRoute.post. repeat case_match; cbn [fst snd]; try reflexivity;
      intros Hs; exfalso; now apply Hs.
  - unfold CountryRoute.put. repeat case_match; cbn [fst snd]; try reflexivity;
      intros Hs; exfalso; now apply Hs.
  - unfold CountryRoute.delete. repeat case_match; cbn [fst snd]; try reflexivity;
      try (intros Hs; exfalso; now apply Hs).
    all: intros _; subst; eapply delete_false_unchanged; eassumption.
Qed.

End Failures.

Section NotInitialized.
Import TableInitializer.



End NotInitialized.

Section RoundTrip.
Import TableInitializer.

Lemma find_snoc {A} (p : A -> bool) (l : list A) (x : A) :
  (forall y, In y l -> p y = false) -> p x = true -> List.find p (l ++ [x]) = Some x.
Proof.
  intros Hl Hx. induction l as [|a l IH]; cbn [app List.find]; [now rewrite Hx|].
  rewrite (Hl a) by now left. apply IH. intros y Hy. apply Hl. now right.
Qed.

Lemma findOne_snoc (t : table) (k : string) (v : value) (stored : row) seq :
  Spec.no_row_with t k v -> stored !! k = Some v ->
  Model.findOne (Table (columns t) (rows t ++ [stored]) seq) {[k := v]} = Some stored.
Proof.
  intros Hno Hs. unfold Model.findOne. cbn [rows]. apply find_snoc.
  - intros r Hin. destruct (Model.satisfies {[k := v]} r) eqn:E; [|reflexivity].
    apply satisfies_singleton in E. now destruct (Hno r Hin).
  - now apply satisfies_singleton.
Qed.

(** After a successful [POST /], the country is served by the three
    lookups, with the fields the response of the POST showed. *)
Lemma post_created_inv now body db r db' :
  CountryRoute.post now body db = (r, db') -> status r = HttpStatus.CREATED ->
  exists c', CountryModel.create (CountryRoute.from_body body) db = Ok (c', db')
             /\ r = R.handleCreated (Country.toJSON c').
Proof.
  unfold CountryRoute.post. repeat case_match; try (intros [= <- <-]; cbn; discriminate).
  - intros [= <- <-] _. subst.
    match goal with H : Country.save _ _ = Ok _ |- _ => rename H into Hsave end.
    unfold Country.save in Hsave. rewrite from_body_is_new in Hsave.
    destruct (CountryModel.create _ _) as [[c d]|]; [|discriminate Hsave].
    injection Hsave as -> ->. eauto.
  - intros [= <- <-] Hs. exfalso.
    match goal with
    | Hs : status (CountryRoute.save_failure ?n ?f ?e) = _ |- _ =>
        destruct (status_save_failure n f e) as [Hc|Hc]; rewrite Hc in Hs; discriminate Hs
    end.
Qed.


Lemma find_snoc_none {A} (p : A -> bool) (l : list A) (x : A) :
  (forall y, In y l -> p y = false) ->
  List.find p (l ++ [x]) = if p x then Some x else None.
Proof.
  intros Hl. induction l as [|a l IH]; cbn [app List.find]; [reflexivity|].
  rewrite (Hl a) by now left. apply IH. intros y Hy. apply Hl. now right.
Qed.

Lemma two_upper_is_alpha s : Js.re_two_upper s = true -> Js.re_two_alpha s = true.
Proof.
  unfold Js.re_two_upper, Js.re_two_alpha. intros [Hl Hu]%andb_true_iff. rewrite Hl.
  cbn [andb]. clear Hl. induction s as [|c s IH]; [reflexivity|].
  cbn [Js.all_chars] in *. apply andb_true_iff in Hu as [Hc Hs].
  rewrite (IH Hs). unfold Js.is_alpha. now rewrite Hc.
Qed.

(** X11. A created country is served. When POST answers 201 on a table
    whose ids are numbered, the response carries the created country, a row
    with the supplied fields and the new GUID is stored, and the search by
    its code, the search by its ISO code and GET by its GUID each answer 200
    with that row. *)
Theorem created_country_is_served now body db t r db' :
  getModel db CountryDbStructure.tableName = Ok t ->
  Invariant.numbered t ->
  CountryRoute.post now body db = (r, db') ->
  status r = HttpStatus.CREATED ->
  exists (c : CountryModel.t) (stored : row) (n g : Z) (s : string),
    r = R.handleCreated (Country.toJSON c) /\
    CountryModel.code c = Some (VNum n) /\
    CountryModel.guid c = Some (VNum g) /\
    CountryModel.iso c = Some (VStr s) /\
    stored !! "guid" = Some (VNum g) /\
    (forall col v, Spec.supplied c col = Some v -> stored !! col = Some v) /\
    CountryRoute.search_code now (Js.String_of_Z n) db'
    = R.handleSuccess (Country.toJSON (Country.hydrate stored)) HttpStatus.SUCCESS /\
    CountryRoute.search_iso now s db'
    = R.handleSuccess (Country.toJSON (Country.hydrate stored)) HttpStatus.SUCCESS /\
    CountryRoute.get now (Js.String_of_Z g) db'
    = R.handleSuccess (Country.toJSON (Country.hydrate stored)) HttpStatus.SUCCESS.
Proof.
  intros Hm Hnum Hpost Hstatus.
  destruct (post_created_inv now body db r db' Hpost Hstatus) as (c' & Hcreate & ->).
  destruct (create_inv _ db c' db' Hcreate) as (t0 & c & Hm0 & Hval & H).
  assert (t0 = t) as -> by congruence. cbv zeta in H.
  destruct H as (Hnc & Hni & Hc' & Hdb').
  destruct (validate_inv _ c Hval)
    as (_ & _ & (n & _ & Ec & Hn) & (s0 & _ & Ei & Hs) & _).
  set (g := Spec.max_id t + 100001) in *.
  set (stored := <["id" := VNum (sequence t + 1)]>
                   (createData g c ∪ Model.blank (columns t))) in *.
  set (t' := Table (columns t) (rows t ++ [stored]) (sequence t + 1)) in *.
  assert (Hm' : getModel db' CountryDbStructure.tableName = Ok t')
    by (subst db'; exact (getModel_setModel db _ t _ Hm)).
  pose proof (max_id_nonneg t Hnum) as Hmax.
  assert (Hsup : forall col v, Spec.supplied c col = Some v -> stored !! col = Some v).
  { intros col v Hv. unfold stored. rewrite lookup_stored, lookup_createData, Hv.
    case_decide as Hid; [subst col; discriminate Hv|reflexivity]. }
  assert (Hguid : stored !! "guid" = Some (VNum g)).
  { unfold stored. now rewrite lookup_stored, lookup_createData. }
  assert (Hfresh : Spec.no_row_with t "guid" (VNum g)).
  { intros r0 Hin Hr. destruct Hnum as [_ Hrows].
    destruct (Hrows r0 Hin) as (i & g0 & Hi & Hg & _ & Hle).
    pose proof (max_id_ge t r0 i Hin Hi). rewrite Hg in Hr. injection Hr as Hr.
    unfold g in Hr. lia. }
  assert (Hnoid : forall r0, In r0 (rows t) -> Model.satisfies {["id" := VNum g]} r0 = false).
  { intros r0 Hin. destruct (Model.satisfies _ r0) eqn:E; [|reflexivity].
    apply satisfies_singleton in E.
    pose proof (max_id_ge t r0 g Hin E). unfold g in *. lia. }
  exists c', stored, n, g, (Js.toUpperCase (Js.trim s0)).
  subst c'. cbn [CountryModel.code CountryModel.guid CountryModel.iso].
  split; [reflexivity|]. split; [exact Ec|]. split; [reflexivity|]. split; [exact Ei|].
  split; [exact Hguid|]. split; [exact Hsup|].
  split; [|split].
  - unfold CountryRoute.search_code.
    rewrite String_of_Z_digits, parseInt_String_of_Z by lia. cbn [negb].
    unfold Country.load, CountryModel.findByCode.
    rewrite (findOne_registered db' _ t' _ Hm'). unfold t'.
    rewrite (findOne_snoc t "code" (VNum n) stored).
    + reflexivity.
    + rewrite Ec in Hnc. exact Hnc.
    + apply Hsup. exact Ec.
  - unfold CountryRoute.search_iso.
    rewrite (two_upper_is_alpha _ Hs). cbn [negb].
    unfold Country.load, CountryModel.findByIso.
    rewrite !toUpperCase_idem.
    rewrite (findOne_registered db' _ t' _ Hm'). unfold t'.
    rewrite (findOne_snoc t "iso" (VStr (Js.toUpperCase (Js.trim s0))) stored).
    + reflexivity.
    + specialize (Hni _ Ei). now rewrite toUpperCase_idem in Hni.
    + apply Hsup. exact Ei.
  - unfold CountryRoute.get.
    rewrite String_of_Z_digits, parseInt_String_of_Z by (unfold g; lia).
    unfold Country.load, CountryModel.find, CountryModel.findByGuid. cbn [Number_].
    rewrite !(findOne_registered db' _ t' _ Hm'). cbn [bind].
    unfold t' at 1. unfold Model.findOne at 1. cbn [rows].
    rewrite (find_snoc_none _ _ _ Hnoid).
    destruct (Model.satisfies {["id" := VNum g]} stored); cbn [fmap option_fmap option_map];
      [reflexivity|].
    unfold t'. rewrite (findOne_snoc t "guid" (VNum g) stored _ Hfresh Hguid). reflexivity.
Qed.

End RoundTrip.

Section Deletion.
Import TableInitializer.

Lemma re_digits_parseInt s : Js.re_digits s = true -> exists n, Js.parseInt s = Some n /\ 0 <= n.
Proof.
  intros H. rewrite (parseInt_digits s (re_digits_starts s H)). eexists. split; [reflexivity|].
  clear H. assert (forall acc, 0 <= acc -> 0 <= Js.digits_value acc s) as Hacc.
  { induction s as [|c s IH]; intros acc Hacc; cbn [Js.digits_value]; [exact Hacc|].
    destruct (Js.is_digit c) eqn:E; [|exact Hacc]. apply IH.
    assert (0 <= Js.digit_value c).
    { unfold Js.is_digit in E. unfold Js.digit_value.
      apply andb_true_iff in E as [E _]. apply Nat.leb_le in E. lia. }
    lia. }
  apply Hacc. lia.
Qed.

Lemma unique_column_inj (k : string) (t : table) (r1 r2 : row) :
  Invariant.unique k t -> In r1 (rows t) -> In r2 (rows t) ->
  r1 !! k = r2 !! k -> r1 = r2.
Proof.
  unfold Invariant.unique. induction (rows t) as [|a l IH]; [intros _ []|].
  cbn [fmap list_fmap]. intros Hnd%NoDup_cons. destruct Hnd as [Hn Hl].
  intros [<-|H1] [<-|H2] Heq; auto.
  - exfalso. apply Hn. rewrite Heq. apply list_elem_of_fmap. exists r2.
    split; [reflexivity|]. now apply list_elem_of_In.
  - exfalso. apply Hn. rewrite <- Heq. apply list_elem_of_fmap. exists r1.
    split; [reflexivity|]. now apply list_elem_of_In.
Qed.

(** X12. A deleted country is gone. When DELETE /:guid answers 200 on a
    table whose GUIDs are unique, no row carries that GUID any more, the
    table has fewer rows and no new one, a second DELETE answers 404 and so
    does a PUT on that GUID. *)
Theorem deleted_country_is_gone now param db t r db' :
  getModel db CountryDbStructure.tableName = Ok t ->
  Invariant.unique "guid" t ->
  CountryRoute.delete now param db = (r, db') ->
  status r = HttpStatus.SUCCESS ->
  exists t' n,
    Js.parseInt param = Some n /\
    getModel db' CountryDbStructure.tableName = Ok t' /\
    Spec.no_row_with t' "guid" (VNum n) /\
    (length (rows t') < length (rows t))%nat /\
    (forall r0, In r0 (rows t') -> In r0 (rows t)) /\
    fst (CountryRoute.delete now param db')
    = CountryRoute.fail now HttpStatus.NOT_FOUND "country_not_found" "Country not found" /\
    (forall body, Js.re_six_digits param = true ->
       fst (CountryRoute.put now param body db')
       = CountryRoute.fail now HttpStatus.NOT_FOUND "country_not_found" "Country not found").
Proof.
  intros Hm Hun. unfold CountryRoute.delete.
  destruct (Js.re_digits param) eqn:Hre; cbn [negb];
    [|intros [= <- <-] Hs; discriminate Hs].
  destruct (re_digits_parseInt param Hre) as (n & Hn & Hpos). rewrite Hn.
  unfold Country.load at 1, CountryModel.findByGuid.
  rewrite (findOne_registered db _ t _ Hm). cbn [bind].
  destruct (Model.findOne t {["guid" := VNum n]}) as [r0|] eqn:Hfind;
    cbn [fmap option_fmap option_map]; [|intros [= <- <-] Hs; discriminate Hs].
  apply find_some in Hfind as [Hin0 Hsat0]. apply satisfies_singleton in Hsat0.
  unfold Country.delete. cbn [Country.hydrate CountryModel.id].
  destruct (r0 !! "id") as [i|] eqn:Hid; [|intros [= <- <-] Hs; discriminate Hs].
  destruct (W.isOccur _ _) as [[]|]; cbn [bind]; [|intros [= <- <-] Hs; discriminate Hs].
  unfold CountryModel.trash, BaseModel.deleteOne, CountryModel.tableName.
  rewrite Hm. cbn [bind Model.destroy].
  destruct (0 <? Model.count t {["id" := i]}) eqn:Hcount;
    [|intros [= <- <-] Hs; discriminate Hs].
  intros [= <- <-] _.
  set (t' := Table (columns t)
               (List.filter (fun r => negb (Model.satisfies {["id" := i]} r)) (rows t))
               (sequence t)).
  assert (Hm' : getModel (setModel db CountryDbStructure.tableName t')
                  CountryDbStructure.tableName = Ok t')
    by exact (getModel_setModel db _ t _ Hm).
  assert (Hno : Spec.no_row_with t' "guid" (VNum n)).
  { intros r1 Hin1 Hg. unfold t' in Hin1. cbn [rows] in Hin1.
    apply filter_In in Hin1 as [Hin1 Hneg].
    assert (r1 = r0) as -> by (apply (unique_column_inj "guid" t); congruence).
    assert (Model.satisfies {["id" := i]} r0 = true) as Hs by now apply satisfies_singleton.
    rewrite Hs in Hneg. discriminate Hneg. }
  exists t', n.
  split; [reflexivity|]. split; [exact Hm'|]. split; [exact Hno|].
  split; [|split; [|split]].
  - unfold t'. cbn [rows]. clear -Hin0 Hid.
    assert (Hs : Model.satisfies {["id" := i]} r0 = true) by now apply satisfies_singleton.
    induction (rows t) as [|a l IH]; [destruct Hin0|]. cbn [List.filter length].
    destruct Hin0 as [->|Hin].
    + rewrite Hs. cbn [negb]. pose proof (filter_length_le (fun r => negb (Model.satisfies {["id" := i]} r)) l). lia.
    + specialize (IH Hin). destruct (negb _); cbn [length]; lia.
  - intros r1 Hin1. unfold t' in Hin1. cbn [rows] in Hin1.
    apply filter_In in Hin1 as [Hin1 _]. exact Hin1.
  - cbn [negb]. now rewrite (load_by_guid _ t' n Hm' Hno).
  - intros body Hsix. unfold CountryRoute.put. rewrite Hsix, Hn. cbn [negb].
    now rewrite (load_by_guid _ t' n Hm' Hno).
Qed.

End Deletion.

Section SixDigits.
Import TableInitializer.

Lemma digit_value_range c : Js.is_digit c = true -> 0 <= Js.digit_value c <= 9.
Proof.
  unfold Js.is_digit, Js.digit_value. intros [H1 H2]%andb_true_iff.
  apply Nat.leb_le in H1, H2. lia.
Qed.

Lemma digits_value_bounds s :
  Js.all_chars Js.is_digit s = true ->
  forall acc, 0 <= acc ->
    acc * 10 ^ Z.of_nat (String.length s) <= Js.digits_value acc s
    < (acc + 1) * 10 ^ Z.of_nat (String.length s).
Proof.
  induction s as [|c s IH]; intros Hd acc Hacc.
  - cbn. lia.
  - cbn [Js.all_chars] in Hd. apply andb_true_iff in Hd as [Hc Hs].
    cbn [Js.digits_value String.length]. rewrite Hc.
    pose proof (digit_value_range c Hc) as Hv.
    specialize (IH Hs (10 * acc + Js.digit_value c) ltac:(lia)).
    rewrite Nat2Z.inj_succ, Z.pow_succ_r by lia.
    assert (0 < 10 ^ Z.of_nat (String.length s)) by (apply Z.pow_pos_nonneg; lia).
    nia.
Qed.

Lemma to_uint_head p : forall d, Pos.to_uint p <> Decimal.D0 d.
Proof.
  intros d Hd.
  assert (Hu : Decimal.unorm (Pos.to_uint p) = Pos.to_uint p).
  { rewrite <- (Unsigned.to_of (Pos.to_uint p)), Unsigned.of_to. reflexivity. }
  assert (Hz : Decimal.nzhead (Pos.to_uint p) <> Decimal.Nil).
  { intros Hn. apply unorm_0 in Hn. rewrite Hu in Hn. now apply (Unsigned.to_uint_nonzero p). }
  rewrite (unorm_nzhead _ Hz) in Hu.
  apply (nzhead_nonzero (Pos.to_uint p) d). congruence.
Qed.

(** The decimal notation of a positive integer of [L] digits lies between
    [10^(L-1)] and [10^L]. *)
Lemma String_of_Z_length (g : Z) :
  0 < g ->
  let L := Z.of_nat (String.length (Js.String_of_Z g)) in
  1 <= L /\ 10 ^ (L - 1) <= g < 10 ^ L.
Proof.
  intros Hg. destruct g as [|p|p]; try lia. cbv zeta.
  pose proof (parseInt_String_of_Z (Z.pos p) ltac:(lia)) as Hparse.
  pose proof (String_of_Z_digits (Z.pos p) ltac:(lia)) as Hdig.
  rewrite (parseInt_digits _ (re_digits_starts _ Hdig)) in Hparse. injection Hparse as Hval.
  revert Hval Hdig. rewrite String_of_Z_pos.
  pose proof (to_uint_head p) as Hhead.
  pose proof (all_digits_string_of_uint (Pos.to_uint p)) as Hall.
  destruct (Pos.to_uint p) as [|d|d|d|d|d|d|d|d|d|d];
    [discriminate|exfalso; now apply (Hhead d)|..];
    cbn [NilEmpty.string_of_uint Js.digits_value String.length Js.all_chars] in *;
    change (Js.is_digit _) with true in *; cbv iota; cbn [andb] in Hall;
    vm_compute Js.digit_value; change (10 * 0 + ?k) with k;
    intros Hval _;
    rewrite Nat2Z.inj_succ;
    replace (Z.succ (Z.of_nat (String.length (NilEmpty.string_of_uint d))) - 1)
      with (Z.of_nat (String.length (NilEmpty.string_of_uint d))) by lia;
    rewrite Z.pow_succ_r by lia;
    match goal with
    | H : Js.digits_value ?k _ = _ |- _ =>
        pose proof (digits_value_bounds _ Hall k ltac:(lia)) as Hb
    end;
    rewrite Hval in Hb; lia.
Qed.

Lemma six_digits_iff (g : Z) :
  0 <= g -> (Js.re_six_digits (Js.String_of_Z g) = true <-> 100000 <= g <= 999999).
Proof.
  intros Hg. destruct (Z.eq_dec g 0) as [->|Hne].
  { split; [intros H; vm_compute in H; discriminate H|lia]. }
  destruct (String_of_Z_length g ltac:(lia)) as [HL Hb]. cbv zeta in *.
  pose proof (String_of_Z_digits g Hg) as Hdig. unfold Js.re_digits in Hdig.
  apply andb_true_iff in Hdig as [_ Hall].
  unfold Js.re_six_digits. rewrite Hall, andb_true_r, Nat.eqb_eq.
  set (L := Z.of_nat (String.length (Js.String_of_Z g))) in *.
  split.
  - intros H6. assert (L = 6) as HL6 by (unfold L; lia). rewrite HL6 in Hb.
    change (10 ^ (6 - 1)) with 100000 in Hb. change (10 ^ 6) with 1000000 in Hb. lia.
  - intros Hr. assert (L = 6); [|unfold L in *; lia].
    destruct (Z.lt_trichotomy L 6) as [Hlt|[Heq|Hgt]]; [|exact Heq|].
    + assert (10 ^ L <= 10 ^ 5) by (apply Z.pow_le_mono_r; lia).
      change (10 ^ 5) with 100000 in *. lia.
    + assert (10 ^ 6 <= 10 ^ (L - 1)) by (apply Z.pow_le_mono_r; lia).
      change (10 ^ 6) with 1000000 in *. lia.
Qed.

(** What [parseInt] reads from six decimal digits. *)
Lemma parseInt_six_digits param :
  Js.re_six_digits param = true ->
  exists n, Js.parseInt param = Some n /\ 0 <= n <= 999999.
Proof.
  unfold Js.re_six_digits. intros [Hlen Hall]%andb_true_iff. apply Nat.eqb_eq in Hlen.
  exists (Js.digits_value 0 param). split.
  - apply parseInt_digits. destruct param as [|c r]; [discriminate|].
    cbn [Js.all_chars] in Hall. now apply andb_true_iff in Hall as [Hc _].
  - pose proof (digits_value_bounds param Hall 0 ltac:(lia)) as Hb.
    rewrite Hlen in Hb. change (10 ^ Z.of_nat 6) with 1000000 in Hb. lia.
Qed.

(** X13. PUT /:guid accepts exactly the parameters made of six decimal
    digits. Any other parameter is answered 400 'invalid_guid' and nothing
    is written. A six-digit parameter is read by [parseInt] as an integer
    from 0 to 999999 (leading zeros are digits: '000001' is accepted and
    read as 1), and when no row carries that GUID the answer is 404 and
    nothing is written. Among the decimal notations of the integers a
    double holds exactly, [0 <= g < 2^53], the six-digit ones are those of
    100000 to 999999, and [parseInt] reads these back. *)
Theorem put_accepts_the_six_digit_guids now (param : string) body db :
  (Js.re_six_digits param = false ->
   CountryRoute.put now param body db
   = (CountryRoute.fail now HttpStatus.BAD_REQUEST "invalid_guid"
        "GUID must be a positive integer", db)) /\
  (Js.re_six_digits param = true ->
   exists n, Js.parseInt param = Some n /\ 0 <= n <= 999999 /\
     forall t, getModel db CountryDbStructure.tableName = Ok t ->
       Spec.no_row_with t "guid" (VNum n) ->
       CountryRoute.put now param body db
       = (CountryRoute.fail now HttpStatus.NOT_FOUND "country_not_found"
            "Country not found", db)) /\
  (forall g, 0 <= g < 2 ^ 53 ->
     (Js.re_six_digits (Js.String_of_Z g) = true <-> 100000 <= g <= 999999)) /\
  (forall g, 100000 <= g <= 999999 -> Js.parseInt (Js.String_of_Z g) = Some g).
Proof.
  split; [|split; [|split]].
  - intros Hre. unfold CountryRoute.put. now rewrite Hre.
  - intros Hre. destruct (parseInt_six_digits param Hre) as (n & Hn & Hb).
    exists n. split; [exact Hn|]. split; [exact Hb|].
    intros t Hm Hno. exact (put_not_found now param n body db t Hm Hre Hn Hno).
  - intros g Hg. apply six_digits_iff. lia.
  - intros g Hg. apply parseInt_String_of_Z. lia.
Qed.


End SixDigits.

Section Listings.
Import TableInitializer ExtractQueryParams.

Lemma extract_offset_nonneg (query : gmap string string) (o : Z) :
  offset (extractPaginationFromQuery query) = Some o -> 0 <= o.
Proof.
  unfold extractPaginationFromQuery. cbn [offset].
  destruct (query !! "offset") as [s|]; [|discriminate].
  destruct (Js.parseInt s) as [n|]; [|discriminate].
  destruct (Z.leb_spec 0 n); [|discriminate]. now intros [= <-].
Qed.

Lemma extract_limit_kept (query : gmap string string) s l :
  query !! "limit" = Some s -> Js.parseInt s = Some l -> 0 < l <= 1000 ->
  limit (extractPaginationFromQuery query) = Some l.
Proof.
  intros Hq Hs Hl. unfold extractPaginationFromQuery. cbn [limit]. rewrite Hq, Hs.
  destruct (Z.ltb_spec 0 l); [|lia]. destruct (Z.leb_spec l 1000); [|lia]. reflexivity.
Qed.

Lemma or_else_offset query :
  0 <= CountryRoute.or_else (offset (extractPaginationFromQuery query)) 0.
Proof.
  unfold CountryRoute.or_else.
  destruct (offset (extractPaginationFromQuery query)) as [o|] eqn:E; [|lia].
  apply extract_offset_nonneg in E. destruct (Js.truthy_Z o); lia.
Qed.

Lemma or_else_limit p (n : Z) :
  (forall l, limit p = Some l -> 0 < l /\ n <= l) ->
  n <= CountryRoute.or_else (limit p) n /\
  (forall l, limit p = Some l -> CountryRoute.or_else (limit p) n = l).
Proof.
  intros H. unfold CountryRoute.or_else. destruct (limit p) as [l|]; [|split; [lia|discriminate]].
  destruct (H l eq_refl) as [Hpos Hle]. unfold Js.truthy_Z.
  destruct (Z.eqb_spec l 0); [lia|]. cbn [negb]. split; [exact Hle|]. now intros l' [= <-].
Qed.

Lemma findAll_length db name where_ query rs :
  BaseModel.findAll db name where_ (extractPaginationFromQuery query) = Ok rs ->
  forall l, limit (extractPaginationFromQuery query) = Some l ->
            0 < l /\ Z.of_nat (length rs) <= l.
Proof.
  intros Hfind l Hl. pose proof (extract_limit_in_range query l Hl) as Hr.
  split; [lia|]. apply (findAll_at_most_limit _ _ _ _ _ _ Hfind Hl). lia.
Qed.

(** X14. The listings report their pagination truthfully. When GET /list or
    GET /timezone/:timezone answers 200, the count reported is the number of
    items, the offset reported is not negative, the count is at most the
    limit reported, and a limit between 1 and 1000 given in the query is the
    limit reported. *)
Theorem listings_report_their_pagination now (tz : string) (decoded : result string)
    (query : gmap string string) db :
  let p := extractPaginationFromQuery query in
  forall r,
    r = CountryRoute.list_ now query db \/
    r = CountryTimezoneRoute.timezone now tz decoded query db ->
    status r = HttpStatus.SUCCESS ->
    exists o l items,
      Listing.reports r o l (Z.of_nat (length items)) items /\
      0 <= o /\ Z.of_nat (length items) <= l /\
      (forall l', limit p = Some l' -> l = l' /\ 0 < l' <= 1000) /\
      (forall s l', query !! "limit" = Some s -> Js.parseInt s = Some l' ->
                    0 < l' <= 1000 -> l = l').
Proof.
  intros p r Hr Hs.
  assert (Hcore : exists (rows_ : list row) where_,
             BaseModel.findAll db CountryModel.tableName where_ p = Ok rows_ /\
             Listing.reports r (CountryRoute.or_else (offset p) 0)
               (CountryRoute.or_else (limit p) (Z.of_nat (length rows_)))
               (Z.of_nat (length rows_))
               (Country.toJSON <$> (Country.hydrate <$> rows_))).
  { destruct Hr as [-> | ->].
    - revert Hs. unfold CountryRoute.list_. fold p.
      match goal with |- context [Country.list_ db ?c p] => set (conditions := c) end.
      unfold Country.list_, CountryModel.listAll.
      destruct (BaseModel.findAll db CountryModel.tableName conditions p) as [rs|e] eqn:Hfind;
        cbn [bind]; [|intros H; discriminate H].
      intros _. exists rs, conditions. split; [exact Hfind|].
      eexists. split; [reflexivity|]. rewrite length_fmap. repeat split; reflexivity.
    - revert Hs. unfold CountryTimezoneRoute.timezone. fold p.
      destruct decoded as [d|e]; [|intros H; discriminate H].
      unfold Country.listByTimezone, CountryModel.listAllByTimezone.
      destruct (BaseModel.findAll db CountryModel.tableName {["timezone" := VStr d]} p)
        as [rs|e] eqn:Hfind; cbn [bind]; [|intros H; discriminate H].
      intros _. exists rs, {["timezone" := VStr d]}. split; [exact Hfind|].
      eexists. split; [reflexivity|]. rewrite length_fmap. repeat split; reflexivity. }
  destruct Hcore as (rs & where_ & Hfind & Hrep).
  destruct (or_else_limit p (Z.of_nat (length rs)) (findAll_length _ _ _ _ _ Hfind))
    as [Hle Heq].
  exists (CountryRoute.or_else (offset p) 0),
    (CountryRoute.or_else (limit p) (Z.of_nat (length rs))),
    (Country.toJSON <$> (Country.hydrate <$> rs)).
  rewrite !length_fmap. split; [exact Hrep|].
  split; [apply or_else_offset|]. split; [exact Hle|]. split.
  - intros l' Hl'. split; [now apply Heq|]. now apply (extract_limit_in_range query).
  - intros s l' Hq Hp Hl'. apply Heq. now apply (extract_limit_kept query s).
Qed.

End Listings.

Section BillingChronology.
Import BillingCycleDbStructure BillingCycleOptions.

Lemma accepted_cycle_inv this :
  validate this = Ok tt ->
  isAfterPeriodStart this = Ok tt /\ isCorrectTotal this = Ok tt /\
  isCorrectSubtotal this = Ok tt /\ isCorrectTotalLocal this = Ok tt /\
  isRequiredForCompleted this = Ok tt /\ isAfterPeriodEnd this = Ok tt /\
  isRequiredForCompleted_payment this = Ok tt.
Proof.
  unfold validate, bind.
  destruct (isAfterPeriodStart this) as [[]|]; [|discriminate].
  destruct (isCorrectTotal this) as [[]|]; [|discriminate].
  destruct (isCorrectSubtotal this) as [[]|]; [|discriminate].
  destruct (isCorrectTotalLocal this) as [[]|]; [|discriminate].
  destruct (isRequiredForCompleted this) as [[]|]; [|discriminate].
  destruct (isAfterPeriodEnd this) as [[]|]; [|discriminate].
  intros ->. repeat split.
Qed.

(** X15. A billing cycle accepted by the attribute validators is in
    chronological order: its period starts before it ends, payment is due
    after the period ends, hence after it starts, and a COMPLETED cycle has
    both its invoice date and its payment date. *)
Theorem accepted_cycle_is_in_order this :
  validate this = Ok tt ->
  (forall a b, period_start this = Js.val a -> period_end this = Js.val b -> a < b) /\
  (forall b c, period_end this = Js.val b -> payment_due_date this = Js.val c -> b < c) /\
  (forall a b c, period_start this = Js.val a -> period_end this = Js.val b ->
                 payment_due_date this = Js.val c -> a < c) /\
  (billing_status this = Js.val COMPLETED ->
   exists i p, invoice_generated_at this = Js.val i /\ payment_completed_at this = Js.val p).
Proof.
  intros H. destruct (accepted_cycle_inv this H) as (H1 & _ & _ & _ & H5 & H6 & H7).
  assert (Hab : forall a b, period_start this = Js.val a -> period_end this = Js.val b -> a < b).
  { intros a b Ha Hb. unfold isAfterPeriodStart in H1. rewrite Ha, Hb in H1.
    destruct (Z.leb_spec b a); [discriminate H1|lia]. }
  assert (Hbc : forall b c, period_end this = Js.val b -> payment_due_date this = Js.val c -> b < c).
  { intros b c Hb Hc. unfold isAfterPeriodEnd in H6. rewrite Hb, Hc in H6.
    destruct (Z.leb_spec c b); [discriminate H6|lia]. }
  split; [exact Hab|]. split; [exact Hbc|]. split.
  - intros a b c Ha Hb Hc. specialize (Hab a b Ha Hb). specialize (Hbc b c Hb Hc). lia.
  - intros Hc. apply is_completed_iff in Hc.
    unfold isRequiredForCompleted in H5. unfold isRequiredForCompleted_payment in H7.
    rewrite Hc in H5, H7. cbn [andb] in H5, H7.
    destruct (invoice_generated_at this) as [| |i]; try discriminate H5.
    destruct (payment_completed_at this) as [| |p]; try discriminate H7.
    eauto.
Qed.

(** X16. On a billing cycle accepted by the attribute validators the
    model-level validators add one check only: [periodDatesLogical] and
    [paymentDueDateLogical] never throw, and [statusDependentFields] throws
    exactly for an OVERDUE cycle whose payment due date is missing or not
    yet passed. *)
Theorem model_validators_only_add_the_overdue_check now this :
  validate this = Ok tt ->
  periodDatesLogical this = Ok tt /\
  paymentDueDateLogical this = Ok tt /\
  (statusDependentFields now this = Ok tt <->
   (billing_status this = Js.val OVERDUE ->
    exists due, payment_due_date this = Js.val due /\ due < now)).
Proof.
  intros H. destruct (accepted_cycle_inv this H) as (H1 & _ & _ & _ & H5 & H6 & H7).
  split; [|split].
  - unfold periodDatesLogical. unfold isAfterPeriodStart in H1.
    destruct (period_start this), (period_end this); try reflexivity.
    destruct (a0 <=? a); [discriminate H1|reflexivity].
  - unfold paymentDueDateLogical. unfold isAfterPeriodEnd in H6.
    destruct (payment_due_date this), (period_end this); try reflexivity.
    destruct (a <=? a0); [discriminate H6|reflexivity].
  - unfold statusDependentFields.
    unfold isRequiredForCompleted in H5. unfold isRequiredForCompleted_payment in H7.
    assert (Hc : (if is_completed this
                  then if Js.is_nullish (invoice_generated_at this)
                       then Throw (Error "Invoice generated date is required for completed billing cycles")
                       else if Js.is_nullish (payment_completed_at this)
                            then Throw (Error "Payment completed date is required for completed billing cycles")
                            else Ok tt
                  else Ok tt) = Ok tt).
    { destruct (is_completed this); [|reflexivity]. cbn [andb] in H5, H7.
      destruct (Js.is_nullish (invoice_generated_at this)); [discriminate H5|].
      destruct (Js.is_nullish (payment_completed_at this)); [discriminate H7|reflexivity]. }
    rewrite Hc. cbn [bind].
    unfold is_overdue. destruct (billing_status this) as [| |s].
    + split; [intros _ Hs; discriminate Hs|reflexivity].
    + split; [intros _ Hs; discriminate Hs|reflexivity].
    + destruct (String.eqb_spec s OVERDUE) as [->|Hne].
      * destruct (payment_due_date this) as [| |due].
        -- split; [intros Hs; discriminate Hs|].
           intros Hd. destruct (Hd eq_refl) as (due & Hdue & _). discriminate Hdue.
        -- split; [intros Hs; discriminate Hs|].
           intros Hd. destruct (Hd eq_refl) as (due & Hdue & _). discriminate Hdue.
        -- destruct (Z.leb_spec now due).
           ++ split; [intros Hs; discriminate Hs|].
              intros Hd. destruct (Hd eq_refl) as (due' & [= <-] & Hlt). lia.
           ++ split; [intros _ _; eauto|reflexivity].
      * split; [|reflexivity]. intros _ [= Hs]. congruence.
Qed.

End BillingChronology.

Section StringChecks.
Import TableInitializer BillingCycleValidation.

Lemma trimEnd_no_white s : Js.all_chars (fun c => negb (Js.is_white c)) s = true -> Js.trimEnd s = s.
Proof.
  induction s as [|c s IH]; [reflexivity|]. cbn [Js.all_chars].
  intros [Hc Hs]%andb_true_iff. rewrite trimEnd_cons, (IH Hs).
  destruct s; [|reflexivity]. apply negb_true_iff in Hc. now rewrite Hc.
Qed.

Lemma all_chars_impl (p q : ascii -> bool) s :
  (forall c, p c = true -> q c = true) -> Js.all_chars p s = true -> Js.all_chars q s = true.
Proof.
  intros Hpq. induction s as [|c s IH]; [reflexivity|]. cbn [Js.all_chars].
  intros [Hc Hs]%andb_true_iff. now rewrite (Hpq c Hc), IH.
Qed.

(** A string without white space is its own trimming. *)
Lemma trim_no_white s :
  Js.all_chars (fun c => negb (Js.is_white c)) s = true -> Js.trim s = s.
Proof.
  intros H. unfold Js.trim.
  assert (Hs : Js.trimStart s = s).
  { destruct s as [|c r]; [reflexivity|]. cbn [Js.all_chars] in H.
    apply andb_true_iff in H as [Hc _]. cbn [Js.trimStart].
    apply negb_true_iff in Hc. now rewrite Hc. }
  rewrite Hs. now apply trimEnd_no_white.
Qed.

Lemma trim_digits s : Js.all_chars Js.is_digit s = true -> Js.trim s = s.
Proof.
  intros H. apply trim_no_white.
  apply (all_chars_impl Js.is_digit); [|exact H].
  intros c Hc. now rewrite (is_digit_not_white c Hc).
Qed.

Lemma trim_String_of_Z n : 0 <= n -> Js.trim (Js.String_of_Z n) = Js.String_of_Z n.
Proof.
  intros H. apply trim_digits. pose proof (String_of_Z_digits n H) as Hd.
  unfold Js.re_digits in Hd. now apply andb_true_iff in Hd as [_ Hd].
Qed.

(** X17. The format checks on identifiers. [validatePositiveInteger] is the
    digits-only test of the trimmed string, its comparison with 0 never
    failing; on the decimal numeral of an integer [n >= 0] it passes,
    [validateGlobalLicense] passes iff [n > 0] and [validateGuid] iff
    [n >= 100000]; and every GUID the generator produces with its default
    length passes [validateGuid]. *)
Theorem decimal_identifiers_pass_the_format_checks :
  (forall s, validatePositiveInteger s = Js.re_digits (Js.trim s)) /\
  (forall n, 0 <= n ->
     validatePositiveInteger (Js.String_of_Z n) = true /\
     validateGlobalLicense (Js.String_of_Z n) = (0 <? n) /\
     validateGuid (Js.String_of_Z n) = (100000 <=? n)) /\
  (forall db name t,
     getModel db name = Ok t -> 0 <= Spec.max_id t ->
     exists g, BaseModel.guidGenerator db name BaseModel.default_length = Some g /\
               validateGuid (Js.String_of_Z g) = true).
Proof.
  split; [|split].
  - intros s. unfold validatePositiveInteger. cbv zeta.
    destruct (Js.re_digits (Js.trim s)) eqn:E; [|reflexivity].
    destruct (re_digits_parseInt _ E) as (n & -> & Hn).
    destruct (Z.leb_spec 0 n); [reflexivity|lia].
  - intros n Hn.
    unfold validatePositiveInteger, validateGlobalLicense, validateGuid. cbv zeta.
    rewrite (trim_String_of_Z n Hn), (String_of_Z_digits n Hn), (parseInt_String_of_Z n Hn).
    cbn [andb]. destruct (Z.leb_spec 0 n); [auto|lia].
  - intros db name t Hm Hmax. exists (Spec.max_id t + 100001).
    split; [now apply guidGenerator_default|].
    unfold validateGuid. cbv zeta.
    rewrite trim_String_of_Z, String_of_Z_digits, parseInt_String_of_Z by lia.
    cbn [andb]. destruct (Z.leb_spec 100000 (Spec.max_id t + 100001)); [reflexivity|lia].
Qed.

End StringChecks.

Section AdjustmentAgreement.
Import LicenseAdjustmentDbStructure LicenseAdjustmentDates.

Lemma SFmul_finite prec emax x y :
  SFfinite x = true -> SFfinite y = true -> SFmul prec emax x y <> S754_nan.
Proof.
  destruct x as [sx|sx| |sx mx ex], y as [sy|sy| |sy my ey]; cbn; try discriminate; intros _ _.
  apply binary_round_aux_is_number. lia.
Qed.

(** A product that overflowed, times a finite number that is not zero, is
    still a number. *)
Lemma SFmul_number_nonzero prec emax x sy my ey :
  x <> S754_nan -> SFmul prec emax x (S754_finite sy my ey) <> S754_nan.
Proof.
  destruct x as [sx|sx| |sx mx ex]; cbn; try discriminate; try congruence; intros _.
  apply binary_round_aux_is_number. lia.
Qed.

Lemma beyond_negb_within (a b : float) :
  Prim2SF (a - b)%float <> S754_nan -> Amount.beyond a b = negb (Amount.within a b).
Proof.
  intros Hnum. rewrite beyond_ieee, within_ieee.
  rewrite sub_spec in Hnum. unfold SF64sub in *.
  destruct (SFltb Spec.tolerance_ieee _) eqn:E.
  - unfold SFltb in E. unfold SFleb. rewrite SFcompare_antisym.
    destruct (SFcompare Spec.tolerance_ieee _) as [[]|]; try discriminate E. reflexivity.
  - destruct (proj1 (SFltb_false_iff _ _) E) as [E'|E']; [now rewrite E'|].
    exfalso. apply SFcompare_None in E' as [E'|E']; [|discriminate E'].
    destruct (SFsub prec emax (Prim2SF a) (Prim2SF b)); cbn in E'; try discriminate E'.
    now apply Hnum.
Qed.

Lemma truthy_finite_is_finite x :
  Js.truthy_float x = true -> Spec.finite x = true ->
  exists s m e, Prim2SF x = S754_finite s m e.
Proof.
  unfold Js.truthy_float, Spec.finite. intros [Hz _]%andb_true_iff Hf.
  apply negb_true_iff in Hz. rewrite FloatAxioms.eqb_spec in Hz.
  destruct (Prim2SF x) as [s|s| |s m e]; try discriminate Hf; [|eauto].
  exfalso. destruct s; vm_compute in Hz; discriminate Hz.
Qed.

Lemma sub_is_number (a b : float) :
  Prim2SF a <> S754_nan -> Spec.finite b = true -> Prim2SF (a - b)%float <> S754_nan.
Proof. intros Ha Hb. rewrite sub_spec. now apply SFsub_finite. Qed.

Lemma mul_is_number (a b : float) :
  Spec.finite a = true -> Spec.finite b = true -> Prim2SF (a * b)%float <> S754_nan.
Proof. intros Ha Hb. rewrite mul_spec. now apply SFmul_finite. Qed.

Lemma mul3_is_number (a b c : float) :
  Spec.finite a = true -> Spec.finite b = true ->
  Js.truthy_float c = true -> Spec.finite c = true ->
  Prim2SF (a * b * c)%float <> S754_nan.
Proof.
  intros Ha Hb Tc Hc. rewrite mul_spec.
  destruct (truthy_finite_is_finite c Tc Hc) as (sc & mc & ec & ->).
  apply SFmul_number_nonzero. now apply mul_is_number.
Qed.

Lemma add_is_number (a b : float) :
  Spec.finite a = true -> Spec.finite b = true -> Prim2SF (a + b)%float <> S754_nan.
Proof. intros Ha Hb. rewrite add_spec. now apply SFadd_finite. Qed.

(** X18. On a license adjustment whose amounts are all set, finite and not
    zero and whose adjustment date is set, [validateAdjustmentModel] accepts
    exactly when [validateAmountCalculation], [validateTotalCalculation],
    [validateLocalAmountsConsistency],
    [validatePaymentCompletedAfterAdjustment] and
    [validatePaymentCompletedAfterInvoice] all accept. *)
Theorem complete_adjustment_is_judged_as_by_the_validators d e m p s t tot x sl tl totl a :
  Complete.amount (employees_added_count d) e ->
  Complete.amount (months_remaining d) m ->
  Complete.amount (price_per_employee_usd d) p ->
  Complete.amount (subtotal_usd d) s ->
  Complete.amount (tax_amount_usd d) t ->
  Complete.amount (total_amount_usd d) tot ->
  Complete.amount (exchange_rate_used d) x ->
  Complete.amount (subtotal_local d) sl ->
  Complete.amount (tax_amount_local d) tl ->
  Complete.amount (total_amount_local d) totl ->
  adjustment_date d = Js.val a ->
  isValid (validateAdjustmentModel d)
  = validateAmountCalculation e m p s
    && validateTotalCalculation s t tot
    && validateLocalAmountsConsistency s t tot x sl tl totl
    && validatePaymentCompletedAfterAdjustment (adjustment_date d) (payment_completed_at d)
    && validatePaymentCompletedAfterInvoice (invoice_sent_at d) (payment_completed_at d).
Proof.
  intros (Ee & Te & Fe) (Em & Tm & Fm) (Ep & Tp & Fp) (Es & Ts & Fs) (Et & Tt & Ft)
         (Etot & Ttot & Ftot) (Ex & Tx & Fx) (Esl & Tsl & Fsl) (Etl & Ttl & Ftl)
         (Etotl & Ttotl & Ftotl) Ea.
  unfold validateAdjustmentModel, validateAmountCalculation, validateTotalCalculation,
    validateLocalAmountsConsistency.
  rewrite Ee, Em, Ep, Es, Et, Etot, Ex, Esl, Etl, Etotl, Ea.
  unfold truthy. cbn [Js.truthy num].
  rewrite Te, Tm, Tp, Ts, Tt, Ttot, Tx, Tsl, Ttl, Ttotl. cbn [andb].
  rewrite (beyond_negb_within (e * m * p) s)
    by (apply sub_is_number; [now apply mul3_is_number|exact Fs]).
  rewrite (beyond_negb_within (s + t) tot)
    by (apply sub_is_number; [now apply add_is_number|exact Ftot]).
  rewrite (beyond_negb_within (s * x) sl)
    by (apply sub_is_number; [now apply mul_is_number|exact Fsl]).
  rewrite (beyond_negb_within (t * x) tl)
    by (apply sub_is_number; [now apply mul_is_number|exact Ftl]).
  rewrite (beyond_negb_within (tot * x) totl)
    by (apply sub_is_number; [now apply mul_is_number|exact Ftotl]).
  destruct (Amount.within (e * m * p) s), (Amount.within (s + t) tot),
    (Amount.within (s * x) sl), (Amount.within (t * x) tl), (Amount.within (tot * x) totl);
    cbn [negb push_if andb app];
    unfold validatePaymentCompletedAfterAdjustment, validatePaymentCompletedAfterInvoice, earlier;
    destruct (payment_completed_at d) as [| |pc], (invoice_sent_at d) as [| |inv];
    cbn [Js.is_nullish orb getTime geq push_if isValid andb app length Nat.eqb];
    try reflexivity;
    try (destruct (Z.ltb_spec pc a), (Z.leb_spec a pc); try lia;
         cbn [push_if app length Nat.eqb andb]; try reflexivity;
         destruct (Z.ltb_spec pc inv), (Z.leb_spec inv pc); try lia; reflexivity).
Qed.

End AdjustmentAgreement.

Section MethodGuards.

Lemma includes_In methods method :
  Ensure.includes methods method = true <-> In method methods.
Proof.
  unfold Ensure.includes. rewrite existsb_exists. split.
  - intros (x & Hin & Heq). apply String.eqb_eq in Heq. now subst.
  - intros Hin. exists method. split; [exact Hin|apply String.eqb_refl].
Qed.

(** X19. The method guards. [validateMethod], behind [Ensure.get()],
    [Ensure.post()] and the like, lets a request through iff its method is
    the expected one; [anyOf] lets through the listed methods and [reject]
    the others; what a guard for a standard method lets through, [strict]
    lets through; [envBased] refuses nothing outside production; and every
    refusal is a 405 with a failure envelope. *)
Theorem method_guards now (method : string) :
  (forall expected,
      Ensure.validateMethod now expected method = None <-> method = expected) /\
  (forall methods,
      (Ensure.anyOf now methods method = None <-> In method methods) /\
      (Ensure.reject now methods method = None <-> ~ In method methods)) /\
  (forall expected,
      Ensure.validateMethod now expected method = None ->
      In expected Ensure.standardMethods -> Ensure.strict now method = None) /\
  (forall expected env,
      env <> Some "production" -> Ensure.envBased now env expected method = None) /\
  (forall expected methods msg env (guard : Ensure.middleware) r,
      In guard [Ensure.validateMethod now expected; Ensure.anyOf now methods;
                Ensure.reject now methods; Ensure.custom now expected msg;
                Ensure.strict now; Ensure.envBased now env expected] ->
      guard method = Some r ->
      status r = HttpStatus.METHOD_NOT_ALLOWED /\ Spec.envelope r = true /\
      exists j, body r = Some j /\ json_get "success" j = Some (JBool false)).
Proof.
  assert (Hv : forall expected,
             Ensure.validateMethod now expected method = None <-> method = expected).
  { intros expected. unfold Ensure.validateMethod.
    unfold Ensure.refuse.
    destruct (String.eqb_spec method expected) as [->|Hne]; cbn [negb].
    - split; reflexivity.
    - split; [intros H; discriminate H|intros H; now destruct Hne]. }
  split; [exact Hv|]. split; [|split; [|split]].
  - intros methods. unfold Ensure.anyOf, Ensure.reject.
    rewrite <- includes_In.
    unfold Ensure.refuse.
    destruct (Ensure.includes methods method); cbn [negb]; split; split; intros H;
      first [reflexivity | discriminate H | (exfalso; now apply H) | (intros H'; discriminate H')].
  - intros expected Hpass Hstd. apply Hv in Hpass. subst expected.
    unfold Ensure.strict. apply includes_In in Hstd. now rewrite Hstd.
  - intros expected env Henv. unfold Ensure.envBased.
    destruct env as [s|]; [|reflexivity].
    destruct (String.eqb_spec s "production") as [->|Hne]; [congruence|].
    repeat (case_match; try reflexivity). subst. congruence.
  - intros expected methods msg env guard r Hin Hr.
    assert (Hrefuse : exists code m, Some r = Ensure.refuse now code m).
    { cbn [In] in Hin.
      destruct Hin as [<-|[<-|[<-|[<-|[<-|[<-|[]]]]]]]; revert Hr;
        unfold Ensure.validateMethod, Ensure.anyOf, Ensure.reject, Ensure.custom,
          Ensure.strict, Ensure.envBased, Ensure.dev, Ensure.validateMethod;
        repeat case_match; try discriminate; intros <-; eauto. }
    destruct Hrefuse as (code & m & [= ->]).
    split; [reflexivity|]. split; [reflexivity|]. eexists. split; reflexivity.
Qed.

End MethodGuards.

Section Display.
Import CountryModel CountryDisplay.

Lemma append_nonempty a b : a <> "" -> a +:+ b <> "".
Proof. destruct a; [congruence|]. intros _. discriminate. Qed.

Lemma String_of_Z_nonempty n : Js.String_of_Z n <> "".
Proof.
  destruct n as [|p|p]; [discriminate|rewrite String_of_Z_pos|].
  - pose proof (Unsigned.to_uint_nonnil p). destruct (Pos.to_uint p); [congruence|discriminate..].
  - unfold Js.String_of_Z. cbn. discriminate.
Qed.

Lemma template_truthy v : truthy_value (Some v) = true -> template (Some v) <> "".
Proof.
  destruct v as [|n| |s|]; cbn; try discriminate.
  - intros _. apply String_of_Z_nonempty.
  - destruct s; [discriminate|]. intros _. discriminate.
Qed.

Lemma or_unknown_truthy (o : option value) :
  truthy_value (Some (match o with
                      | Some c => if truthy_value o then c else VStr "Unknown"
                      | None => VStr "Unknown"
                      end)) = true.
Proof.
  destruct o as [c|]; [|reflexivity].
  destruct (truthy_value (Some c)) eqn:E; [exact E|reflexivity].
Qed.

(** X20. [getIdentifier()] never returns a falsy value and
    [getDisplayName()] never the empty string; on a validated country the
    identifier is the ISO code and the display name is the name, followed by
    a blank and the flag when there is one. *)
Theorem display_helpers_never_return_nothing this :
  truthy_value (Some (getIdentifier this)) = true /\
  getDisplayName this <> "" /\
  (forall c, validate this = Ok c ->
     getIdentifier c = default VNull (iso c) /\
     exists i n, iso c = Some (VStr i) /\ name c = Some (VStr n) /\
       Js.re_two_upper i = true /\
       (truthy_value (flag c) = false -> getDisplayName c = n) /\
       (forall f, flag c = Some (VStr f) -> truthy_value (flag c) = true ->
                  getDisplayName c = n +:+ " " +:+ f)).
Proof.
  split; [|split].
  - unfold getIdentifier, code_toString.
    destruct (iso this) as [i|] eqn:Ei.
    + destruct (truthy_value (Some i)) eqn:Ti; [exact Ti|]. apply or_unknown_truthy.
    + apply or_unknown_truthy.
  - unfold getDisplayName. cbv zeta. apply append_nonempty.
    destruct (name this) as [v|] eqn:En; [|cbn [truthy_value]; discriminate].
    destruct (truthy_value (Some v)) eqn:Tv; [now apply template_truthy|discriminate].
  - intros c Hval.
    destruct (validate_inv this c Hval)
      as (_ & _ & _ & (s & _ & Ei & Hs) & (m & _ & En & Hm) & _ & _ & _).
    assert (Ti : truthy_value (iso c) = true).
    { rewrite Ei. cbn. destruct (Js.toUpperCase (Js.trim s)); [discriminate Hs|reflexivity]. }
    assert (Tn : truthy_value (name c) = true).
    { rewrite En. cbn. destruct (Js.trim m); [cbn in Hm; lia|reflexivity]. }
    split.
    + unfold getIdentifier. rewrite Ei in *. now rewrite Ti.
    + exists (Js.toUpperCase (Js.trim s)), (Js.trim m).
      split; [exact Ei|]. split; [exact En|]. split; [exact Hs|].
      unfold getDisplayName. cbv zeta. rewrite Tn, En. cbn [template]. split.
      * intros ->. clear. induction (Js.trim m) as [|c r IH]; [reflexivity|].
        change (String c r +:+ "") with (String c (r +:+ "")). now rewrite IH.
      * intros f Ef ->. rewrite Ef. reflexivity.
Qed.

End Display.

Section LocalStamps.
Import TableInitializer.

Lemma max_lacks k (t : table) :
  (forall r : row, In r (rows t) -> r !! k = None) -> Model.max t k = None.
Proof.
  unfold Model.max. induction (rows t) as [|r rs IH]; [reflexivity|].
  intros H. cbn [foldr]. rewrite (H r) by now left. apply IH. intros r' Hin. apply H. now right.
Qed.

Lemma blank_lacks k cols : ~ In k cols -> Model.blank cols !! k = None.
Proof.
  intros Hk. unfold Model.blank. apply not_elem_of_list_to_map_1.
  rewrite <- list_fmap_compose. intros Hin. apply Hk.
  apply list_elem_of_fmap in Hin as (c & -> & Hc). cbn. now apply list_elem_of_In.
Qed.

Lemma lacks_revision (LocalTZA : Z -> Z) db t :
  getModel db CountryDbStructure.tableName = Ok t ->
  Schema.lacks "updated_at" t ->
  CountryRevision.getRevision LocalTZA db = Revision.default_revision.
Proof.
  intros Hm [_ Hrows]. unfold CountryRevision.getRevision, CountryModel.getLastModification,
    BaseModel.findLastModification.
  change CountryModel.tableName with CountryDbStructure.tableName. rewrite Hm.
  now rewrite (max_lacks _ t Hrows).
Qed.

Lemma create_keeps_lacking this db t c' db' :
  getModel db CountryDbStructure.tableName = Ok t ->
  Schema.lacks "updated_at" t ->
  CountryModel.create this db = Ok (c', db') ->
  exists t', getModel db' CountryDbStructure.tableName = Ok t' /\ Schema.lacks "updated_at" t'.
Proof.
  intros Hm [Hcols Hrows] Hcreate.
  destruct (create_inv this db c' db' Hcreate) as (t0 & c & Hm0 & Hval & H).
  assert (t0 = t) as -> by congruence. cbv zeta in H.
  destruct H as (_ & _ & -> & ->).
  eexists. split; [exact (getModel_setModel db _ t _ Hm)|].
  split; [exact Hcols|].
  intros r. cbn [rows]. intros [Hin|[<-|[]]]%in_app_iff; [now apply Hrows|].
  rewrite lookup_stored, lookup_createData.
  change (Spec.supplied c "updated_at") with (@None value).
  repeat case_decide; try discriminate. now apply blank_lacks.
Qed.

Lemma update_keeps_lacking this db t c' db' :
  getModel db CountryDbStructure.tableName = Ok t ->
  Schema.lacks "updated_at" t ->
  Country.isNew this = false ->
  Country.save this db = Ok (c', db') ->
  exists t', getModel db' CountryDbStructure.tableName = Ok t' /\ Schema.lacks "updated_at" t'.
Proof.
  intros Hm [Hcols Hrows] Hnew Hsave.
  destruct (save_update_inv this db c' db' Hnew Hsave) as (t0 & i & Hm0 & Hval & Hid & ->).
  assert (t0 = t) as -> by congruence.
  eexists. split; [exact (getModel_setModel db _ t _ Hm)|].
  split; [exact Hcols|].
  intros r'. cbn [rows]. intros Hin. apply in_map_iff in Hin as (r & <- & Hin).
  destruct (Model.satisfies {["id" := i]} r); [|now apply Hrows].
  rewrite lookup_written, updateData_supplied.
  change (Spec.supplied c' "updated_at") with (@None value). now apply Hrows.
Qed.

Lemma stamped_update_keeps_lacking now this db t c' db' :
  getModel db CountryDbStructure.tableName = Ok t ->
  Schema.lacks "updated_at" t ->
  StampedCountryModel.update now this db = Ok (c', db') ->
  exists t', getModel db' CountryDbStructure.tableName = Ok t' /\ Schema.lacks "updated_at" t'.
Proof.
  intros Hm [Hcols Hrows] Hupdate.
  destruct (stamped_update_inv now this db c' db' Hupdate) as (t0 & i & Hm0 & Hval & Hid & ->).
  assert (t0 = t) as -> by congruence.
  eexists. split; [exact (getModel_setModel db _ t _ Hm)|].
  split; [exact Hcols|].
  intros r'. cbn [rows]. intros Hin. apply in_map_iff in Hin as (r & <- & Hin).
  destruct (Model.satisfies {["id" := i]} r); [|now apply Hrows].
  rewrite lookup_written, lookup_insert_ne by discriminate.
  rewrite updateData_supplied.
  change (Spec.supplied c' "updated_at") with (@None value). now apply Hrows.
Qed.

Lemma delete_keeps_lacking this db t b db' :
  getModel db CountryDbStructure.tableName = Ok t ->
  Schema.lacks "updated_at" t ->
  Country.delete this db = Ok (b, db') ->
  exists t', getModel db' CountryDbStructure.tableName = Ok t' /\ Schema.lacks "updated_at" t'.
Proof.
  intros Hm [Hcols Hrows]. unfold Country.delete.
  destruct (CountryModel.id this) as [i|]; [|intros [= <- <-]; exists t; now repeat split].
  destruct (W.isOccur _ _); cbn [bind]; [|discriminate].
  unfold CountryModel.trash, BaseModel.deleteOne, CountryModel.tableName.
  rewrite Hm. cbn [bind Model.destroy]. intros [= <- <-].
  eexists. split; [exact (getModel_setModel db _ t _ Hm)|].
  split; [exact Hcols|].
  intros r. cbn [rows]. intros Hin. apply filter_In in Hin as [Hin _]. auto.
Qed.

(** X21. The private [getRevision()] of [Country] never leaves its
    default. The country table has no column [updated_at]: its schema is
    defined with [timestamps: true] and names no stamp column, so the stamp
    is [updatedAt]. The query for the last modification then finds nothing
    and the revision is '202501010000', as it is when the table is not
    registered. That the table lacks the column is kept by [save()] (create
    or update), by [update()] with the stamp of the ORM and by [delete()],
    so the revision is the default after each of them too. *)
Theorem country_revision_stays_the_default (LocalTZA : Z -> Z) db :
  (forall seq, Schema.lacks "updated_at" (Table CountryDbStructure.columns [] seq)) /\
  (forall e, getModel db CountryDbStructure.tableName = Throw e ->
     CountryRevision.getRevision LocalTZA db = Revision.default_revision) /\
  (forall t, getModel db CountryDbStructure.tableName = Ok t ->
     Schema.lacks "updated_at" t ->
     CountryRevision.getRevision LocalTZA db = Revision.default_revision /\
     (forall this c' db', Country.save this db = Ok (c', db') ->
        exists t', getModel db' CountryDbStructure.tableName = Ok t' /\
                   Schema.lacks "updated_at" t' /\
                   CountryRevision.getRevision LocalTZA db' = Revision.default_revision) /\
     (forall now this c' db', StampedCountryModel.update now this db = Ok (c', db') ->
        exists t', getModel db' CountryDbStructure.tableName = Ok t' /\
                   Schema.lacks "updated_at" t' /\
                   CountryRevision.getRevision LocalTZA db' = Revision.default_revision) /\
     (forall this b db', Country.delete this db = Ok (b, db') ->
        exists t', getModel db' CountryDbStructure.tableName = Ok t' /\
                   Schema.lacks "updated_at" t' /\
                   CountryRevision.getRevision LocalTZA db' = Revision.default_revision)).
Proof.
  split; [|split].
  - intros seq. split; [|intros r []].
    cbn [columns]. unfold CountryDbStructure.columns. cbn [In].
    intros H. repeat (destruct H as [H|H]; [discriminate H|]). exact H.
  - intros e He. unfold CountryRevision.getRevision, CountryModel.getLastModification,
      BaseModel.findLastModification.
    change CountryModel.tableName with CountryDbStructure.tableName. now rewrite He.
  - intros t Hm Hl. split; [exact (lacks_revision LocalTZA db t Hm Hl)|].
    split; [|split].
    + intros this c' db' Hsave.
      assert (exists t', getModel db' CountryDbStructure.tableName = Ok t'
                         /\ Schema.lacks "updated_at" t') as (t' & Hm' & Hl').
      { destruct (save_inv this db c' db' Hsave) as [[_ Hc]|Hnew].
        - exact (create_keeps_lacking this db t c' db' Hm Hl Hc).
        - exact (update_keeps_lacking this db t c' db' Hm Hl Hnew Hsave). }
      exists t'. split; [exact Hm'|]. split; [exact Hl'|].
      exact (lacks_revision LocalTZA db' t' Hm' Hl').
    + intros now this c' db' Hupdate.
      destruct (stamped_update_keeps_lacking now this db t c' db' Hm Hl Hupdate)
        as (t' & Hm' & Hl').
      exists t'. split; [exact Hm'|]. split; [exact Hl'|].
      exact (lacks_revision LocalTZA db' t' Hm' Hl').
    + intros this b db' Hdelete.
      destruct (delete_keeps_lacking this db t b db' Hm Hl Hdelete) as (t' & Hm' & Hl').
      exists t'. split; [exact Hm'|]. split; [exact Hl'|].
      exact (lacks_revision LocalTZA db' t' Hm' Hl').
Qed.


Lemma timestamp_digits LocalTZA now :
  1000 <= LocalDate.getFullYear LocalTZA now <= 9999 ->
  String.length (TokenGenerator.timestamp LocalTZA now) = 14%nat /\
  Js.all_chars Js.is_digit (TokenGenerator.timestamp LocalTZA now) = true.
Proof.
  intros Hyear. unfold TokenGenerator.timestamp.
  unfold LocalDate.getFullYear, LocalDate.getMonth, LocalDate.getDate, LocalDate.getHours,
    LocalDate.getMinutes, LocalDate.getSeconds in *.
  set (u := LocalDate.LocalTime LocalTZA now) in *.
  destruct (year_four_digits _ Hyear) as (Ey & Ly & Dy).
  assert (Hm : 0 <= Date.getUTCMonth u + 1 <= 99) by (pose proof (getUTCMonth_range u); lia).
  assert (Hd : 0 <= Date.getUTCDate u <= 99) by (pose proof (getUTCDate_range u); lia).
  assert (Hh : 0 <= Date.getUTCHours u <= 99) by (pose proof (getUTCHours_range u); lia).
  assert (Hn : 0 <= Date.getUTCMinutes u <= 99) by (pose proof (getUTCMinutes_range u); lia).
  assert (Hs : 0 <= (u / 1000) mod 60 <= 99) by (pose proof (Z.mod_pos_bound (u / 1000) 60); lia).
  destruct (pad2_two_digits _ Hm) as (Em & Lm & Dm).
  destruct (pad2_two_digits _ Hd) as (Ed & Ld & Dd).
  destruct (pad2_two_digits _ Hh) as (Eh & Lh & Dh).
  destruct (pad2_two_digits _ Hn) as (En & Ln & Dn).
  destruct (pad2_two_digits _ Hs) as (Es & Ls & Ds).
  split.
  - rewrite !length_append, Ly, Lm, Ld, Lh, Ln, Ls. reflexivity.
  - apply all_chars_append; [exact Dy|].
    apply all_chars_append; [exact Dm|].
    apply all_chars_append; [exact Dd|].
    apply all_chars_append; [exact Dh|].
    apply all_chars_append; [exact Dn|exact Ds].
Qed.

(** X22. [timeBasedTokenGenerator] returns [null] for an unknown table and
    for a length below 3. On a registered table, for a length from 3 to 15
    and ids below 10^15, the GUID 10^(length-1) + max(id) + 1 is positive
    and below 2^53, so the doubles of JavaScript compute and print it
    exactly: the token is the prefix, the divider, the local timestamp, the
    divider and the GUID in decimal, from which [parseInt] reads the GUID
    back; the timestamp has 14 digits when the local year has four. *)
Theorem time_based_token_carries_the_guid LocalTZA now db name length divider prefix :
  (forall e, getModel db name = Throw e ->
     TokenGenerator.timeBasedTokenGenerator LocalTZA now db name length divider prefix = None) /\
  (length < 3 ->
     TokenGenerator.timeBasedTokenGenerator LocalTZA now db name length divider prefix = None) /\
  (forall t, getModel db name = Ok t ->
     3 <= length <= 15 -> 0 <= Spec.max_id t < 10 ^ 15 ->
     let guid := 10 ^ (length - 1) + (Spec.max_id t + 1) in
     0 < guid < 2 ^ 53 /\
     BaseModel.guidGenerator db name length = Some guid /\
     TokenGenerator.timeBasedTokenGenerator LocalTZA now db name length divider prefix
     = Some (prefix +:+ divider +:+ TokenGenerator.timestamp LocalTZA now +:+ divider
             +:+ Js.String_of_Z guid) /\
     Js.parseInt (Js.String_of_Z guid) = Some guid /\
     (1000 <= LocalDate.getFullYear LocalTZA now <= 9999 ->
      String.length (TokenGenerator.timestamp LocalTZA now) = 14%nat /\
      Js.all_chars Js.is_digit (TokenGenerator.timestamp LocalTZA now) = true)).
Proof.
  split; [|split].
  - intros e He. unfold TokenGenerator.timeBasedTokenGenerator. now rewrite He.
  - intros Hlen. unfold TokenGenerator.timeBasedTokenGenerator.
    destruct (getModel db name); [|reflexivity].
    destruct (Z.ltb_spec length 3); [reflexivity|lia].
  - intros t Hm Hlen Hmax. cbv zeta.
    pose proof (guidGenerator_next_id db name t length Hm ltac:(lia)) as Hg.
    assert (Hpos : 0 < 10 ^ (length - 1)) by (apply Z.pow_pos_nonneg; lia).
    assert (Hle : 10 ^ (length - 1) <= 10 ^ 14) by (apply Z.pow_le_mono_r; lia).
    split; [|split; [exact Hg|split; [|split]]].
    + change (10 ^ 14) with 100000000000000 in Hle.
      change (10 ^ 15) with 1000000000000000 in Hmax.
      change (2 ^ 53) with 9007199254740992. lia.
    + unfold TokenGenerator.timeBasedTokenGenerator. rewrite Hm, Hg.
      destruct (Z.ltb_spec length 3); [lia|].
      unfold Js.truthy_Z.
      destruct (Z.eqb_spec (10 ^ (length - 1) + (Spec.max_id t + 1)) 0); [lia|reflexivity].
    + apply parseInt_String_of_Z. lia.
    + apply timestamp_digits.
Qed.


End LocalStamps.

Section EmptyUpdate.
Import TableInitializer.









End EmptyUpdate.

Section Monotone.

Lemma decimal_digit_value d :
  0 <= d <= 9 ->
  Js.is_digit (Spec.decimal_digit d) = true /\ Js.digit_value (Spec.decimal_digit d) = d.
Proof.
  intros H.
  assert (d = 0 \/ d = 1 \/ d = 2 \/ d = 3 \/ d = 4 \/ d = 5 \/ d = 6 \/ d = 7 \/ d = 8 \/ d = 9)
    as Hd by lia.
  repeat (destruct Hd as [-> | Hd]; [split; reflexivity|]). subst. split; reflexivity.
Qed.

Lemma digits_value_two acc n r :
  0 <= n <= 99 ->
  Js.digits_value acc (Spec.two_digits n +:+ r) = Js.digits_value (100 * acc + n) r.
Proof.
  intros H. unfold Spec.two_digits.
  change (String ?a (String ?b "") +:+ r) with (String a (String b r)).
  assert (H1 : 0 <= n / 10 <= 9) by (Z.div_mod_to_equations; lia).
  assert (H2 : 0 <= n mod 10 <= 9) by (Z.div_mod_to_equations; lia).
  destruct (decimal_digit_value _ H1) as [D1 V1].
  destruct (decimal_digit_value _ H2) as [D2 V2].
  cbn [Js.digits_value]. rewrite D1, D2, V1, V2. f_equal.
  Z.div_mod_to_equations; lia.
Qed.

Lemma digits_value_four acc y r :
  0 <= y <= 9999 ->
  Js.digits_value acc (Spec.four_digits y +:+ r) = Js.digits_value (10000 * acc + y) r.
Proof.
  intros H. unfold Spec.four_digits.
  change (String ?a (String ?b ?c) +:+ r) with (String a (String b (c +:+ r))).
  assert (H1 : 0 <= y / 1000 <= 9) by (Z.div_mod_to_equations; lia).
  assert (H2 : 0 <= y / 100 mod 10 <= 9) by (Z.div_mod_to_equations; lia).
  assert (H3 : 0 <= y mod 100 <= 99) by (Z.div_mod_to_equations; lia).
  destruct (decimal_digit_value _ H1) as [D1 V1].
  destruct (decimal_digit_value _ H2) as [D2 V2].
  cbn [Js.digits_value]. rewrite D1, D2, V1, V2.
  rewrite (digits_value_two _ _ r H3). f_equal.
  Z.div_mod_to_equations; lia.
Qed.

Lemma append_empty s : s +:+ "" = s.
Proof.
  induction s as [|c s IH]; [reflexivity|].
  change (String c s +:+ "") with (String c (s +:+ "")). now rewrite IH.
Qed.

Lemma stamp_value t :
  1000 <= Date.getUTCFullYear t <= 9999 ->
  Js.parseInt (Spec.YYYYMMDDHHMM t) = Some (Stamp.number t).
Proof.
  intros Hy.
  assert (Hm : 0 <= Date.getUTCMonth t + 1 <= 99) by (pose proof (getUTCMonth_range t); lia).
  assert (Hd : 0 <= Date.getUTCDate t <= 99) by (pose proof (getUTCDate_range t); lia).
  assert (Hh : 0 <= Date.getUTCHours t <= 99) by (pose proof (getUTCHours_range t); lia).
  assert (Hn : 0 <= Date.getUTCMinutes t <= 99) by (pose proof (getUTCMinutes_range t); lia).
  rewrite parseInt_digits.
  - unfold Spec.YYYYMMDDHHMM.
    rewrite digits_value_four by lia. rewrite !digits_value_two by lia.
    rewrite <- (append_empty (Spec.two_digits (Date.getUTCMinutes t))).
    rewrite digits_value_two by lia. cbn [Js.digits_value].
    f_equal. unfold Stamp.number. lia.
  - unfold Spec.YYYYMMDDHHMM, Spec.four_digits.
    change (String ?a ?b +:+ ?c) with (String a (b +:+ c)). cbn [Js.starts_with_digit].
    apply decimal_digit_value. Z.div_mod_to_equations; lia.
Qed.

Lemma number_date t :
  Stamp.number t
  = Stamp.date (Date.Day t) * 10000 + Date.getUTCHours t * 100 + Date.getUTCMinutes t.
Proof.
  unfold Stamp.number, Stamp.date, Stamp.date_in_year, Date.getUTCFullYear, Date.getUTCDate,
    Date.getUTCMonth.
  cbv zeta.
  generalize (Date.dayOfEra (Date.Day t)) (Date.era (Date.Day t)). intros doe e.
  destruct (Date.monthFromMarch (Date.dayOfYear doe) <? 10);
    match goal with |- context [?m <? 2] => destruct (m <? 2) end; lia.
Qed.

Lemma date_in_year_next doy :
  0 <= doy <= 364 -> Stamp.date_in_year doy < Stamp.date_in_year (doy + 1).
Proof.
  intros H. apply Z.ltb_lt.
  apply (all_between (fun d => Stamp.date_in_year d <? Stamp.date_in_year (d + 1)) 0 364);
    [vm_compute; reflexivity|exact H].
Qed.

Lemma date_in_year_bound doy : 0 <= doy <= 365 -> Stamp.date_in_year doy <= 10229.
Proof.
  intros H. apply Z.leb_le.
  apply (all_between (fun d => Stamp.date_in_year d <=? 10229) 0 365);
    [vm_compute; reflexivity|exact H].
Qed.

(** The year of the era moves by at most one from a day to the next, and
    only at the end of a year. *)
Lemma year_next doe :
  0 <= doe < 146096 ->
  Date.yearOfEra doe <= Date.yearOfEra (doe + 1) <= Date.yearOfEra doe + 1.
Proof. intros H. unfold Date.yearOfEra. Z.div_mod_to_equations; lia. Qed.

Lemma year_end doe :
  0 <= doe < 146096 ->
  doe < 365 * (Date.yearOfEra doe + 1) + (Date.yearOfEra doe + 1) / 4
        - (Date.yearOfEra doe + 1) / 100.
Proof. intros H. unfold Date.yearOfEra. Z.div_mod_to_equations; lia. Qed.

Lemma date_next day : Stamp.date day < Stamp.date (day + 1).
Proof.
  unfold Stamp.date.
  pose proof (dayOfEra_range day) as R.
  destruct (Z.eq_dec (Date.dayOfEra day) 146096) as [E|E].
  - assert (Date.dayOfEra (day + 1) = 0 /\ Date.era (day + 1) = Date.era day + 1) as [-> ->].
    { unfold Date.dayOfEra, Date.era in *. split; Z.div_mod_to_equations; lia. }
    rewrite E. vm_compute Date.yearOfEra. vm_compute Date.dayOfYear.
    vm_compute Stamp.date_in_year. lia.
  - assert (Date.dayOfEra (day + 1) = Date.dayOfEra day + 1 /\ Date.era (day + 1) = Date.era day)
      as [-> ->].
    { unfold Date.dayOfEra, Date.era in *. split; Z.div_mod_to_equations; lia. }
    revert R E. generalize (Date.dayOfEra day) (Date.era day). intros doe e R E.
    assert (B : 0 <= doe < 146096) by lia.
    pose proof (year_next doe B) as Hy. pose proof (year_end doe B) as He.
    pose proof (dayOfYear_range doe ltac:(lia)) as D.
    pose proof (dayOfYear_range (doe + 1) ltac:(lia)) as D'.
    unfold Date.dayOfYear in *. cbv zeta in *.
    revert Hy He D D'.
    generalize (Date.yearOfEra (doe + 1)) (Date.yearOfEra doe). intros y' y Hy He D D'.
    destruct (Z.eq_dec y' y) as [->|Hne].
    + replace (doe + 1 - (365 * y + y / 4 - y / 100))
        with (doe - (365 * y + y / 4 - y / 100) + 1) in * by lia.
      pose proof (date_in_year_next (doe - (365 * y + y / 4 - y / 100)) ltac:(lia)). lia.
    + assert (y' = y + 1) as -> by lia.
      replace (doe + 1 - (365 * (y + 1) + (y + 1) / 4 - (y + 1) / 100)) with 0 by lia.
      pose proof (date_in_year_bound (doe - (365 * y + y / 4 - y / 100)) D).
      change (Stamp.date_in_year 0) with 301. lia.
Qed.

Lemma date_monotone d1 d2 : d1 < d2 -> Stamp.date d1 < Stamp.date d2.
Proof.
  intros H. replace d2 with (d1 + 1 + Z.of_nat (Z.to_nat (d2 - d1 - 1))) by lia.
  generalize (Z.to_nat (d2 - d1 - 1)). intros n.
  induction n as [|n IH].
  - rewrite Z.add_0_r. apply date_next.
  - pose proof (date_next (d1 + 1 + Z.of_nat n)) as N.
    replace (d1 + 1 + Z.of_nat (S n)) with (d1 + 1 + Z.of_nat n + 1) by lia. lia.
Qed.

(** A later minute has a larger stamp. *)
Lemma number_monotone t1 t2 :
  t1 / Date.msPerMinute < t2 / Date.msPerMinute -> Stamp.number t1 < Stamp.number t2.
Proof.
  intros H. rewrite !number_date.
  pose proof (getUTCHours_range t1). pose proof (getUTCHours_range t2).
  pose proof (getUTCMinutes_range t1). pose proof (getUTCMinutes_range t2).
  destruct (Z.eq_dec (Date.Day t1) (Date.Day t2)) as [E|E].
  - rewrite E.
    assert (Date.getUTCHours t1 * 100 + Date.getUTCMinutes t1
            < Date.getUTCHours t2 * 100 + Date.getUTCMinutes t2); [|lia].
    unfold Date.getUTCHours, Date.getUTCMinutes, Date.Day, Date.msPerHour, Date.msPerMinute,
      Date.msPerDay in *.
    Z.div_mod_to_equations. lia.
  - assert (Date.Day t1 < Date.Day t2) as L.
    { unfold Date.Day, Date.msPerMinute, Date.msPerDay in *. Z.div_mod_to_equations. lia. }
    pose proof (date_monotone _ _ L). lia.
Qed.

(** The getters read the minute of an instant, not its seconds. *)
Lemma same_minute t1 t2 :
  t1 / Date.msPerMinute = t2 / Date.msPerMinute ->
  Date.Day t1 = Date.Day t2 /\ Date.getUTCHours t1 = Date.getUTCHours t2
  /\ Date.getUTCMinutes t1 = Date.getUTCMinutes t2.
Proof.
  intros H. unfold Date.Day, Date.getUTCHours, Date.getUTCMinutes.
  unfold Date.msPerMinute, Date.msPerDay, Date.msPerHour in *.
  rewrite H.
  replace (t1 / 86400000) with (t1 / 60000 / 1440) by (rewrite Z.div_div by lia; reflexivity).
  replace (t2 / 86400000) with (t2 / 60000 / 1440) by (rewrite Z.div_div by lia; reflexivity).
  replace (t1 / 3600000) with (t1 / 60000 / 60) by (rewrite Z.div_div by lia; reflexivity).
  replace (t2 / 3600000) with (t2 / 60000 / 60) by (rewrite Z.div_div by lia; reflexivity).
  rewrite H. auto.
Qed.

Lemma stamp_of_getters u :
  1000 <= Date.getUTCFullYear u <= 9999 ->
  Js.String_of_Z (Date.getUTCFullYear u) +:+ Revision.pad2 (Date.getUTCMonth u + 1)
  +:+ Revision.pad2 (Date.getUTCDate u) +:+ Revision.pad2 (Date.getUTCHours u)
  +:+ Revision.pad2 (Date.getUTCMinutes u) = Spec.YYYYMMDDHHMM u.
Proof.
  intros Hyear.
  destruct (year_four_digits _ Hyear) as (Ey & _ & _).
  assert (Hm : 0 <= Date.getUTCMonth u + 1 <= 99) by (pose proof (getUTCMonth_range u); lia).
  assert (Hd : 0 <= Date.getUTCDate u <= 99) by (pose proof (getUTCDate_range u); lia).
  assert (Hh : 0 <= Date.getUTCHours u <= 99) by (pose proof (getUTCHours_range u); lia).
  assert (Hn : 0 <= Date.getUTCMinutes u <= 99) by (pose proof (getUTCMinutes_range u); lia).
  destruct (pad2_two_digits _ Hm) as (Em & _ & _).
  destruct (pad2_two_digits _ Hd) as (Ed & _ & _).
  destruct (pad2_two_digits _ Hh) as (Eh & _ & _).
  destruct (pad2_two_digits _ Hn) as (En & _ & _).
  unfold Spec.YYYYMMDDHHMM. now rewrite Ey, Em, Ed, Eh, En.
Qed.

(** X24. Revisions are ordered as the minutes of the last modification: two
    tables last modified within the same UTC minute have the same revision,
    and when both years have four digits the revisions, read as numbers, are
    ordered as the modification times, strictly when the minutes differ. *)
Theorem revisions_are_ordered_as_the_minutes db1 db2 name t1 t2 :
  BaseModel.findLastModification db1 name = Some t1 ->
  BaseModel.findLastModification db2 name = Some t2 ->
  (t1 / 60000 = t2 / 60000 -> Revision.getRevision db1 name = Revision.getRevision db2 name)
  /\
  (1000 <= Date.getUTCFullYear t1 <= 9999 -> 1000 <= Date.getUTCFullYear t2 <= 9999 ->
   exists n1 n2,
     Js.parseInt (Revision.getRevision db1 name) = Some n1 /\
     Js.parseInt (Revision.getRevision db2 name) = Some n2 /\
     (t1 / 60000 < t2 / 60000 -> n1 < n2) /\
     (t1 <= t2 -> n1 <= n2)).
Proof.
  intros H1 H2. unfold Revision.getRevision. rewrite H1, H2. split.
  - intros E. destruct (same_minute t1 t2 E) as (Ed & Eh & Em).
    unfold Date.getUTCFullYear, Date.getUTCMonth, Date.getUTCDate.
    rewrite Ed, Eh, Em. reflexivity.
  - intros Y1 Y2. exists (Stamp.number t1), (Stamp.number t2).
    rewrite (stamp_of_getters _ Y1), (stamp_of_getters _ Y2).
    split; [apply (stamp_value _ Y1)|]. split; [apply (stamp_value _ Y2)|]. split.
    + apply number_monotone.
    + intros L.
      destruct (Z.eq_dec (t1 / 60000) (t2 / 60000)) as [E|N].
      * destruct (same_minute t1 t2 E) as (Ed & Eh & Em).
        unfold Stamp.number, Date.getUTCFullYear, Date.getUTCMonth, Date.getUTCDate.
        rewrite Ed, Eh, Em. lia.
      * apply Z.lt_le_incl, number_monotone.
        pose proof (Z.div_le_mono t1 t2 60000 ltac:(lia) L). unfold Date.msPerMinute. lia.
Qed.

End Monotone.

Section WorkedExamples.
Import TableInitializer ExtractQueryParams.

Lemma one_row_registered :
  getModel Fixtures.one_country CountryDbStructure.tableName = Ok Examples.one_row.
Proof. vm_compute. reflexivity. Qed.

Lemma one_row_keyed : Invariant.keyed Examples.one_row.
Proof.
  split; [split|split].
  - cbn. lia.
  - intros r [<-|[]]. exists 1, 100001. cbn [sequence Examples.one_row]. repeat split; try (vm_compute; reflexivity); lia.
  - unfold Invariant.unique. cbn [rows Examples.one_row fmap list_fmap]. apply NoDup_singleton.
  - unfold Invariant.unique. cbn [rows Examples.one_row fmap list_fmap]. apply NoDup_singleton.
Qed.

Lemma one_row_valid : Stored.valid Examples.one_row.
Proof.
  intros r [<-|[]]. split; [|split; [|split; [|split; [|split]]]].
  - exists 237. split; [vm_compute; reflexivity|lia].
  - exists "CM". split; vm_compute; reflexivity.
  - exists "Cameroon". split; [vm_compute; reflexivity|].
    split; [vm_compute; reflexivity|]. cbn. lia.
  - left. vm_compute. reflexivity.
  - left. vm_compute. reflexivity.
  - left. vm_compute. reflexivity.
Qed.

Lemma deleteOne_removes_exactly_the_matches_witness :
  exists t t',
    getModel Fixtures.one_country CountryDbStructure.tableName = Ok t /\
    getModel (Fixtures.countries [] 1) CountryDbStructure.tableName = Ok t' /\
    rows t' = List.filter (fun r => negb (Model.satisfies {["id" := VNum 1]} r)) (rows t) /\
    (true = true <-> exists r, In r (rows t) /\ Model.satisfies {["id" := VNum 1]} r = true) /\
    BaseModel.exists_ (Fixtures.countries [] 1) CountryDbStructure.tableName {["id" := VNum 1]}
    = Ok false /\
    BaseModel.findOne (Fixtures.countries [] 1) CountryDbStructure.tableName {["id" := VNum 1]}
    = Ok None /\
    (true = false -> (Fixtures.countries [] 1) = Fixtures.one_country) /\
    (forall other, other <> CountryDbStructure.tableName ->
       models (Fixtures.countries [] 1) !! other = models Fixtures.one_country !! other).
Proof.
  apply (deleteOne_removes_exactly_the_matches Fixtures.one_country
           CountryDbStructure.tableName {["id" := VNum 1]} true (Fixtures.countries [] 1)).
  vm_compute. reflexivity.
Defined.

Lemma save_and_delete_keep_ids_and_guids_unique_witness :
  (exists c' db' t',
     Country.save Examples.gabon Fixtures.one_country = Ok (c', db') /\
     getModel db' CountryDbStructure.tableName = Ok t' /\ Invariant.keyed t' /\
     CountryModel.create Examples.gabon Fixtures.one_country = Ok (c', db') /\
     CountryModel.guid c' = Some (VNum 100002) /\
     Spec.no_row_with Examples.one_row "guid" (VNum 100002)) /\
  (exists c' db' t',
     Country.save (Country.setName (VStr " Cameroun ") (Country.hydrate Fixtures.cameroon))
       Fixtures.one_country = Ok (c', db') /\
     getModel db' CountryDbStructure.tableName = Ok t' /\ Invariant.keyed t') /\
  (exists b db' t',
     Country.delete (Country.hydrate Fixtures.cameroon) Fixtures.one_country = Ok (b, db') /\
     getModel db' CountryDbStructure.tableName = Ok t' /\ Invariant.keyed t' /\
     b = true /\ length (rows t') = 0%nat).
Proof.
  split; [|split].
  - destruct (save_and_delete_keep_ids_and_guids_unique Examples.gabon Fixtures.one_country
                Examples.one_row one_row_registered one_row_keyed) as (Hsave & _ & Hcreate).
    destruct (Country.save Examples.gabon Fixtures.one_country) as [[c' db']|e] eqn:E;
      [|vm_compute in E; discriminate E].
    destruct (Hsave c' db' eq_refl) as (t' & Hm & Hk).
    assert (Hc : CountryModel.create Examples.gabon Fixtures.one_country = Ok (c', db')).
    { rewrite <- E. vm_compute. reflexivity. }
    destruct (Hcreate c' db' Hc) as [Hg Hfree].
    exists c', db', t'.
    split; [reflexivity|]. split; [exact Hm|]. split; [exact Hk|]. split; [exact Hc|].
    split; [exact Hg|exact Hfree].
  - destruct (save_and_delete_keep_ids_and_guids_unique
                (Country.setName (VStr " Cameroun ") (Country.hydrate Fixtures.cameroon))
                Fixtures.one_country
                Examples.one_row one_row_registered one_row_keyed) as (Hsave & _ & _).
    destruct (Country.save _ Fixtures.one_country) as [[c' db']|e] eqn:E;
      [|vm_compute in E; discriminate E].
    destruct (Hsave c' db' eq_refl) as (t' & Hm & Hk).
    exists c', db', t'. split; [reflexivity|]. split; [exact Hm|exact Hk].
  - destruct (save_and_delete_keep_ids_and_guids_unique
                (Country.hydrate Fixtures.cameroon) Fixtures.one_country
                Examples.one_row one_row_registered one_row_keyed) as (_ & Hdelete & _).
    destruct (Country.delete _ Fixtures.one_country) as [[b db']|e] eqn:E;
      [|vm_compute in E; discriminate E].
    destruct (Hdelete b db' eq_refl) as (t' & Hm & Hk).
    exists b, db', t'. split; [reflexivity|]. split; [exact Hm|]. split; [exact Hk|].
    pose proof (f_equal (fun r => match r with
                                  | Ok (b, d) =>
                                      match getModel d CountryDbStructure.tableName with
                                      | Ok t => Some (b, length (rows t))
                                      | Throw _ => None
                                      end
                                  | Throw _ => None
                                  end) E) as L.
    cbv beta iota in L. rewrite Hm in L. vm_compute in L. injection L as L1 L2.
    split; symmetry; assumption.
Defined.


Lemma create_keeps_code_and_iso_unique_witness :
  exists c' db' t',
    CountryModel.create Examples.gabon Fixtures.one_country = Ok (c', db') /\
    getModel db' CountryDbStructure.tableName = Ok t' /\
    Invariant.unique "code" t' /\ Invariant.unique "iso" t' /\
    length (rows t') = S (length (rows Examples.one_row)).
Proof.
  destruct (CountryModel.create Examples.gabon Fixtures.one_country) as [[c' db']|e] eqn:E;
    [|vm_compute in E; discriminate E].
  exists c', db'.
  destruct (create_keeps_code_and_iso_unique Examples.gabon Fixtures.one_country
              Examples.one_row c' db') as (t' & H).
  - vm_compute. reflexivity.
  - unfold Invariant.unique. cbn [rows Examples.one_row fmap list_fmap]. apply NoDup_singleton.
  - unfold Invariant.unique. cbn [rows Examples.one_row fmap list_fmap]. apply NoDup_singleton.
  - exact E.
  - exists t'. split; [reflexivity|exact H].
Defined.

Lemma one_row_plain : Text.plain_table Examples.one_row.
Proof. intros r [<-|[]]. vm_compute. reflexivity. Qed.

Lemma stored_countries_stay_valid_witness :
  (exists c' db' t',
     Country.save Examples.gabon Fixtures.one_country = Ok (c', db') /\
     getModel db' CountryDbStructure.tableName = Ok t' /\
     Stored.valid t' /\ Text.plain_table t' /\ length (rows t') = 2%nat) /\
  (exists b db' t',
     Country.delete (Country.hydrate Fixtures.cameroon) Fixtures.one_country
       = Ok (b, db') /\
     getModel db' CountryDbStructure.tableName = Ok t' /\
     Stored.valid t' /\ Text.plain_table t' /\ b = true /\ length (rows t') = 0%nat).
Proof.
  split.
  - destruct (Country.save Examples.gabon Fixtures.one_country) as [[c' db']|e] eqn:E;
      [|vm_compute in E; discriminate E].
    destruct (proj1 (stored_countries_stay_valid Examples.gabon Fixtures.one_country
                       Examples.one_row one_row_registered one_row_valid one_row_plain
                       eq_refl) c' db' E) as (t' & Hm & Hv & Hp).
    exists c', db', t'.
    split; [reflexivity|]. split; [exact Hm|]. split; [exact Hv|]. split; [exact Hp|].
    pose proof (f_equal (fun r => match r with
                                  | Ok (_, d) =>
                                      match getModel d CountryDbStructure.tableName with
                                      | Ok t => Some (length (rows t))
                                      | Throw _ => None
                                      end
                                  | Throw _ => None
                                  end) E) as L.
    cbv beta iota in L. rewrite Hm in L. vm_compute in L. injection L as L.
    symmetry. exact L.
  - destruct (Country.delete (Country.hydrate Fixtures.cameroon) Fixtures.one_country)
      as [[b db']|e] eqn:E; [|vm_compute in E; discriminate E].
    destruct (proj2 (stored_countries_stay_valid (Country.hydrate Fixtures.cameroon)
                       Fixtures.one_country
                       Examples.one_row one_row_registered one_row_valid one_row_plain
                       eq_refl) b db' E) as (t' & Hm & Hv & Hp).
    exists b, db', t'.
    split; [reflexivity|]. split; [exact Hm|]. split; [exact Hv|]. split; [exact Hp|].
    pose proof (f_equal (fun r => match r with
                                  | Ok (b, d) =>
                                      match getModel d CountryDbStructure.tableName with
                                      | Ok t => Some (b, length (rows t))
                                      | Throw _ => None
                                      end
                                  | Throw _ => None
                                  end) E) as L.
    cbv beta iota in L. rewrite Hm in L. vm_compute in L. injection L as L1 L2.
    split; symmetry; assumption.
Defined.


Lemma validate_is_idempotent_witness :
  exists c,
    CountryModel.validate Examples.gabon = Ok c /\
    Text.plain_country Examples.gabon = true /\
    CountryModel.validate c = Ok c /\
    Text.plain_country c = true /\
    CountryModel.iso c = Some (VStr "GA") /\
    CountryModel.name c = Some (VStr "Gabon").
Proof.
  destruct (CountryModel.validate Examples.gabon) as [c|e] eqn:E;
    [|vm_compute in E; discriminate E].
  exists c. split; [reflexivity|]. split; [reflexivity|].
  destruct (validate_is_idempotent Examples.gabon c E eq_refl) as (H1 & H2 & _).
  split; [exact H1|]. split; [exact H2|].
  vm_compute in E. injection E as <-. split; reflexivity.
Defined.



Lemma created_country_is_served_witness :
  let r := fst (CountryRoute.post Examples.clock Examples.gabon_body Fixtures.one_country) in
  let db' := snd (CountryRoute.post Examples.clock Examples.gabon_body Fixtures.one_country) in
  exists (c : CountryModel.t) (stored : row) (n g : Z) (s : string),
    r = R.handleCreated (Country.toJSON c) /\
    CountryModel.code c = Some (VNum n) /\
    CountryModel.guid c = Some (VNum g) /\
    CountryModel.iso c = Some (VStr s) /\
    stored !! "guid" = Some (VNum g) /\
    (forall col v, Spec.supplied c col = Some v -> stored !! col = Some v) /\
    CountryRoute.search_code Examples.clock (Js.String_of_Z n) db'
    = R.handleSuccess (Country.toJSON (Country.hydrate stored)) HttpStatus.SUCCESS /\
    CountryRoute.search_iso Examples.clock s db'
    = R.handleSuccess (Country.toJSON (Country.hydrate stored)) HttpStatus.SUCCESS /\
    CountryRoute.get Examples.clock (Js.String_of_Z g) db'
    = R.handleSuccess (Country.toJSON (Country.hydrate stored)) HttpStatus.SUCCESS.
Proof.
  cbv zeta.
  apply (created_country_is_served Examples.clock Examples.gabon_body Fixtures.one_country
           Examples.one_row).
  - vm_compute. reflexivity.
  - exact (proj1 one_row_keyed).
  - apply surjective_pairing.
  - vm_compute. reflexivity.
Defined.

Lemma deleted_country_is_gone_witness :
  let r := fst (CountryRoute.delete Examples.clock "100001" Fixtures.one_country) in
  let db' := snd (CountryRoute.delete Examples.clock "100001" Fixtures.one_country) in
  exists t' n,
    Js.parseInt "100001" = Some n /\
    getModel db' CountryDbStructure.tableName = Ok t' /\
    Spec.no_row_with t' "guid" (VNum n) /\
    (length (rows t') < length (rows Examples.one_row))%nat /\
    (forall r0, In r0 (rows t') -> In r0 (rows Examples.one_row)) /\
    fst (CountryRoute.delete Examples.clock "100001" db')
    = CountryRoute.fail Examples.clock HttpStatus.NOT_FOUND "country_not_found"
        "Country not found" /\
    (forall body, Js.re_six_digits "100001" = true ->
       fst (CountryRoute.put Examples.clock "100001" body db')
       = CountryRoute.fail Examples.clock HttpStatus.NOT_FOUND "country_not_found"
           "Country not found").
Proof.
  cbv zeta.
  apply (deleted_country_is_gone Examples.clock "100001" Fixtures.one_country
           Examples.one_row
           (fst (CountryRoute.delete Examples.clock "100001" Fixtures.one_country))).
  - vm_compute. reflexivity.
  - exact (proj2 (proj2 one_row_keyed)).
  - apply surjective_pairing.
  - vm_compute. reflexivity.
Defined.

Lemma put_accepts_the_six_digit_guids_witness :
  Js.re_six_digits "000001" = true /\
  Js.parseInt "000001" = Some 1 /\
  CountryRoute.put Examples.clock "000001" ∅ Fixtures.one_country
  = (CountryRoute.fail Examples.clock HttpStatus.NOT_FOUND "country_not_found"
       "Country not found", Fixtures.one_country) /\
  CountryRoute.put Examples.clock "1000000" ∅ Fixtures.one_country
  = (CountryRoute.fail Examples.clock HttpStatus.BAD_REQUEST "invalid_guid"
       "GUID must be a positive integer", Fixtures.one_country).
Proof.
  split; [reflexivity|]. split; [reflexivity|]. split.
  - destruct (proj1 (proj2 (put_accepts_the_six_digit_guids Examples.clock "000001" ∅
                              Fixtures.one_country)) eq_refl) as (n & Hn & _ & Hmissing).
    assert (n = 1) as -> by (vm_compute in Hn; congruence).
    apply (Hmissing Examples.one_row one_row_registered).
    intros r [<-|[]]. vm_compute. discriminate.
  - exact (proj1 (put_accepts_the_six_digit_guids Examples.clock "1000000" ∅
                    Fixtures.one_country) eq_refl).
Defined.



Lemma listings_report_their_pagination_witness :
  let query : gmap string string := {["limit" := "10"]} in
  exists o l items,
    Listing.reports (CountryRoute.list_ Examples.clock query Fixtures.one_country) o l
      (Z.of_nat (length items)) items /\
    0 <= o /\ Z.of_nat (length items) <= l /\
    (forall l', limit (extractPaginationFromQuery query) = Some l' -> l = l' /\ 0 < l' <= 1000) /\
    (forall s l', query !! "limit" = Some s -> Js.parseInt s = Some l' ->
                  0 < l' <= 1000 -> l = l').
Proof.
  cbv zeta.
  apply (listings_report_their_pagination Examples.clock "UTC" (Ok "UTC") {["limit" := "10"]}
           Fixtures.one_country).
  - now left.
  - vm_compute. reflexivity.
Defined.

Lemma one_row_lacks : Schema.lacks "updated_at" Examples.one_row.
Proof.
  split.
  - cbn [columns Examples.one_row]. unfold CountryDbStructure.columns. cbn [In].
    intros H. repeat (destruct H as [H|H]; [discriminate H|]). exact H.
  - intros r [<-|[]]. vm_compute. reflexivity.
Qed.

Lemma country_revision_stays_the_default_witness :
  CountryRevision.getRevision (fun _ => 3600000) Fixtures.one_country = "202501010000" /\
  exists c' db',
    Country.save Examples.gabon Fixtures.one_country = Ok (c', db') /\
    CountryRevision.getRevision (fun _ => 3600000) db' = "202501010000".
Proof.
  destruct (proj2 (proj2 (country_revision_stays_the_default (fun _ => 3600000)
                            Fixtures.one_country))
              Examples.one_row one_row_registered one_row_lacks) as (Hnow & Hsave & _).
  split; [exact Hnow|].
  destruct (Country.save Examples.gabon Fixtures.one_country) as [[c' db']|e] eqn:E;
    [|vm_compute in E; discriminate E].
  exists c', db'. split; [reflexivity|].
  destruct (Hsave Examples.gabon c' db' E) as (t' & _ & _ & H). exact H.
Defined.

Lemma time_based_token_carries_the_guid_witness :
  TokenGenerator.timeBasedTokenGenerator (fun _ => 3600000) 1709251199000
    Fixtures.one_country CountryDbStructure.tableName 3 "-" "A"
  = Some "A-20240301005959-102" /\
  BaseModel.guidGenerator Fixtures.one_country CountryDbStructure.tableName 3 = Some 102 /\
  Js.parseInt "102" = Some 102.
Proof.
  destruct (proj2 (proj2 (time_based_token_carries_the_guid (fun _ => 3600000) 1709251199000
                            Fixtures.one_country CountryDbStructure.tableName 3 "-" "A"))
              Examples.one_row one_row_registered)
    as (_ & Hg & Htoken & Hparse & _).
  - lia.
  - vm_compute. split; [discriminate|reflexivity].
  - split; [exact Htoken|]. split; [exact Hg|exact Hparse].
Defined.

End WorkedExamples.

Section WorkedBilling.
Import TableInitializer.

Lemma accepted_cycle_is_in_order_witness :
  let this := Fixtures.completed_with_invoice in
  (forall a b, BillingCycleDbStructure.period_start this = Js.val a ->
               BillingCycleDbStructure.period_end this = Js.val b -> a < b) /\
  (forall b c, BillingCycleDbStructure.period_end this = Js.val b ->
               BillingCycleDbStructure.payment_due_date this = Js.val c -> b < c) /\
  (forall a b c, BillingCycleDbStructure.period_start this = Js.val a ->
                 BillingCycleDbStructure.period_end this = Js.val b ->
                 BillingCycleDbStructure.payment_due_date this = Js.val c -> a < c) /\
  (BillingCycleDbStructure.billing_status this = Js.val BillingCycleDbStructure.COMPLETED ->
   exists i p, BillingCycleDbStructure.invoice_generated_at this = Js.val i /\
               BillingCycleDbStructure.payment_completed_at this = Js.val p).
Proof.
  cbv zeta. apply (accepted_cycle_is_in_order Fixtures.completed_with_invoice).
  vm_compute. reflexivity.
Defined.

Lemma model_validators_only_add_the_overdue_check_witness :
  let this := Fixtures.completed_with_invoice in
  BillingCycleOptions.periodDatesLogical this = Ok tt /\
  BillingCycleOptions.paymentDueDateLogical this = Ok tt /\
  (BillingCycleOptions.statusDependentFields 5000 this = Ok tt <->
   (BillingCycleDbStructure.billing_status this = Js.val BillingCycleOptions.OVERDUE ->
    exists due, BillingCycleDbStructure.payment_due_date this = Js.val due /\ due < 5000)).
Proof.
  cbv zeta.
  apply (model_validators_only_add_the_overdue_check 5000
           Fixtures.completed_with_invoice).
  vm_compute. reflexivity.
Defined.

Lemma complete_adjustment_is_judged_as_by_the_validators_witness :
  LicenseAdjustmentDbStructure.isValid
    (LicenseAdjustmentDbStructure.validateAdjustmentModel Examples.full_adjustment)
  = LicenseAdjustmentDbStructure.validateAmountCalculation 2 3 (Amount.decimal 500)
      (Amount.decimal 3000)
    && LicenseAdjustmentDbStructure.validateTotalCalculation (Amount.decimal 3000)
         (Amount.decimal 600) (Amount.decimal 3600)
    && LicenseAdjustmentDbStructure.validateLocalAmountsConsistency (Amount.decimal 3000)
         (Amount.decimal 600) (Amount.decimal 3600) 600 18000 3600 21600
    && LicenseAdjustmentDates.validatePaymentCompletedAfterAdjustment
         (LicenseAdjustmentDbStructure.adjustment_date Examples.full_adjustment)
         (LicenseAdjustmentDbStructure.payment_completed_at Examples.full_adjustment)
    && LicenseAdjustmentDates.validatePaymentCompletedAfterInvoice
         (LicenseAdjustmentDbStructure.invoice_sent_at Examples.full_adjustment)
         (LicenseAdjustmentDbStructure.payment_completed_at Examples.full_adjustment).
Proof.
  apply (complete_adjustment_is_judged_as_by_the_validators Examples.full_adjustment
           2 3 (Amount.decimal 500) (Amount.decimal 3000) (Amount.decimal 600)
           (Amount.decimal 3600) 600 18000 3600 21600 1000);
    first [reflexivity | (split; [reflexivity|split; vm_compute; reflexivity])].
Defined.

Lemma revisions_are_ordered_as_the_minutes_witness :
  Revision.getRevision Examples.leap_minute CountryDbStructure.tableName
  = Revision.getRevision Fixtures.leap_day CountryDbStructure.tableName /\
  exists n1 n2,
    Js.parseInt (Revision.getRevision Examples.leap_minute CountryDbStructure.tableName)
    = Some n1 /\
    Js.parseInt (Revision.getRevision Fixtures.leap_day CountryDbStructure.tableName)
    = Some n2 /\
    n1 <= n2.
Proof.
  destruct (revisions_are_ordered_as_the_minutes Examples.leap_minute Fixtures.leap_day
              CountryDbStructure.tableName 1709251140000 1709251199000)
    as [Hsame Hordered].
  - vm_compute. reflexivity.
  - vm_compute. reflexivity.
  - split; [apply Hsame; vm_compute; reflexivity|].
    destruct Hordered as (n1 & n2 & H1 & H2 & _ & Hle).
    + vm_compute. split; discriminate.
    + vm_compute. split; discriminate.
    + exists n1, n2. split; [exact H1|]. split; [exact H2|]. apply Hle. lia.
Defined.

End WorkedBilling.
